(* ===== verification/_CoqProject ===== *)
-Q . S2P
Prelude.v
PyValue.v
FloatParse.v
PyFloat.v
FloatOverflow.v
FloatStr.v
MatchLongRepeat.v
Socket.v
MeshKernel.v
LimitedDissolve.v
NodeContract.v
Editor.v
LoopMachine.v
NodeUI.v
DrawingAbstractions.v
