(* ===== verification/Prelude.v ===== *)
(** * A verification development of Sverchok's Limited Dissolve node

    The repository has two Python modules:

    - [src/nodes/modifier_change/limited_dissolve.py]: the node
      [SvLimitedDissolve].  Its [process] method reads three geometry inputs
      ([Verts], [Edges], [Polys]) and an [Angle] input from its sockets.  It
      aligns them with Sverchok's [match_long_repeat].  For each aligned batch
      it builds a BMesh ([bmesh_from_pydata]), calls Blender's
      [bmesh.ops.dissolve_limit], reads the result back ([pydata_from_bmesh]),
      frees the BMesh, and finally writes three output lists.  The angle comes
      from the node's [angle] property, or from the first value of the linked
      [Angle] socket coerced with Python's [float()]; a failed coercion falls
      back to the property.
    - [src/utils/modules/drawing_abstractions.py]: a graphics facade that
      picks one of two backends from Blender's version tuple.

    ** Files and what they model

    - [Prelude] (this file): the [result] type, a state-and-exception monad
      [stm] for Python code that mutates state and may raise, with its
      notation in [sv_scope], the tactics and the [sv] hint database, the
      generic list lemmas, and the reflexive-transitive closure [star] of a
      step relation with its invariant and determinism lemmas.
    - [PyValue]: the Python values that flow through sockets ([pyval]), the
      exceptions ([py_exc]), subscription [v[i]], [isinstance(v, (list,
      tuple))] and [len].
    - [FloatParse]: the grammar of Python's [float(str)] (sign, digits with
      underscores, fraction, exponent, [inf], [nan], surrounding whitespace).
    - [PyFloat]: Python's [float()] on every kind of value, with IEEE
      binary64 rounding from Stdlib's [SpecFloat] ([prec = 53],
      [emax = 1024]).  This covers [OverflowError] for integers too large for
      a double and the coercion of numpy arrays of size one.
    - [FloatOverflow]: where [float(i)] overflows.  It follows
      [SpecFloat]'s rounding bit by bit: the round and sticky bits that
      [shr] keeps ([shr_inv]), round half to even, and the renormalisation
      of a mantissa that rounded up to [2^53].
    - [FloatStr]: [float()] on the decimal text of an integer, Python's
      [str(i)], printed with Stdlib's [DecimalString]; the parser reads it
      back, and the result is compared with [float(i)].
    - [MatchLongRepeat]: Sverchok's [repeat_last] and [match_long_repeat].
      They are not under [src/], so they are modelled from the spec.
    - [Socket]: node sockets, [sv_get] with its default, [sv_set], and the
      node record with its two properties [angle] and
      [use_dissolve_boundaries] and the sockets made by [sv_init].
    - [MeshKernel]: the interface [MeshKernel] (a typeclass) of the external
      mesh kernel ([bmesh_from_pydata], [dissolve_limit],
      [pydata_from_bmesh]).  It also holds the world of live BMesh handles
      ([gmap positive]) that [bm.free()] releases.  What the spec says of
      the kernel is stated as two classes of laws: [KernelTotal] (every
      [valid_mesh] batch, the Mesh Batch of section 3, is accepted) and
      [KernelSpec] (section 8: no faces, nothing changes; allowing
      boundaries to dissolve never adds a vertex).
    - [LimitedDissolve]: the angle retrieval ([read_angle], [coerce_angle]),
      the loop body ([dissolve_batch]), the loop ([dissolve_loop]), the
      output writes ([write_outputs]) and [process].  It also holds the
      abstract contract [batch_spec]/[process_spec].  Its theorems are proved
      against the kernel interface, for every kernel; [example_kernel] only
      runs them on concrete nodes.
    - [NodeContract]: the node as the editor wires it ([wired_node]), and
      what it achieves on a kernel that obeys the laws; [example_kernel]
      satisfies both classes ([Instance]s), so every hypothesis can hold.
    - [Editor]: the node's life in the editor (spec section 5):
      [editor_step] is one event, a property assignment, an evaluation
      pass ([process]) or a re-linking of sockets of the same shape, and
      the states the node reaches are [star editor_step].
    - [LoopMachine]: the loop of lines 82-93 run one statement at a time.
      [instr] are its statements (unpacking of line 82, lines 83, 84-87,
      88, 89, 91-93), [regs] its local variables ([bm], [new_verts, ...],
      [r_verts, ...]), unbound until assigned; [lstep] is the small-step
      relation and [lnext] the same step as a function.
    - [NodeUI]: the class attributes, [draw_buttons] as the list of its
      [layout.prop] calls, and [register]/[unregister] over Blender's class
      registry, modelled as the list of registered [bl_idname]s with the
      errors Blender raises ([ValueError], [RuntimeError]).
    - [DrawingAbstractions]: the import of [drawing_abstractions.py] (its
      compilation, the class bodies as attribute expressions, the version
      tests on tuples) and calls through the instance [drawing] (binding of
      [self], argument counts, global name lookup).

    ** How the parts interact

    [process] reads its node from the world, calls the pure steps
    ([read_geometry], [read_angle], [align_inputs], which use [Socket],
    [PyFloat] and [MatchLongRepeat]), then runs the BMesh lifecycle of
    [MeshKernel] once per batch, and writes the outputs back into the node.
    Assigning a property ([set_angle], [set_use_dissolve_boundaries]) stores
    it and runs [process] again, as [update=updateNode] does.
    [NodeContract] composes these with the kernel laws; [Editor] interleaves
    evaluations with the user's edits; [LoopMachine] refines the loop of
    [process] to single statements; [NodeUI] is what Blender sees of the
    class.  The facade of [DrawingAbstractions] shares
    nothing with the node.

    ** Theorems, by group

    - Contract (C1): [process] implements [process_spec], a pure batch-wise
      map of the kernel, and gives back every BMesh it allocated.
    - Short-circuit (C2): with [Verts] unlinked, [process] changes nothing.
    - Idempotence (C15): a second run with nothing changed succeeds and
      leaves the node and the BMesh store as the first run left them.  The
      proof goes through the contract: [process_spec] reproduces the node
      it produced, because it reads only what [set_outputs] leaves alone
      ([node_cfg] and the link of [Verts]), and writing the same lists
      again is a no-op ([sv_set_in_noop]).
    - Alignment (C3, C4, C7): [match_long_repeat] is empty when an input is
      empty and pads to [max_l] otherwise.  Batch [i] holds item
      [min i (len-1)] of every input.  The node runs [max(Lv, Le, Lf, 1)]
      batches, all with the same angle.
    - Angle (C5, C6, C10): any [float()] failure falls back to the property.
      An empty linked input raises [IndexError].  A numpy array of size
      other than one silently falls back.
    - Store (C8, C9): a kernel error aborts with no output written.  A
      [dissolve_limit] error leaves the batch's BMesh unfreed when the
      exception leaves [process].
    - Frame and properties (C11, C12): [process] writes only the outputs of
      its node.  Assigning [angle] clamps it at [min=0.0], so the property
      is never negative.
    - Facade (C13, C14): the two version tests disagree exactly on 3.4.x.
      No function of [OldDrawing] runs through the instance.
    - Against the kernel laws (C16, C17, C18, C19): the wired node makes
      progress on well-formed input and frees every BMesh.  Its outputs hold
      one item per aligned batch.  With no faces, [Verts] passes through
      unchanged.  Setting [use_dissolve_boundaries] never adds a vertex.
      These are proved once against [KernelTotal]/[KernelSpec], through the
      contract of C1 ([process_sim]).
    - Iterations (C22): a run that returns went through its loop once per
      aligned batch, allocating and freeing one BMesh each time.
    - Errors of the node's own (C23, C24): the angle read raises only at
      [angle_values[0]] ([IndexError] on an empty sequence, [TypeError] on
      a non-sequence); an unlinked [Verts] input raises [SvNoDataError].
    - Default angle (C20): the default [5.0] reaches [dissolve_limit] as
      [angle_limit] in every batch, and it is more than [math.pi] radians.
    - Panel (C21): every property is editable, in the panel or as the
      default of the socket that shows it.
    - Editor (C25): on a kernel whose [dissolve_limit] accepts float angles
      and whose export never raises, no sequence of evaluations, property
      assignments and re-linkings changes the store of live BMeshes.  The
      proof is by induction on the sequence ([star_inv]), from one lemma
      per kind of event.
    - The loop, statement by statement (C26): in every configuration the
      loop reaches, the live BMeshes are those of the start plus at most
      the current iteration's, which [bm.free()] releases before the next
      [for] header (section 5's bound on peak memory); after an exception
      at most that one is left live.  The invariant follows the stage of
      the iteration ([stage_ok], [holds_bmesh]).
    - Integer angles (C27, C28): an integer [i] on the [Angle] input is
      used exactly when [|i| < 2^1024 - 2^970]; from there on [float(i)]
      raises [OverflowError] in the [try] and the node falls back to its
      property.  The same integer as text is never refused: it reaches
      [dissolve_limit] as an infinity.  The bound comes from [FloatOverflow],
      which follows [SpecFloat]'s rounding bit by bit.

    ** Fuel and bounds

    No definition of the node needs fuel: every loop of the source runs over
    a finite list, so every function here is structural.  The one fuelled
    function, [lrun], runs the loop machine for a given number of steps; it
    serves to name a concrete reachable configuration in the witness of
    C26, whose statement is about every reachable one.  [zip] is bounded by
    the length of its first argument, which is all Python's [zip] can
    consume.  Integers are [Z].  Floats are binary64 values of
    [SpecFloat.spec_float] ([prec = 53], [emax = 1024]), as CPython's are;
    an assigned [angle] is rounded to binary32 ([prec = 24], [emax = 128]).

    ** Not modelled

    - The [import] statements of lines 19-26: they bind names that the
      model refers to directly.
    - How Blender lays out and paints the panel: [draw_buttons] is modelled
      as the list of widgets it asks for.
    - The limited-dissolve algorithm itself.  It is Blender's C code and
      stays an opaque parameter of the [MeshKernel] interface; the spec's
      statements about it are the law classes, assumed by the theorems that
      need them, not proved.
    - The OpenGL/[gpu] state that the facade's functions would change: the
      module cannot be imported ([load_module] gives [SyntaxError]: the
      body of [Drawing] uses [pass] as a value) and no function of
      [OldDrawing] runs (C14), so on no host does any of them reach the
      graphics state.
    - A concrete BMesh behind [bmesh_from_pydata] and [pydata_from_bmesh]:
      Sverchok's adapter ([sverchok.utils.sv_bmesh_utils]) is not in the
      repository, the spec gives only its signature, and Blender's BMesh
      adds to the data (the edges of every face, for one), so a concrete
      model would be invented rather than translated.  The adapter stays
      part of the [MeshKernel] interface, and the Mesh kernel is modelled
      in part: the lifetime of every BMesh, not its content.
    - Unicode digits and whitespace in [float(str)]: only ASCII is modelled.
    - Python's garbage collection: the BMesh store holds what the node has
      not freed; Blender releases an unfreed BMesh later, when its Python
      object is deallocated, which is outside [process].
    - numpy scalars assigned to [angle] ([prop_float] accepts Python's
      [int], [float] and [bool] only), and the handling of an exception
      raised by the [updateNode] re-run: [set_angle] returns it, where
      Sverchok's update machinery reports it and keeps the assignment.  The
      stored value is the same either way.

    ** Plan for the next sittings

    Correct rounding of [float(str)] against the rational value of the
    literal: [b64_of_decimal] uses [SpecFloat]'s division, and a theorem
    that it gives the double nearest to [m / 10^k] would need a real-number
    model of rounding (Flocq), which is not installed. *)

From Stdlib Require Export ZArith Lia String Ascii.
From stdpp Require Export base list option.

Declare Scope sv_scope.
Delimit Scope sv_scope with sv.

(** ** Results: a value or a raised exception *)

Inductive result (E A : Type) : Type :=
| Ok (a : A)
| Err (e : E).
Arguments Ok {E A} a.
Arguments Err {E A} e.

Definition rbind {E A B} (c : result E A) (k : A -> result E B) : result E B :=
  match c with
  | Ok a => k a
  | Err e => Err e
  end.

(** Python's [try: ... except Exception: ...] around a pure computation:
    every exception is replaced by the fallback value. *)
Definition try_except {E A} (c : result E A) (fallback : A) : A :=
  match c with
  | Ok a => a
  | Err _ => fallback
  end.

(** ** A state-and-exception monad

    A raised exception keeps the state reached so far, as in Python:
    side effects before a [raise] are not undone. *)

Definition stm (S E A : Type) : Type := S -> result E A * S.

Definition sret {S E A} (a : A) : stm S E A := fun s => (Ok a, s).
Definition sbind {S E A B} (c : stm S E A) (k : A -> stm S E B) : stm S E B :=
  fun s => match c s with
           | (Ok a, s') => k a s'
           | (Err e, s') => (Err e, s')
           end.
Definition sraise {S E A} (e : E) : stm S E A := fun s => (Err e, s).
Definition sget {S E} : stm S E S := fun s => (Ok s, s).
Definition sput {S E} (s : S) : stm S E unit := fun _ => (Ok tt, s).
Definition smodify {S E} (f : S -> S) : stm S E unit := fun s => (Ok tt, f s).
Definition slift {S E A} (r : result E A) : stm S E A := fun s => (r, s).

Notation "x <- c ;; k" := (sbind c (fun x => k))
  (at level 100, c at next level, right associativity) : sv_scope.
Notation "x <-? c ;; k" := (rbind c (fun x => k))
  (at level 100, c at next level, right associativity) : sv_scope.

Open Scope sv_scope.

(** A [for] loop over a list whose body is a monadic action. *)
Fixpoint sfor {S E A B} (l : list A) (body : A -> stm S E B) : stm S E (list B) :=
  match l with
  | [] => sret []
  | x :: r => y <- body x ;; ys <- sfor r body ;; sret (y :: ys)
  end.

(** [map] with a function that may raise: the first exception wins. *)
Fixpoint rmap {E A B} (f : A -> result E B) (l : list A) : result E (list B) :=
  match l with
  | [] => Ok []
  | x :: r => y <-? f x ;; ys <-? rmap f r ;; Ok (y :: ys)
  end.

(** [c] keeps [P]: from a state satisfying [P], every run of [c] (normal
    or exceptional) ends in a state satisfying [P]. *)
Definition preserves {S E A} (P : S -> Prop) (c : stm S E A) : Prop :=
  forall s r s', P s -> c s = (r, s') -> P s'.

(** ** Sequences of transitions

    The reflexive transitive closure of a step relation, as in Leroy's
    [Sequences] library: the states reachable in zero or more steps. *)
Inductive star {A} (R : A -> A -> Prop) : A -> A -> Prop :=
| star_refl a : star R a a
| star_step a b c : R a b -> star R b c -> star R a c.

(** ** Tactics *)

Ltac invc H := inversion H; subst; clear H.

(** Case on the first [match] on a result or a pair in the goal. *)
Ltac case_result :=
  match goal with
  | |- context [match ?c with Ok _ => _ | Err _ => _ end] =>
      let E := fresh "E" in destruct c eqn:E
  | H : context [match ?c with Ok _ => _ | Err _ => _ end] |- _ =>
      let E := fresh "E" in destruct c eqn:E
  end.

Create HintDb sv discriminated.
Create Rewrite HintDb sv_rw.

(** ** Generic lemmas *)

Lemma sbind_ok {S E A B} (c : stm S E A) (k : A -> stm S E B) s a s' :
  c s = (Ok a, s') -> sbind c k s = k a s'.
Proof. intros H. unfold sbind. by rewrite H. Qed.

Lemma sbind_err {S E A B} (c : stm S E A) (k : A -> stm S E B) s e s' :
  c s = (Err e, s') -> sbind c k s = (Err e, s').
Proof. intros H. unfold sbind. by rewrite H. Qed.

Lemma rbind_ok {E A B} (a : A) (k : A -> result E B) : rbind (Ok a) k = k a.
Proof. reflexivity. Qed.

Lemma try_except_ok {E A} (a d : A) : @try_except E A (Ok a) d = a.
Proof. reflexivity. Qed.

Lemma try_except_err {E A} (e : E) (d : A) : @try_except E A (Err e) d = d.
Proof. reflexivity. Qed.

#[export] Hint Rewrite @rbind_ok @try_except_ok @try_except_err : sv_rw.

(** ** Invariants of monadic code *)

Lemma preserves_ret {S E A} P (a : A) : preserves P (@sret S E A a).
Proof. intros s r s' Hs H. by invc H. Qed.

Lemma preserves_raise {S E A} P (e : E) : preserves P (@sraise S E A e).
Proof. intros s r s' Hs H. by invc H. Qed.

Lemma preserves_get {S E} P : preserves P (@sget S E).
Proof. intros s r s' Hs H. by invc H. Qed.

Lemma preserves_lift {S E A} P (r : result E A) : preserves P (@slift S E A r).
Proof. intros s r' s' Hs H. by invc H. Qed.

Lemma preserves_bind {S E A B} P (c : stm S E A) (k : A -> stm S E B) :
  preserves P c -> (forall a, preserves P (k a)) -> preserves P (sbind c k).
Proof.
  intros Hc Hk s r s' Hs. unfold sbind.
  destruct (c s) as [[a|e] s1] eqn:Hcs; intros H.
  - eapply Hk; [|exact H]. eapply Hc; eauto.
  - invc H. eapply Hc; eauto.
Qed.

(** A loop keeps [P] when its body keeps [P] on the items it runs on. *)
Lemma preserves_sfor_in {S E A B} P (l : list A) (body : A -> stm S E B) :
  (forall x, In x l -> preserves P (body x)) -> preserves P (sfor l body).
Proof.
  induction l as [|x r IH]; intros Hb; simpl; [apply preserves_ret|].
  apply preserves_bind; [by apply Hb; left|]. intros y.
  apply preserves_bind; [apply IH; intros; apply Hb; by right|]. intros ys. apply preserves_ret.
Qed.

Lemma preserves_sfor {S E A B} P (l : list A) (body : A -> stm S E B) :
  (forall x, preserves P (body x)) -> preserves P (sfor l body).
Proof. intros Hb. by apply preserves_sfor_in. Qed.

(** A continuation need only keep [P] on the value the lifted result
    holds. *)
Lemma preserves_bind_lift {S E A B} P (r : result E A) (k : A -> stm S E B) :
  (forall a, r = Ok a -> preserves P (k a)) -> preserves P (sbind (slift r) k).
Proof.
  intros Hk s res s' Hs. unfold sbind, slift. destruct r as [a|e]; intros H.
  - exact (Hk a eq_refl s res s' Hs H).
  - by invc H.
Qed.

#[export] Hint Resolve preserves_ret preserves_raise preserves_get preserves_lift
  preserves_bind preserves_sfor : sv.

Lemma length_rmap {E A B} (f : A -> result E B) l l' :
  rmap f l = Ok l' -> length l' = length l.
Proof.
  revert l'. induction l as [|x r IH]; intros l' H; simpl in H; [by invc H|].
  destruct (f x); [|done]. simpl in H. destruct (rmap f r) eqn:Hr; [|done].
  invc H. simpl. f_equal. by apply IH.
Qed.

(** [rmap] succeeds when [f] succeeds on every item. *)
Lemma rmap_total {E A B} (f : A -> result E B) l :
  (forall x, In x l -> exists y, f x = Ok y) -> exists ys, rmap f l = Ok ys.
Proof.
  induction l as [|x r IH]; intros H; simpl; [by eexists|].
  destruct (H x (or_introl eq_refl)) as [y ->]. destruct IH as [ys ->]; [by eauto with datatypes|].
  simpl. by eexists.
Qed.

(** [rmap] over [map g l], where [f (g x)] is [Ok (h x)] on every item. *)
Lemma rmap_map_ok {E A B C} (f : B -> result E C) (g : A -> B) (h : A -> C) l :
  (forall x, In x l -> f (g x) = Ok (h x)) -> rmap f (map g l) = Ok (map h l).
Proof.
  induction l as [|x r IH]; intros H; simpl; [done|].
  rewrite H by (left; done). simpl. rewrite IH by (intros; apply H; by right). done.
Qed.

(** Item [i] of the result of [rmap] is [f] of item [i] of the input. *)
Lemma rmap_lookup {E A B} (f : A -> result E B) l ys i y :
  rmap f l = Ok ys -> ys !! i = Some y -> exists x, l !! i = Some x /\ f x = Ok y.
Proof.
  revert ys i. induction l as [|x r IH]; intros ys i H Hy; simpl in H; [invc H; done|].
  destruct (f x) eqn:Ex; [|done]. simpl in H. destruct (rmap f r) eqn:Hr; [|done]. invc H.
  destruct i as [|i]; simpl in Hy; [invc Hy; by eexists|]. exact (IH _ i eq_refl Hy).
Qed.

Lemma star_one {A} (R : A -> A -> Prop) a b : R a b -> star R a b.
Proof. intros H. eapply star_step; [exact H|apply star_refl]. Qed.

Lemma star_trans {A} (R : A -> A -> Prop) a b c : star R a b -> star R b c -> star R a c.
Proof. induction 1; eauto using star. Qed.

(** An invariant of the steps holds in every reachable state. *)
Lemma star_inv {A} (R : A -> A -> Prop) (P : A -> Prop) a b :
  (forall x y, P x -> R x y -> P y) -> P a -> star R a b -> P b.
Proof. intros HP Ha H. induction H; eauto. Qed.

Lemma list_max_app (l1 l2 : list nat) :
  list_max (l1 ++ l2) = Nat.max (list_max l1) (list_max l2).
Proof. induction l1; simpl; lia. Qed.

Lemma list_max_ge (l : list nat) x : In x l -> x <= list_max l.
Proof. induction l; simpl; intros []; subst; [lia|]. specialize (IHl H). lia. Qed.

#[export] Hint Resolve list_max_ge : sv.
