(* ===== verification/PyValue.v ===== *)
(** * Python values carried by Sverchok sockets

    The data a socket holds is a nested Python structure: lists and tuples
    of numbers, sometimes strings or numpy arrays.  This file gives them one
    type [pyval].  It also defines the exceptions the node can meet
    ([py_exc]) and the three Python primitives that [process] applies to
    socket data: subscription [v[i]], [isinstance(v, (list, tuple))] and
    the conversion of a sized object to the sequence of its items. *)

From S2P Require Import Prelude.
From Stdlib Require Import SpecFloat.

(** The exceptions that can reach or leave [process].  [ReferenceError]
    is what Blender raises on a freed BMesh.  [KernelError] stands for any
    other exception raised inside Blender's mesh kernel. *)
Inductive py_exc : Type :=
| TypeError
| ValueError
| OverflowError
| IndexError
| KeyError
| SvNoDataError
| ReferenceError
| SyntaxError
| NameError
| ImportError
| AttributeError
| RuntimeError
| KernelError (code : nat).

(** A Python value.  [VFloat] holds an IEEE binary64 double, as CPython's
    [float] does.  [VArray] is a numpy [ndarray] given by the list of its
    rows along the first axis (a row is a scalar or a sub-array). *)
#[local] Set Warnings "-register-all".
Inductive pyval : Type :=
| VNone
| VBool (b : bool)
| VInt (z : Z)
| VFloat (f : spec_float)
| VStr (s : string)
| VList (l : list pyval)
| VTuple (l : list pyval)
| VArray (l : list pyval).

Definition pyres (A : Type) : Type := result py_exc A.

(** [isinstance(v, (list, tuple))] (limited_dissolve.py, lines 62). *)
Definition is_list_or_tuple (v : pyval) : bool :=
  match v with
  | VList _ | VTuple _ => true
  | _ => false
  end.

(** The characters of a string, each as a one-character string. *)
Fixpoint str_chars (s : string) : list pyval :=
  match s with
  | EmptyString => []
  | String c r => VStr (String c EmptyString) :: str_chars r
  end.

(** The items of a sized object (an object with [__len__]); [None] for
    atomic objects, which have no length. *)
Definition py_items (v : pyval) : option (list pyval) :=
  match v with
  | VList l | VTuple l | VArray l => Some l
  | VStr s => Some (str_chars s)
  | _ => None
  end.

(** Python's index normalisation: a negative index counts from the end. *)
Definition py_index (len : nat) (i : Z) : option nat :=
  let j := if (i <? 0)%Z then (i + Z.of_nat len)%Z else i in
  if ((0 <=? j) && (j <? Z.of_nat len))%Z then Some (Z.to_nat j) else None.

(** Subscription [v[i]]: [TypeError] on an object that is not
    subscriptable, [IndexError] out of range. *)
Definition py_getitem (v : pyval) (i : Z) : pyres pyval :=
  match py_items v with
  | None => Err TypeError
  | Some l =>
      match py_index (length l) i with
      | None => Err IndexError
      | Some n =>
          match l !! n with
          | Some x => Ok x
          | None => Err IndexError
          end
      end
  end.

(** ** Lemmas *)

Lemma py_index_0 len : py_index len 0 = if decide (0 < len) then Some 0 else None.
Proof.
  unfold py_index. simpl. case_decide as H.
  - destruct len; [lia|]. reflexivity.
  - destruct len; [reflexivity|lia].
Qed.

Lemma py_getitem_0_cons v x l :
  py_items v = Some (x :: l) -> py_getitem v 0 = Ok x.
Proof. intros H. unfold py_getitem. rewrite H, py_index_0. case_decide; [done|simpl in *; lia]. Qed.

Lemma py_getitem_0_nil v :
  py_items v = Some [] -> py_getitem v 0 = Err IndexError.
Proof. intros H. unfold py_getitem. by rewrite H. Qed.

Lemma py_getitem_atomic v i :
  py_items v = None -> py_getitem v i = Err TypeError.
Proof. intros H. unfold py_getitem. by rewrite H. Qed.

#[export] Hint Resolve py_getitem_0_cons py_getitem_0_nil py_getitem_atomic : sv.

Lemma py_getitem_list_0 x l : py_getitem (VList (x :: l)) 0 = Ok x.
Proof. reflexivity. Qed.

Lemma py_getitem_tuple_0 x l : py_getitem (VTuple (x :: l)) 0 = Ok x.
Proof. reflexivity. Qed.

#[export] Hint Rewrite py_getitem_list_0 py_getitem_tuple_0 : sv_rw.
