(* ===== verification/FloatParse.v ===== *)
(** * The grammar of Python's [float(str)]

    [process] coerces the first value of the [Angle] input with [float()]
    (limited_dissolve.py, lines 64 and 69).  On a string, CPython strips
    the ASCII characters [str.isspace] accepts (space, tab to carriage
    return, and the separators 0x1C-0x1F) and accepts an optional sign followed by [inf],
    [infinity] or [nan] (in any case), or by a decimal literal.  In that
    literal each digit group may contain single underscores between digits,
    and a fraction and an exponent may follow:

      floatvalue ::= [sign] (floatnumber | infinity | nan)
      floatnumber ::= number [exponent]
      number ::= [digitpart] "." digitpart | digitpart ["."]
      exponent ::= ("e" | "E") [sign] digitpart
      digitpart ::= digit (["_"] digit)*

    [parse_float_lit] returns the literal as a sign, an integer mantissa
    and a power of ten; anything else is [None], on which [float()] raises
    [ValueError]. *)

From S2P Require Import Prelude.

(** [str.isspace] on an ASCII character. *)
Definition is_space (c : ascii) : bool :=
  let n := nat_of_ascii c in
  (n =? 32) || ((9 <=? n) && (n <=? 13)) || ((28 <=? n) && (n <=? 31)).

Definition is_digit (c : ascii) : bool :=
  let n := nat_of_ascii c in (48 <=? n) && (n <=? 57).

Definition digit_val (c : ascii) : nat := nat_of_ascii c - 48.

Definition lower (c : ascii) : ascii :=
  let n := nat_of_ascii c in
  if (65 <=? n) && (n <=? 90) then ascii_of_nat (n + 32) else c.

Fixpoint strip_left (s : list ascii) : list ascii :=
  match s with
  | c :: r => if is_space c then strip_left r else s
  | [] => []
  end.

(** [str.strip()] on ASCII whitespace. *)
Definition strip (s : list ascii) : list ascii := rev (strip_left (rev (strip_left s))).

(** The digits after the first one of a [digitpart]: a digit, or an
    underscore directly followed by a digit. *)
Fixpoint digit_more (s : list ascii) : list nat * list ascii :=
  match s with
  | c :: r =>
      if is_digit c then
        let '(ds, r') := digit_more r in (digit_val c :: ds, r')
      else if Ascii.eqb c "_" then
        match r with
        | d :: r2 =>
            if is_digit d then let '(ds, r') := digit_more r2 in (digit_val d :: ds, r')
            else ([], s)
        | [] => ([], s)
        end
      else ([], s)
  | [] => ([], [])
  end.

Definition digitpart (s : list ascii) : option (list nat * list ascii) :=
  match s with
  | c :: r =>
      if is_digit c then let '(ds, r') := digit_more r in Some (digit_val c :: ds, r')
      else None
  | [] => None
  end.

Definition parse_sign (s : list ascii) : bool * list ascii :=
  match s with
  | c :: r =>
      if Ascii.eqb c "-" then (true, r)
      else if Ascii.eqb c "+" then (false, r)
      else (false, s)
  | [] => (false, [])
  end.

(** [number]: the integer digits, the fraction digits and the rest. *)
Definition parse_number (s : list ascii) : option (list nat * list nat * list ascii) :=
  match digitpart s with
  | Some (ip, r) =>
      match r with
      | c :: r2 =>
          if Ascii.eqb c "." then
            match digitpart r2 with
            | Some (fp, r3) => Some (ip, fp, r3)
            | None => Some (ip, [], r2)
            end
          else Some (ip, [], r)
      | [] => Some (ip, [], [])
      end
  | None =>
      match s with
      | c :: r2 =>
          if Ascii.eqb c "." then
            match digitpart r2 with
            | Some (fp, r3) => Some ([], fp, r3)
            | None => None
            end
          else None
      | [] => None
      end
  end.

Definition digits_value (ds : list nat) : Z :=
  fold_left (fun acc d => acc * 10 + Z.of_nat d)%Z ds 0%Z.

(** [[exponent]], which must end the string. *)
Definition parse_exponent (s : list ascii) : option Z :=
  match s with
  | [] => Some 0%Z
  | c :: r =>
      if Ascii.eqb c "e" || Ascii.eqb c "E" then
        let '(neg, r2) := parse_sign r in
        match digitpart r2 with
        | Some (ds, []) => Some (if neg then Z.opp (digits_value ds) else digits_value ds)
        | _ => None
        end
      else None
  end.

(** A parsed literal: [LitNum neg m e] is [(-1)^neg * m * 10^e]. *)
Inductive float_lit : Type :=
| LitInf (neg : bool)
| LitNan
| LitNum (neg : bool) (m : Z) (e : Z).

Definition lower_string (l : list ascii) : string := string_of_list_ascii (map lower l).

Definition parse_float_lit (s : string) : option float_lit :=
  let '(neg, r) := parse_sign (strip (list_ascii_of_string s)) in
  let w := lower_string r in
  if String.eqb w "inf" || String.eqb w "infinity" then Some (LitInf neg)
  else if String.eqb w "nan" then Some LitNan
  else
    match parse_number r with
    | Some (ip, fp, rest) =>
        match parse_exponent rest with
        | Some e => Some (LitNum neg (digits_value (ip ++ fp)) (e - Z.of_nat (length fp))%Z)
        | None => None
        end
    | None => None
    end.

(** ** Lemmas *)

Lemma fold_digits_acc ds (a : Z) :
  fold_left (fun acc d => acc * 10 + Z.of_nat d)%Z ds a =
  (a * 10 ^ Z.of_nat (length ds) + digits_value ds)%Z.
Proof.
  unfold digits_value. revert a.
  induction ds as [|d ds IH]; intros a; simpl; [lia|].
  rewrite (IH (a * 10 + _)%Z), (IH (0 * 10 + _)%Z).
  rewrite Nat2Z.inj_succ, Z.pow_succ_r by lia. ring.
Qed.

Lemma digits_value_app ds1 ds2 :
  digits_value (ds1 ++ ds2) =
  (digits_value ds1 * 10 ^ Z.of_nat (length ds2) + digits_value ds2)%Z.
Proof. unfold digits_value at 1. by rewrite fold_left_app, fold_digits_acc. Qed.

Lemma digits_value_nonneg ds : (0 <= digits_value ds)%Z.
Proof.
  unfold digits_value.
  assert (H : forall a, (0 <= a)%Z ->
            (0 <= fold_left (fun acc d => acc * 10 + Z.of_nat d) ds a)%Z).
  { induction ds as [|d ds IH]; intros b Hb; simpl; [done|]. apply IH; lia. }
  apply H; lia.
Qed.
