(* ===== verification/PyFloat.v ===== *)
(** * Python's [float()] on socket values

    [process] calls [float(angle_values[0][0])] or [float(angle_values[0])]
    inside [try ... except Exception] (limited_dissolve.py, lines 63-71).
    This file gives [float()] its CPython meaning on every kind of [pyval]:
    - an [int] is rounded to the nearest binary64 (ties to even).  An
      [OverflowError] is raised when the rounded value is not finite.
    - a [str] is parsed with the grammar of [FloatParse] and rounded
      correctly.  Overflow gives [inf], not an error.
    - a [bool] gives [1.0] or [0.0]; a [float] is returned as it is.
    - [None], a [list] and a [tuple] raise [TypeError].
    - a numpy array of size one gives its only element.  Any other size
      raises [TypeError] ("only length-1 arrays can be converted").
    Doubles are [SpecFloat.spec_float] at [prec = 53], [emax = 1024]. *)

From S2P Require Import Prelude PyValue FloatParse.
From Stdlib Require Import SpecFloat.

Definition prec : Z := 53.
Definition emax : Z := 1024.

(** The double nearest to an integer. *)
Definition b64_of_Z (z : Z) : spec_float := binary_normalize prec emax z 0 false.

Definition b64_one : spec_float := b64_of_Z 1.

(** [float(i)] for a Python [int] [i] ([PyLong_AsDouble]). *)
Definition float_of_int (z : Z) : pyres spec_float :=
  match b64_of_Z z with
  | S754_infinity _ => Err OverflowError
  | f => Ok f
  end.

(** The double nearest to [(-1)^neg * m * 10^e]: an exact integer when
    [e >= 0], and a correctly rounded quotient [m / 10^(-e)] otherwise. *)
Definition b64_of_decimal (neg : bool) (m e : Z) : spec_float :=
  if (m =? 0)%Z then S754_zero neg
  else if (0 <=? e)%Z then
    binary_normalize prec emax (if neg then - (m * 10 ^ e) else m * 10 ^ e)%Z 0 neg
  else
    let '(q, e', l) := SFdiv_core_binary prec emax m 0 (10 ^ (- e)) 0 in
    binary_round_aux prec emax neg q e' l.

Definition float_of_lit (l : float_lit) : spec_float :=
  match l with
  | LitInf neg => S754_infinity neg
  | LitNan => S754_nan
  | LitNum neg m e => b64_of_decimal neg m e
  end.

(** [float(s)] for a Python [str] [s]. *)
Definition float_of_str (s : string) : pyres spec_float :=
  match parse_float_lit s with
  | Some l => Ok (float_of_lit l)
  | None => Err ValueError
  end.

(** The scalars of a numpy array in C order. *)
Fixpoint nd_flat (v : pyval) : list pyval :=
  match v with
  | VArray l => flat_map nd_flat l
  | _ => [v]
  end.

Definition py_float_scalar (v : pyval) : pyres spec_float :=
  match v with
  | VNone => Err TypeError
  | VBool b => Ok (if b then b64_one else S754_zero false)
  | VInt z => float_of_int z
  | VFloat f => Ok f
  | VStr s => float_of_str s
  | VList _ | VTuple _ | VArray _ => Err TypeError
  end.

(** Python's [float(v)]. *)
Definition py_float (v : pyval) : pyres spec_float :=
  match v with
  | VArray _ =>
      match nd_flat v with
      | [x] => py_float_scalar x
      | _ => Err TypeError
      end
  | _ => py_float_scalar v
  end.

(** ** Rounding lemmas

    [SpecFloat]'s rounding is computed by shifting the mantissa right
    ([shr]) until it fits [prec] bits, then rounding to nearest even. *)

Lemma digits2_pos_size p : digits2_pos p = Pos.size p.
Proof. induction p; simpl; congruence. Qed.

Lemma Zdigits2_log2 p : Zdigits2 (Zpos p) = (Z.log2 (Zpos p) + 1)%Z.
Proof.
  unfold Zdigits2. rewrite digits2_pos_size.
  destruct p; simpl; rewrite ?Pos2Z.inj_succ; lia.
Qed.

Lemma log2_bounds p : (2 ^ Z.log2 (Zpos p) <= Zpos p < 2 ^ (Z.log2 (Zpos p) + 1))%Z.
Proof. pose proof (Z.log2_spec (Zpos p) ltac:(lia)) as H. by rewrite <- Z.add_1_r in H. Qed.

Lemma fexp_b64 e : fexp prec emax e = Z.max (e - 53) (-1074).
Proof. reflexivity. Qed.

Lemma pow2_xO n : (2 ^ Zpos n~0 = 2 ^ Zpos n * 2 ^ Zpos n)%Z.
Proof. rewrite <- Z.pow_add_r by lia. f_equal. lia. Qed.

Lemma pow2_xI n : (2 ^ Zpos n~1 = 2 * (2 ^ Zpos n * 2 ^ Zpos n))%Z.
Proof. rewrite <- Z.pow_add_r, <- Z.pow_succ_r by lia. f_equal. lia. Qed.

Lemma shr_1_m r : (0 <= shr_m r)%Z -> shr_m (shr_1 r) = (shr_m r / 2)%Z.
Proof.
  destruct r as [m rr ss]. simpl. intros Hm.
  destruct m as [|[p|p|]|p]; simpl; try reflexivity; try lia.
  - rewrite Pos2Z.inj_xI, Z.add_comm, Z.mul_comm, Z.div_add by lia. reflexivity.
  - rewrite Pos2Z.inj_xO, Z.mul_comm, Z.div_mul by lia. reflexivity.
Qed.

Lemma iter_shr_1_m n r :
  (0 <= shr_m r)%Z -> shr_m (iter_pos shr_1 n r) = (shr_m r / 2 ^ Zpos n)%Z.
Proof.
  revert r. induction n as [n IH|n IH|]; intros r Hr; simpl.
  - assert (H1 : (0 <= shr_m (shr_1 r))%Z) by (rewrite shr_1_m by done; apply Z.div_pos; lia).
    assert (H2 : (0 <= shr_m (iter_pos shr_1 n (shr_1 r)))%Z)
      by (rewrite IH by exact H1; apply Z.div_pos; lia).
    rewrite (IH _ H2), (IH _ H1), shr_1_m by exact Hr.
    rewrite !Z.div_div by lia. f_equal. rewrite pow2_xI. ring.
  - assert (H1 : (0 <= shr_m (iter_pos shr_1 n r))%Z) by (rewrite IH by exact Hr; apply Z.div_pos; lia).
    rewrite (IH _ H1), (IH _ Hr), Z.div_div by lia. f_equal. rewrite pow2_xO. ring.
  - apply shr_1_m, Hr.
Qed.

(** [shr r e n] divides the mantissa by [2^n] and adds [n] to the exponent
    when [n] is positive, and does nothing otherwise. *)
Lemma shr_spec r e n :
  (0 <= shr_m r)%Z ->
  shr_m (fst (shr r e n)) = (shr_m r / 2 ^ Z.max n 0)%Z /\ snd (shr r e n) = (e + Z.max n 0)%Z.
Proof.
  intros Hr. destruct n as [|p|p]; simpl.
  - rewrite Z.div_1_r. split; [done|lia].
  - split; [by apply iter_shr_1_m|lia].
  - rewrite Z.div_1_r. split; [done|lia].
Qed.

Lemma shr_record_of_loc_m m l : shr_m (shr_record_of_loc m l) = m.
Proof. by destruct l as [|[]]. Qed.

Lemma round_nearest_even_ge m l : (m <= round_nearest_even m l <= m + 1)%Z.
Proof. destruct l as [|[]]; simpl; try lia. destruct (Z.even m); lia. Qed.

Lemma Zdigits2_pos m : (0 < m)%Z -> Zdigits2 m = (Z.log2 m + 1)%Z.
Proof. destruct m as [|p|p]; try lia. intros _. apply Zdigits2_log2. Qed.

(** Shifting out [digits - 53] bits keeps a positive mantissa positive. *)
Lemma div_digits_pos m : (0 < m)%Z -> (0 < m / 2 ^ Z.max (Zdigits2 m - 53) 0)%Z.
Proof.
  intros Hm. rewrite Zdigits2_pos by done. apply Z.div_str_pos. split; [lia|].
  pose proof (Z.log2_spec m Hm) as [Hl _]. pose proof (Z.log2_nonneg m).
  transitivity (2 ^ Z.log2 m)%Z; [apply Z.pow_le_mono_r; lia|done].
Qed.

(** The first shift of [binary_round_aux] when the exponent is normal. *)
Lemma shr_fexp_normal m e l :
  (0 < m)%Z -> (-1074 <= Zdigits2 m + e - 53)%Z ->
  shr_m (fst (shr_fexp prec emax m e l)) = (m / 2 ^ Z.max (Zdigits2 m - 53) 0)%Z /\
  snd (shr_fexp prec emax m e l) = (e + Z.max (Zdigits2 m - 53) 0)%Z.
Proof.
  intros Hm He. unfold shr_fexp. rewrite fexp_b64, Z.max_l by lia.
  replace (Zdigits2 m + e - 53 - e)%Z with (Zdigits2 m - 53)%Z by lia.
  pose proof (shr_spec (shr_record_of_loc m l) e (Zdigits2 m - 53)) as H.
  rewrite shr_record_of_loc_m in H. apply H. lia.
Qed.

(** A positive mantissa whose leading bit lies above [2^1024] rounds to an
    infinity. *)
Lemma round_aux_overflow s mx ex lx :
  (0 < mx)%Z -> (972 <= Zdigits2 mx + ex - 53)%Z ->
  binary_round_aux prec emax s mx ex lx = S754_infinity s.
Proof.
  intros Hm He. unfold binary_round_aux.
  pose proof (shr_fexp_normal mx ex lx Hm ltac:(lia)) as [Hq1 He1].
  destruct (shr_fexp prec emax mx ex lx) as [mrs1 e1]. cbn [fst snd] in Hq1, He1.
  pose proof (div_digits_pos mx Hm) as Hpos1.
  pose proof (round_nearest_even_ge (shr_m mrs1) (loc_of_shr_record mrs1)) as Hr.
  set (m1 := round_nearest_even (shr_m mrs1) (loc_of_shr_record mrs1)) in *.
  assert (Hm1 : (0 < m1)%Z) by lia.
  pose proof (Zdigits2_pos m1 Hm1). pose proof (Z.log2_nonneg m1).
  pose proof (shr_fexp_normal m1 e1 loc_Exact Hm1 ltac:(lia)) as [Hq2 He2].
  destruct (shr_fexp prec emax m1 e1 loc_Exact) as [mrs2 e2]. cbn [fst snd] in Hq2, He2.
  pose proof (div_digits_pos m1 Hm1) as Hpos2. rewrite <- Hq2 in Hpos2.
  destruct (shr_m mrs2) as [|p|p]; try lia.
  replace (e2 <=? emax - prec)%Z with false; [done|].
  symmetry. apply Z.leb_gt. unfold emax, prec. lia.
Qed.

Lemma round_aux_exact s m e :
  (2 ^ 52 <= Zpos m < 2 ^ 53)%Z -> (-1074 <= e <= 971)%Z ->
  binary_round_aux prec emax s (Zpos m) e loc_Exact = S754_finite s m e.
Proof.
  intros Hm He.
  assert (Hd : Zdigits2 (Zpos m) = 53%Z).
  { rewrite Zdigits2_log2. rewrite (Z.log2_unique (Zpos m) 52); [done|lia|].
    rewrite <- Z.add_1_r. exact Hm. }
  unfold binary_round_aux, shr_fexp. rewrite Hd, fexp_b64.
  replace (Z.max (53 + e - 53) (-1074) - e)%Z with 0%Z by lia. cbn [shr].
  simpl (shr_record_of_loc _ _). simpl (round_nearest_even _ _).
  unfold shr_fexp. cbn [shr_m]. rewrite Hd, fexp_b64.
  replace (Z.max (53 + e - 53) (-1074) - e)%Z with 0%Z by lia. cbn [shr shr_m].
  replace (e <=? emax - prec)%Z with true; [done|]. symmetry. apply Z.leb_le. unfold emax, prec. lia.
Qed.

Lemma iter_xO p k : Zpos (Pos.iter xO p k) = (Zpos p * 2 ^ Zpos k)%Z.
Proof.
  induction k as [|k IH] using Pos.peano_ind; [simpl; lia|].
  rewrite Pos.iter_succ, Pos2Z.inj_xO, IH, Pos2Z.inj_succ, Z.pow_succ_r by lia. ring.
Qed.

Lemma digits2_pos_log2 p : Zpos (digits2_pos p) = (Z.log2 (Zpos p) + 1)%Z.
Proof. exact (Zdigits2_log2 p). Qed.

(** An integer below [2^53] is rounded exactly: its mantissa is the integer
    shifted left by [-e]. *)
Lemma binary_round_small s p :
  (Zpos p < 2 ^ 53)%Z ->
  exists m e, binary_round prec emax s p 0 = S754_finite s m e /\ (e <= 0)%Z /\
    Zpos m = (Zpos p * 2 ^ (- e))%Z.
Proof.
  intros Hp. unfold binary_round. rewrite Z.add_0_r, fexp_b64, digits2_pos_log2.
  pose proof (log2_bounds p) as Hb. pose proof (Z.log2_nonneg (Zpos p)) as Hl0.
  assert (Hl : (Z.log2 (Zpos p) < 53)%Z) by (apply Z.log2_lt_pow2; lia).
  rewrite Z.max_l by lia. unfold shl_align.
  destruct (Z.log2 (Zpos p) + 1 - 53 - 0)%Z as [|k|k] eqn:Hk; try lia; cbn zeta.
  - exists p, 0%Z. split_and!; [|lia|simpl; lia].
    apply round_aux_exact; [|lia]. replace (Z.log2 (Zpos p)) with 52%Z in Hb by lia. lia.
  - exists (Pos.iter xO p k), (Z.log2 (Zpos p) + 1 - 53)%Z.
    assert (Hk' : Zpos k = (53 - (Z.log2 (Zpos p) + 1))%Z) by lia.
    split_and!; [|lia|rewrite iter_xO; f_equal; f_equal; lia].
    apply round_aux_exact; [|lia]. rewrite iter_xO, Hk'. split.
    + replace 52%Z with (Z.log2 (Zpos p) + (53 - (Z.log2 (Zpos p) + 1)))%Z by lia.
      rewrite Z.pow_add_r by lia. apply Z.mul_le_mono_nonneg_r; [apply Z.pow_nonneg|]; lia.
    + replace 53%Z with (Z.log2 (Zpos p) + 1 + (53 - (Z.log2 (Zpos p) + 1)))%Z at 2 by lia.
      rewrite (Z.pow_add_r 2 (Z.log2 (Zpos p) + 1)) by lia.
      apply Z.mul_lt_mono_pos_r; [apply Z.pow_pos_nonneg|]; lia.
Qed.

(** An integer from [2^1024] on rounds to an infinity. *)
Lemma binary_round_huge s p :
  (2 ^ 1024 <= Zpos p)%Z -> binary_round prec emax s p 0 = S754_infinity s.
Proof.
  intros Hp. assert (Hl : (1024 <= Z.log2 (Zpos p))%Z).
  { rewrite <- (Z.log2_pow2 1024) by lia. by apply Z.log2_le_mono. }
  unfold binary_round. rewrite Z.add_0_r, fexp_b64, digits2_pos_log2, Z.max_l by lia.
  unfold shl_align. destruct (Z.log2 (Zpos p) + 1 - 53 - 0)%Z as [|k|k] eqn:Hk; try lia.
  cbn zeta. apply round_aux_overflow; [lia|]. rewrite Zdigits2_log2. lia.
Qed.

Lemma b64_of_Z_pos p : b64_of_Z (Zpos p) = binary_round prec emax false p 0.
Proof. reflexivity. Qed.

Lemma b64_of_Z_neg p : b64_of_Z (Zneg p) = binary_round prec emax true p 0.
Proof. reflexivity. Qed.

(** ** Witnesses *)
