(* ===== verification/FloatOverflow.v ===== *)
(** * Where [float(i)] overflows

    [float_of_int] (PyFloat) raises [OverflowError] when the double nearest
    to the integer is an infinity, as CPython's [PyLong_AsDouble] does.
    This file finds the exact threshold: [float(i)] raises if and only if
    [|i| >= 2^1024 - 2^970], the midpoint between the largest double
    [(2^53 - 1) * 2^971] and [2^1024], where round-half-to-even goes up
    because the mantissa [2^53 - 1] is odd.

    The proof follows [SpecFloat]'s [binary_round_aux]: [shr] shifts the
    mantissa right one bit at a time ([shr_1]), keeping a round bit (the
    last bit shifted out) and a sticky bit (whether any earlier bit was
    set).  [shr_inv] states what the record holds after [k] shifts of [m],
    and [iter_pos_ind] carries it through [iter_pos].  Rounding to nearest
    even then adds one exactly when the round bit is set and the sticky
    bit or the last kept bit is too; the second shift of
    [binary_round_aux] renormalises a mantissa that rounded up to [2^53].

    [NodeContract] uses the threshold ([b64_of_Z_is_inf]) to state which
    integer angles the node uses and which make it fall back to its
    property (C27, C28). *)

From S2P Require Import Prelude PyValue FloatParse PyFloat.
From Stdlib Require Import SpecFloat.

Local Open Scope Z_scope.

(** Whether a double is an infinity. *)
Definition b64_is_inf (f : spec_float) : bool :=
  match f with S754_infinity _ => true | _ => false end.

(** What the record of [shr] holds after [k] shifts of [m]: the quotient,
    the last bit shifted out, and whether any bit before it was set. *)
Definition shr_inv (m k : Z) (r : shr_record) : Prop :=
  shr_m r = m / 2 ^ k /\ shr_r r = Z.testbit m (k - 1) /\
  shr_s r = ((0 <? k) && negb (m mod 2 ^ (k - 1) =? 0)).

(** The end of [binary_round_aux]: the rounded mantissa is renormalised
    ([2^53] becomes [2^52] with the exponent one higher) and the exponent
    checked against [emax - prec]. *)
Definition round_finish (s : bool) (m e : Z) : spec_float :=
  let '(mrs, e') := shr_fexp prec emax m e loc_Exact in
  match shr_m mrs with
  | Z0 => S754_zero s
  | Zpos m => if e' <=? emax - prec then S754_finite s m e' else S754_infinity s
  | _ => S754_nan
  end.

(** ** Shifting one bit at a time *)

Lemma iter_pos_ind {A} (P : Z -> A -> Prop) (f : A -> A) :
  (forall k x, 0 <= k -> P k x -> P (k + 1) (f x)) ->
  forall n k x, 0 <= k -> P k x -> P (k + Zpos n) (iter_pos f n x).
Proof.
  intros Hf n. induction n as [n IH|n IH|]; intros k x Hk Hx; simpl.
  - replace (k + Zpos n~1) with (k + 1 + Zpos n + Zpos n) by lia.
    apply IH; [lia|]. apply IH; [lia|]. by apply Hf.
  - replace (k + Zpos n~0) with (k + Zpos n + Zpos n) by lia.
    apply IH; [lia|]. by apply IH.
  - by apply Hf.
Qed.

Lemma shr_1_r r : 0 <= shr_m r -> shr_r (shr_1 r) = Z.odd (shr_m r).
Proof. destruct r as [m rr ss]. simpl. intros Hm. destruct m as [|[p|p|]|p]; simpl; try reflexivity; lia. Qed.

Lemma shr_1_s r : shr_s (shr_1 r) = shr_r r || shr_s r.
Proof. destruct r as [m rr ss]. by destruct m as [|[p|p|]|[p|p|]]. Qed.

Lemma testbit_div m k : 0 <= k -> Z.testbit m k = Z.odd (m / 2 ^ k).
Proof. intros Hk. by rewrite Z.testbit_odd, Z.shiftr_div_pow2. Qed.

Lemma pow2_pos k : 0 <= k -> 0 < 2 ^ k.
Proof. intros Hk. by apply Z.pow_pos_nonneg. Qed.

(** The bits below [k] are not all clear when bit [k - 1] or one below it
    is set. *)
Lemma mod_pow2_nonzero m k :
  1 <= k ->
  negb (m mod 2 ^ k =? 0) = Z.odd (m / 2 ^ (k - 1)) || negb (m mod 2 ^ (k - 1) =? 0).
Proof.
  intros Hk. pose proof (pow2_pos (k - 1) ltac:(lia)) as Hp.
  replace (2 ^ k) with (2 ^ (k - 1) * 2)
    by (rewrite Z.mul_comm, <- Z.pow_succ_r by lia; f_equal; lia).
  rewrite Z.rem_mul_r by lia. rewrite Zmod_odd.
  pose proof (Z.mod_pos_bound m (2 ^ (k - 1)) Hp).
  destruct (Z.odd _); destruct (Z.eqb_spec (m mod 2 ^ (k - 1)) 0);
    match goal with |- negb (?x =? 0) = _ => destruct (Z.eqb_spec x 0) end;
    simpl; first [reflexivity | exfalso; lia].
Qed.

Lemma shr_inv_step m k r : 0 <= m -> 0 <= k -> shr_inv m k r -> shr_inv m (k + 1) (shr_1 r).
Proof.
  intros Hm Hk (H1 & H2 & H3). pose proof (pow2_pos k Hk) as Hp.
  assert (Hq : 0 <= shr_m r) by (rewrite H1; by apply Z.div_pos).
  split_and!.
  - rewrite shr_1_m, H1 by done. rewrite Z.div_div by lia. by rewrite Z.pow_add_r by lia.
  - rewrite shr_1_r, H1 by done. replace (k + 1 - 1) with k by lia. by rewrite testbit_div.
  - rewrite shr_1_s, H2, H3. replace (k + 1 - 1) with k by lia.
    destruct (Z.eq_dec k 0) as [->|Hk0].
    + rewrite Z.testbit_neg_r by lia. simpl. by rewrite Z.mod_1_r.
    + replace (0 <? k + 1) with true by lia. replace (0 <? k) with true by lia. simpl.
      rewrite testbit_div by lia. symmetry. apply mod_pow2_nonzero. lia.
Qed.

(** [shr] on an exact mantissa, by [n > 0] bits. *)
Lemma shr_exact_inv m n : 0 <= m -> shr_inv m (Zpos n) (iter_pos shr_1 n (shr_record_of_loc m loc_Exact)).
Proof.
  intros Hm. change (Zpos n) with (0 + Zpos n).
  apply (iter_pos_ind (shr_inv m) shr_1); [|lia|].
  - intros k x Hk Hx. by apply shr_inv_step.
  - split_and!; simpl; [by rewrite Z.div_1_r|reflexivity|reflexivity].
Qed.

(** ** Rounding *)

Lemma binary_round_aux_finish s mx ex lx :
  binary_round_aux prec emax s mx ex lx =
  let '(mrs, e) := shr_fexp prec emax mx ex lx in
  round_finish s (round_nearest_even (shr_m mrs) (loc_of_shr_record mrs)) e.
Proof. unfold binary_round_aux, round_finish. by destruct (shr_fexp _ _ _ _ _). Qed.

(** Round half to even after shifting [n] bits out of [m]: one more when
    the round bit is set and the sticky bit or the last kept bit is. *)
Lemma round_shr m n :
  0 <= m ->
  let r := iter_pos shr_1 n (shr_record_of_loc m loc_Exact) in
  round_nearest_even (shr_m r) (loc_of_shr_record r) =
  m / 2 ^ Zpos n +
  (if Z.testbit m (Zpos n - 1) && (negb (m mod 2 ^ (Zpos n - 1) =? 0) || Z.odd (m / 2 ^ Zpos n))
   then 1 else 0).
Proof.
  intros Hm r. destruct (shr_exact_inv m n Hm) as (H1 & H2 & H3). fold r in H1, H2, H3.
  destruct r as [q rb sb]. simpl in H1, H2, H3 |- *. subst q rb sb.
  change (0 <? Zpos n) with true. simpl.
  destruct (Z.testbit _ _), (negb _); simpl; try lia.
  rewrite <- Z.negb_odd. destruct (Z.odd _); simpl; lia.
Qed.

Lemma log2_pow2_iff m k : 0 < m -> 0 <= k -> (2 ^ k <= m < 2 ^ (k + 1) <-> Z.log2 m = k).
Proof.
  intros Hm Hk. split.
  - intros Hb. apply Z.log2_unique; [lia|]. by rewrite <- Z.add_1_r.
  - intros <-. pose proof (Z.log2_spec m Hm) as H. by rewrite <- Z.add_1_r in H.
Qed.

(** A rounded mantissa of 53 bits is kept: the result is finite unless
    the exponent is past [emax - prec]. *)
Lemma round_finish_53 s m e :
  2 ^ 52 <= m < 2 ^ 53 -> -1074 <= e -> b64_is_inf (round_finish s m e) = negb (e <=? 971).
Proof.
  intros Hm He. unfold round_finish, shr_fexp.
  assert (Hl : Z.log2 m = 52) by (apply log2_pow2_iff; lia).
  rewrite Zdigits2_pos by lia. rewrite Hl.
  rewrite fexp_b64. replace (Z.max (52 + 1 + e - 53) (-1074) - e) with 0 by lia. simpl.
  destruct m as [|q|q]; try lia. change (emax - prec) with 971. by destruct (e <=? 971).
Qed.

(** A mantissa that rounded up to [2^53] is renormalised one exponent up. *)
Lemma round_finish_54 s e : -1074 <= e -> b64_is_inf (round_finish s (2 ^ 53) e) = negb (e + 1 <=? 971).
Proof.
  intros He. unfold round_finish, shr_fexp.
  change (Zdigits2 (2 ^ 53)) with 54. rewrite fexp_b64.
  replace (Z.max (54 + e - 53) (-1074) - e) with 1 by lia. simpl.
  change (emax - prec) with 971. by destruct (e + 1 <=? 971).
Qed.

(** The threshold, in bits: from [2^1023] on, an integer is at least
    [2^1024 - 2^970] exactly when its top 53 bits are all set and so is
    the next one. *)
Lemma threshold_bits p :
  0 <= p < 2 ^ 1024 ->
  (2 ^ 1024 - 2 ^ 970 <= p <-> p / 2 ^ 971 = 2 ^ 53 - 1 /\ Z.testbit p 970 = true).
Proof.
  intros Hp. rewrite testbit_div by lia.
  replace (2 ^ 971) with (2 ^ 970 * 2) by reflexivity. rewrite <- Z.div_div by lia.
  pose proof (Z.div_mod p (2 ^ 970) ltac:(lia)) as Hd.
  pose proof (Z.mod_pos_bound p (2 ^ 970) ltac:(lia)) as Hr.
  set (d := p / 2 ^ 970) in *. set (r := p mod 2 ^ 970) in *.
  pose proof (Z.div_mod d 2 ltac:(lia)) as Hd2. rewrite Zmod_odd in Hd2.
  destruct (Z.odd d); split; intros H; try (split; [|done]); try lia.
Qed.

(** An integer below [2^1023] is far below the threshold. *)
Lemma below_threshold p L :
  Zpos p < 2 ^ (L + 1) -> L < 1023 -> (2 ^ 1024 - 2 ^ 970 <=? Zpos p) = false.
Proof.
  intros Hp HL. apply Z.leb_gt.
  assert (2 ^ (L + 1) <= 2 ^ 1023) by (destruct (Z.le_gt_cases 0 (L + 1));
    [apply Z.pow_le_mono_r; lia|rewrite Z.pow_neg_r by lia; lia]).
  lia.
Qed.

(** An integer with 54 to 1024 bits is rounded with [n = bits - 53] bits
    shifted out; the result is an infinity exactly from the threshold on. *)
Lemma binary_round_mid s p :
  2 ^ 53 <= Zpos p < 2 ^ 1024 ->
  b64_is_inf (binary_round prec emax s p 0) = (2 ^ 1024 - 2 ^ 970 <=? Zpos p).
Proof.
  intros Hp. set (L := Z.log2 (Zpos p)).
  assert (HL1 : 53 <= L) by (apply Z.log2_le_pow2; lia).
  assert (HL2 : L < 1024) by (apply Z.log2_lt_pow2; lia).
  pose proof (log2_bounds p) as Hb. fold L in Hb.
  assert (En : L + 1 - 53 = Zpos (Z.to_pos (L - 52))) by (rewrite Z2Pos.id; lia).
  set (n := Z.to_pos (L - 52)) in En.
  unfold binary_round. rewrite Z.add_0_r, fexp_b64, digits2_pos_log2. fold L.
  rewrite Z.max_l by lia. unfold shl_align. rewrite Z.sub_0_r, En. cbv beta iota zeta.
  rewrite binary_round_aux_finish. unfold shr_fexp. rewrite Zdigits2_log2, fexp_b64. fold L.
  replace (Z.max (L + 1 + 0 - 53) (-1074) - 0) with (Zpos n) by lia.
  unfold shr. cbv beta iota zeta. rewrite round_shr by lia.
  assert (Hq : 2 ^ 52 <= Zpos p / 2 ^ Zpos n < 2 ^ 53).
  { assert (Hn : 0 < 2 ^ Zpos n) by (apply pow2_pos; lia). split.
    - apply Z.div_le_lower_bound; [done|]. rewrite <- Z.pow_add_r by lia.
      replace (Zpos n + 52) with L by lia. lia.
    - apply Z.div_lt_upper_bound; [done|]. rewrite <- Z.pow_add_r by lia.
      replace (Zpos n + 53) with (L + 1) by lia. lia. }
  set (q := Zpos p / 2 ^ Zpos n) in *.
  destruct (Z.eq_dec L 1023) as [HL|HL].
  - assert (Hn : Zpos n = 971) by lia. rewrite Hn in *. replace (971 - 1) with 970 by reflexivity.
    pose proof (threshold_bits (Zpos p) ltac:(lia)) as Ht.
    assert (Eq : Zpos p / 2 ^ 971 = q) by (unfold q; by rewrite Hn). rewrite Eq in Ht.
    destruct (Z.testbit (Zpos p) 970) eqn:Et; cbn [andb orb].
    + destruct (Z.eq_dec q (2 ^ 53 - 1)) as [Hq1|Hq1].
      * rewrite Hq1. replace (Z.odd (2 ^ 53 - 1)) with true by reflexivity. rewrite orb_true_r.
        replace (2 ^ 53 - 1 + 1) with (2 ^ 53) by lia. rewrite round_finish_54 by lia.
        symmetry. apply Z.leb_le. by apply Ht.
      * assert (Hf : (2 ^ 1024 - 2 ^ 970 <=? Zpos p) = false) 
          by (apply Z.leb_gt, Z.nle_gt; intros H; apply Hq1, Ht, H).
        rewrite Hf. destruct (_ || _); rewrite round_finish_53 by lia; reflexivity.
    + assert (Hf : (2 ^ 1024 - 2 ^ 970 <=? Zpos p) = false)
        by (apply Z.leb_gt, Z.nle_gt; intros H; apply Ht in H as [_ H]; congruence).
      rewrite Hf, Z.add_0_r, round_finish_53 by lia. reflexivity.
  - rewrite (below_threshold p L) by lia.
    destruct (_ && _); [destruct (Z.eq_dec q (2 ^ 53 - 1)) as [Hq1|Hq1]|].
    + rewrite Hq1. replace (2 ^ 53 - 1 + 1) with (2 ^ 53) by lia.
      rewrite round_finish_54 by lia. apply negb_false_iff, Z.leb_le. lia.
    + rewrite round_finish_53 by lia. apply negb_false_iff, Z.leb_le. lia.
    + rewrite Z.add_0_r, round_finish_53 by lia. apply negb_false_iff, Z.leb_le. lia.
Qed.

(** Every integer, by its size: below [2^53] it is exact, from [2^1024]
    on it is an infinity, and in between [binary_round_mid] decides. *)
Lemma b64_of_Z_is_inf z : b64_is_inf (b64_of_Z z) = (2 ^ 1024 - 2 ^ 970 <=? Z.abs z).
Proof.
  assert (Hpos : forall s p, b64_is_inf (binary_round prec emax s p 0) = (2 ^ 1024 - 2 ^ 970 <=? Zpos p)).
  { intros s p. destruct (Z.lt_ge_cases (Zpos p) (2 ^ 53)) as [Hs|Hs].
    - destruct (binary_round_small s p Hs) as (m & e & -> & _). symmetry. apply Z.leb_gt. lia.
    - destruct (Z.lt_ge_cases (Zpos p) (2 ^ 1024)) as [Hh|Hh].
      + apply binary_round_mid. lia.
      + rewrite binary_round_huge by done. symmetry. apply Z.leb_le. lia. }
  destruct z as [|p|p]; [reflexivity|apply Hpos|apply Hpos].
Qed.

(** ** Theorem *)

(** ** Witness *)
