(* ===== verification/FloatStr.v ===== *)
(** * [float()] on the decimal text of an integer

    An [Angle] input may carry the text of a number, as a string node
    produces it; the node then calls [float(s)] (limited_dissolve.py,
    lines 64 and 69) on that text.  This file relates that path to
    [float(i)] on the integer itself.  Python's [str(i)] is modelled by
    Stdlib's printer of decimal integers ([py_str_int]): an optional [-],
    then the digits, with no leading zero.

    The parser of [FloatParse] reads such text back to the literal
    [(-1)^neg * |i| * 10^0] ([parse_py_str_int]), and [b64_of_decimal]
    rounds it as [b64_of_Z] rounds [i] ([float_of_str_int]).  Hence
    [float(str(i)) == float(i)] whenever [float(i)] returns; where
    [float(i)] raises [OverflowError], [float(str(i))] is an infinity.
    [NodeContract] uses this to compare the node's reading of an integer
    angle and of its text (C28). *)

From S2P Require Import Prelude PyValue FloatParse PyFloat.
From Stdlib Require Import SpecFloat DecimalString DecimalPos.

(** Python's [str(i)] for an [int] [i]. *)
Definition py_str_int (z : Z) : string := NilZero.string_of_int (Z.to_int z).

(** The digits of a decimal numeral, most significant first. *)
Fixpoint uint_digits (d : Decimal.uint) : list nat :=
  match d with
  | Decimal.Nil => []
  | Decimal.D0 d => 0 :: uint_digits d
  | Decimal.D1 d => 1 :: uint_digits d
  | Decimal.D2 d => 2 :: uint_digits d
  | Decimal.D3 d => 3 :: uint_digits d
  | Decimal.D4 d => 4 :: uint_digits d
  | Decimal.D5 d => 5 :: uint_digits d
  | Decimal.D6 d => 6 :: uint_digits d
  | Decimal.D7 d => 7 :: uint_digits d
  | Decimal.D8 d => 8 :: uint_digits d
  | Decimal.D9 d => 9 :: uint_digits d
  end.

(** The text [str(i)] before it is printed: a sign and a numeral. *)
Definition signed_text (neg : bool) (d : Decimal.uint) : string :=
  if neg then String "-" (NilEmpty.string_of_uint d) else NilEmpty.string_of_uint d.

(** ** The parser on a numeral *)

Lemma digit_more_uint d :
  digit_more (list_ascii_of_string (NilEmpty.string_of_uint d)) = (uint_digits d, []).
Proof. induction d; simpl; try rewrite IHd; reflexivity. Qed.

Lemma uint_no_space d :
  Forall (fun c => is_space c = false) (list_ascii_of_string (NilEmpty.string_of_uint d)).
Proof. induction d; simpl; constructor; auto. Qed.

Lemma strip_left_id s : Forall (fun c => is_space c = false) s -> strip_left s = s.
Proof. intros H. destruct H as [|c s Hc _]; simpl; [done|]. by rewrite Hc. Qed.

(** [str.strip()] leaves a text with no blank as it is. *)
Lemma strip_id s : Forall (fun c => is_space c = false) s -> strip s = s.
Proof.
  intros H. unfold strip. rewrite (strip_left_id s H), strip_left_id.
  - apply rev_involutive.
  - by apply Forall_rev.
Qed.

Lemma fold_uint_acc d acc :
  fold_left (fun a d => a * 10 + Z.of_nat d)%Z (uint_digits d) (Zpos acc) =
  Zpos (Pos.of_uint_acc d acc).
Proof. revert acc. induction d; intros acc; simpl; try rewrite <- IHd; f_equal; lia. Qed.

Lemma digits_value_uint d : digits_value (uint_digits d) = Z.of_N (Pos.of_uint d).
Proof.
  unfold digits_value. induction d; simpl; try exact IHd; [reflexivity|..]; apply fold_uint_acc.
Qed.

Lemma to_uint_not_nil p : Pos.to_uint p <> Decimal.Nil.
Proof. intros H. pose proof (Unsigned.of_to p) as E. rewrite H in E. discriminate. Qed.

(** A numeral, signed or not, parses to the literal of its value. *)
Lemma parse_signed_text neg d :
  d <> Decimal.Nil ->
  parse_float_lit (signed_text neg d) = Some (LitNum neg (Z.of_N (Pos.of_uint d)) 0).
Proof.
  intros Hd. unfold parse_float_lit.
  assert (Hs : strip (list_ascii_of_string (signed_text neg d)) =
               list_ascii_of_string (signed_text neg d)).
  { apply strip_id. destruct neg; simpl; [constructor; [done|]|]; apply uint_no_space. }
  rewrite Hs. clear Hs. rewrite <- digits_value_uint.
  destruct d; [done|..]; destruct neg; simpl; unfold parse_number, digitpart; simpl;
    rewrite digit_more_uint; simpl; by rewrite app_nil_r.
Qed.

(** [str(i)] parses to [(-1)^(i<0) * |i|]. *)
Lemma parse_py_str_int z :
  parse_float_lit (py_str_int z) = Some (LitNum (z <? 0)%Z (Z.abs z) 0).
Proof.
  destruct z as [|p|p]; [reflexivity|..]; unfold py_str_int; simpl;
    assert (E : NilZero.string_of_uint (Pos.to_uint p) = NilEmpty.string_of_uint (Pos.to_uint p))
      by (pose proof (to_uint_not_nil p); by destruct (Pos.to_uint p));
    rewrite E.
  - change (NilEmpty.string_of_uint (Pos.to_uint p)) with (signed_text false (Pos.to_uint p)).
    by rewrite parse_signed_text, Unsigned.of_to by apply to_uint_not_nil.
  - change (String "-" (NilEmpty.string_of_uint (Pos.to_uint p)))
      with (signed_text true (Pos.to_uint p)).
    by rewrite parse_signed_text, Unsigned.of_to by apply to_uint_not_nil.
Qed.

(** [float(str(i))] is the double [b64_of_Z i] that [float(i)] rounds to,
    an infinity included. *)
Lemma float_of_str_int z : float_of_str (py_str_int z) = Ok (b64_of_Z z).
Proof.
  unfold float_of_str. rewrite parse_py_str_int. f_equal.
  destruct z as [|p|p]; [reflexivity|..]; unfold float_of_lit, b64_of_decimal; simpl;
    by rewrite ?Pos.mul_1_r.
Qed.

(** ** Theorems *)

(** ** Witnesses *)
