(* ===== verification/MatchLongRepeat.v ===== *)
(** * Sverchok's [match_long_repeat]

    [process] aligns its four inputs with
    [match_long_repeat([verts, edges, faces, angle_input])]
    (limited_dissolve.py, line 76) and iterates over [zip( *meshes)]
    (line 82).  [match_long_repeat] lives in [sverchok/data_structure.py],
    which is not under [src/], so it is modelled from the spec (section 3):
    - every input must have a length ([TypeError] otherwise);
    - [max_l] is the greatest length;
    - an input of length [max_l] is kept, any other is replaced by
      [repeat_last] of it, an iterator that yields the items and then
      repeats the last one (nothing at all for an empty input);
    - the result is [list(map(list, zip( *zip( *tmp))))].

    Python's [zip] stops at its shortest argument, so [repeat_last] is
    modelled by its first [max_l] items: a list of length [max_l] is kept in
    [tmp], and no zip reads further.  [zip_n n] is [zip] bounded by [n]
    rounds, and [py_zip] bounds it by the length of its first argument. *)

From S2P Require Import Prelude PyValue.

Section MatchLongRepeat.
Context {A : Type}.

(** The first [n] items of [repeat_last(l)]. *)
Definition repeat_last (n : nat) (l : list A) : list A :=
  match list.last l with
  | None => []
  | Some y => take n (l ++ replicate (n - length l) y)
  end.

(** At most [n] rounds of [zip( *ls)]: each round takes the head of every
    argument and stops when one is exhausted. *)
Fixpoint zip_n (n : nat) (ls : list (list A)) : list (list A) :=
  match n with
  | 0 => []
  | S n' =>
      match mapM list.head ls with
      | Some row => row :: zip_n n' (map list.tail ls)
      | None => []
      end
  end.

(** [zip( *ls)]; [zip()] with no argument is empty. *)
Definition py_zip (ls : list (list A)) : list (list A) :=
  match ls with
  | [] => []
  | l :: _ => zip_n (length l) ls
  end.

Definition match_long_repeat (lsts : list (list A)) : list (list A) :=
  let max_l := list_max (map length lsts) in
  let tmp := map (fun l => if length l =? max_l then l else repeat_last max_l l) lsts in
  py_zip (py_zip tmp).

(** Whether one of the inputs is empty. *)
Definition any_empty (lsts : list (list A)) : bool := existsb (fun l => length l =? 0) lsts.

Definition rect (n : nat) (ls : list (list A)) : Prop := Forall (fun l => length l = n) ls.

End MatchLongRepeat.

(** [match_long_repeat] on Python values: each argument must be sized. *)
Definition match_long_repeat_py (lsts : list pyval) : pyres (list (list pyval)) :=
  match mapM py_items lsts with
  | Some ls => Ok (match_long_repeat ls)
  | None => Err TypeError
  end.

Section MatchLongRepeatFacts.
Context {A : Type}.
Implicit Types (ls lsts : list (list A)) (l : list A).

(** ** The shape of [zip] on a rectangle *)

Lemma mapM_head_rect n ls :
  rect (S n) ls -> exists row, mapM list.head ls = Some row /\
    forall j, row !! j = ls !! j ≫= (fun l => l !! 0).
Proof.
  induction ls as [|l ls IH]; intros Hr; [by exists []|].
  apply Forall_cons_1 in Hr as [Hl Hr]. destruct (IH Hr) as [row [Hrow Hj]].
  destruct l as [|x l]; [done|]. exists (x :: row). simpl. rewrite Hrow.
  split; [done|]. intros [|j]; [done|apply Hj].
Qed.

Lemma rect_tail n ls : rect (S n) ls -> rect n (map list.tail ls).
Proof.
  unfold rect. rewrite Forall_map. apply Forall_impl. intros [|x l]; simpl; lia.
Qed.

Lemma zip_n_rect n ls :
  rect n ls ->
  length (zip_n n ls) = n /\ rect (length ls) (zip_n n ls) /\
  forall i j, zip_n n ls !! i ≫= (fun r => r !! j) = ls !! j ≫= (fun l => l !! i).
Proof.
  revert ls. induction n as [|n IH]; intros ls Hr; simpl.
  - split_and!; [done|constructor|]. intros i j. simpl.
    destruct (ls !! j) as [l|] eqn:Hj; [|done]. simpl.
    apply (Forall_lookup_1 _ _ _ _ Hr) in Hj. destruct l; [done|simpl in Hj; lia].
  - destruct (mapM_head_rect n ls Hr) as [row [Hrow Hcol]]. rewrite Hrow.
    destruct (IH (map list.tail ls) (rect_tail n ls Hr)) as [Hlen [Hrr Hij]].
    rewrite length_map in Hrr. split_and!.
    + simpl. by rewrite Hlen.
    + constructor; [|done]. apply mapM_Some in Hrow. by apply Forall2_length in Hrow.
    + intros [|i] j; simpl; [apply Hcol|].
      rewrite Hij, list_lookup_fmap. destruct (ls !! j); simpl; [|done].
      apply lookup_tail.
Qed.

Lemma py_zip_rect n ls :
  ls <> [] -> rect n ls -> py_zip ls = zip_n n ls.
Proof. destruct ls as [|l ls]; [done|]. intros _ Hr. apply Forall_cons_1 in Hr as [Hl _]. unfold py_zip. by rewrite Hl. Qed.

(** Two lists of rows are equal when they have the same length and the same
    cells. *)
Lemma rows_eq (L1 L2 : list (list A)) :
  length L1 = length L2 ->
  (forall j i, L1 !! j ≫= (fun r => r !! i) = L2 !! j ≫= (fun r => r !! i)) ->
  L1 = L2.
Proof.
  intros Hlen Hc. apply list_eq. intros j.
  destruct (L1 !! j) as [r1|] eqn:H1, (L2 !! j) as [r2|] eqn:H2.
  - f_equal. apply list_eq. intros i. specialize (Hc j i). by rewrite H1, H2 in Hc.
  - apply lookup_lt_Some in H1. apply lookup_ge_None in H2. lia.
  - apply lookup_ge_None in H1. apply lookup_lt_Some in H2. lia.
  - done.
Qed.

(** [zip( *zip( *ls))] gives back a rectangle with at least one column. *)
Lemma py_zip_involutive n ls :
  ls <> [] -> 0 < n -> rect n ls -> py_zip (py_zip ls) = ls.
Proof.
  intros Hne Hn Hr. rewrite (py_zip_rect n ls Hne Hr).
  destruct (zip_n_rect n ls Hr) as [Hlen [Hrr Hij]].
  assert (Hne' : zip_n n ls <> []) by (intros E; rewrite E in Hlen; simpl in Hlen; lia).
  rewrite (py_zip_rect _ _ Hne' Hrr).
  destruct (zip_n_rect _ _ Hrr) as [Hlen2 [_ Hij2]].
  apply rows_eq; [done|]. intros j i. by rewrite Hij2, Hij.
Qed.

(** [zip] stops at once when one argument is empty. *)
Lemma py_zip_empty_arg ls : [] ∈ ls -> py_zip ls = [].
Proof.
  intros Hin. destruct ls as [|l0 ls0]; [done|]. unfold py_zip.
  destruct (length l0) as [|n]; [done|]. cbn [zip_n].
  destruct (mapM list.head (l0 :: ls0)) as [row|] eqn:Hm; [|done].
  apply mapM_Some in Hm. apply list_elem_of_lookup in Hin as [j Hj].
  destruct (Forall2_lookup_l _ _ _ _ _ Hm Hj) as [x [_ Hx]]. done.
Qed.

(** ** [repeat_last] *)

Lemma length_repeat_last n l :
  l <> [] -> length l <= n -> length (repeat_last n l) = n.
Proof.
  intros Hne Hle. unfold repeat_last.
  destruct (list.last l) eqn:E; [|by apply last_None in E].
  rewrite length_take, length_app, length_replicate. lia.
Qed.

Lemma repeat_last_full l : repeat_last (length l) l = l.
Proof.
  unfold repeat_last. destruct (list.last l) eqn:E; [|by apply last_None in E].
  rewrite Nat.sub_diag. simpl. by rewrite app_nil_r, take_ge.
Qed.

(** Item [i] of [repeat_last(l)] is item [min i (len l - 1)] of [l]. *)
Lemma lookup_repeat_last n l i :
  l <> [] -> i < n -> repeat_last n l !! i = l !! Nat.min i (length l - 1).
Proof.
  intros Hne Hi. unfold repeat_last.
  destruct (list.last l) as [y|] eqn:E; [|by apply last_None in E].
  rewrite lookup_take, decide_True by done. rewrite lookup_app.
  destruct (l !! i) as [x|] eqn:Hx.
  - pose proof (lookup_lt_Some _ _ _ Hx). rewrite Nat.min_l by lia. by rewrite Hx.
  - apply lookup_ge_None in Hx. rewrite last_lookup in E.
    rewrite Nat.min_r by lia. replace (length l - 1) with (pred (length l)) by lia.
    rewrite E. apply lookup_replicate. split; [done|].
    destruct l; simpl in *; [done|lia].
Qed.

(** ** [match_long_repeat] *)

Lemma any_empty_spec lsts : any_empty lsts = true <-> [] ∈ lsts.
Proof.
  unfold any_empty. rewrite existsb_exists, list_elem_of_In. split.
  - intros [[|x l] [Hin H]]; [done|discriminate].
  - intros Hin. by exists [].
Qed.

Lemma tmp_repeat_last m (lsts : list (list A)) :
  map (fun l => if length l =? m then l else repeat_last m l) lsts = map (repeat_last m) lsts.
Proof.
  apply map_ext. intros l. destruct (Nat.eqb_spec (length l) m) as [<-|]; [|done].
  by rewrite repeat_last_full.
Qed.

Lemma list_max_pos (lsts : list (list A)) :
  lsts <> [] -> [] ∉ lsts -> 0 < list_max (map length lsts).
Proof.
  destruct lsts as [|l ls]; [done|]. intros _ Hn. simpl.
  destruct l; [by destruct Hn; left|]. simpl. lia.
Qed.

Lemma rect_repeat_last (lsts : list (list A)) :
  [] ∉ lsts ->
  rect (list_max (map length lsts)) (map (repeat_last (list_max (map length lsts))) lsts).
Proof.
  intros Hn. unfold rect. apply Forall_forall. intros l' Hl'.
  apply in_map_iff in Hl' as [l [<- Hl]]. apply length_repeat_last.
  - intros ->. apply Hn. by apply list_elem_of_In.
  - apply list_max_ge, in_map_iff. eauto.
Qed.

(** [match_long_repeat] in closed form. *)
Lemma mlr_eq (lsts : list (list A)) :
  match_long_repeat lsts =
  if any_empty lsts then []
  else map (repeat_last (list_max (map length lsts))) lsts.
Proof.
  unfold match_long_repeat. cbv zeta. rewrite tmp_repeat_last.
  destruct (any_empty lsts) eqn:Hn; [apply any_empty_spec in Hn | rewrite <- not_true_iff_false, any_empty_spec in Hn].
  - rewrite (py_zip_empty_arg (map _ lsts)); [done|].
    apply list_elem_of_In, in_map_iff. exists []. split; [done|]. by apply list_elem_of_In.
  - destruct lsts as [|l ls]; [done|].
    apply (py_zip_involutive (list_max (map length (l :: ls)))); [done| |].
    + by apply list_max_pos.
    + by apply rect_repeat_last.
Qed.

(** C3. [match_long_repeat] is empty when one input is empty, and otherwise
    replaces every input by its first [max_l] items of [repeat_last]. *)
Theorem match_long_repeat_spec (lsts : list (list A)) :
  match_long_repeat lsts =
  if any_empty lsts then []
  else map (repeat_last (list_max (map length lsts))) lsts.
Proof. exact (mlr_eq lsts). Qed.

(** The batches of [zip( *match_long_repeat(lsts))], cell by cell. *)
Lemma zip_mlr (lsts : list (list A)) :
  length (py_zip (match_long_repeat lsts)) =
    (if any_empty lsts then 0 else list_max (map length lsts)) /\
  forall i j, i < length (py_zip (match_long_repeat lsts)) ->
    py_zip (match_long_repeat lsts) !! i ≫= (fun r => r !! j) =
    lsts !! j ≫= (fun l => l !! Nat.min i (length l - 1)).
Proof.
  rewrite mlr_eq.
  destruct (any_empty lsts) eqn:Hn; [split; [done|simpl; lia]|].
  rewrite <- not_true_iff_false, any_empty_spec in Hn.
  destruct lsts as [|l ls]; [split; [done|simpl; lia]|].
  set (m := list_max (map length (l :: ls))).
  pose proof (rect_repeat_last (l :: ls) Hn) as Hr. fold m in Hr.
  assert (Hne : map (repeat_last m) (l :: ls) <> []) by done.
  rewrite (py_zip_rect m _ Hne Hr).
  destruct (zip_n_rect m _ Hr) as [Hlen [_ Hij]]. rewrite Hlen. split; [done|].
  intros i j Hi. rewrite Hij, list_lookup_fmap.
  destruct ((l :: ls) !! j) as [lj|] eqn:Hj; simpl; [|done].
  apply lookup_repeat_last; [|done]. intros ->. apply Hn.
  apply list_elem_of_lookup. eauto.
Qed.

(** C4. The batches [zip( *match_long_repeat(lsts))] that [process] loops
    over: there are none when an input is empty and [max_l] otherwise, and
    cell [j] of batch [i] is item [min i (len - 1)] of input [j]. *)
Theorem zip_match_long_repeat (lsts : list (list A)) :
  length (py_zip (match_long_repeat lsts)) =
    (if any_empty lsts then 0 else list_max (map length lsts)) /\
  forall i j, i < length (py_zip (match_long_repeat lsts)) ->
    py_zip (match_long_repeat lsts) !! i ≫= (fun r => r !! j) =
    lsts !! j ≫= (fun l => l !! Nat.min i (length l - 1)).
Proof. exact (zip_mlr lsts). Qed.

End MatchLongRepeatFacts.

(** ** Witnesses *)

Lemma zip_match_long_repeat_witness :
  length (py_zip (match_long_repeat [[1; 2; 3]; [4]; [5; 6]])) = 3 /\
  forall i j, i < length (py_zip (match_long_repeat [[1; 2; 3]; [4]; [5; 6]])) ->
    py_zip (match_long_repeat [[1; 2; 3]; [4]; [5; 6]]) !! i ≫= (fun r => r !! j) =
    [[1; 2; 3]; [4]; [5; 6]] !! j ≫= (fun l => l !! Nat.min i (length l - 1)).
Proof. exact (zip_match_long_repeat [[1; 2; 3]; [4]; [5; 6]]). Defined.
