(* ===== verification/Socket.v ===== *)
(** * Node sockets and the node record

    [SvLimitedDissolve] (limited_dissolve.py, lines 28-46) keeps two
    properties, [angle] (a [FloatProperty], default 5.0) and
    [use_dissolve_boundaries] (a [BoolProperty], default [False]).  Its
    collections of input and output sockets are filled by [sv_init].  A
    socket is read with [sv_get] and written with [sv_set], which are
    Sverchok's socket methods from [sverchok/core/sockets.py].  That file is
    not under [src/], so they are modelled from the spec:
    - a linked input returns the data of its upstream socket, and raises
      [SvNoDataError] when there is none yet;
    - an unlinked input with a [prop_name] returns [[[value]]] of that
      property of the node;
    - an unlinked input otherwise returns the [default] argument, and raises
      [SvNoDataError] when no default is given.
    A collection is indexed by socket name: [coll[name]] raises [KeyError]
    for an unknown name, and [name in coll] tests membership. *)

From S2P Require Import Prelude PyValue PyFloat.
From Stdlib Require Import SpecFloat.

Inductive socket_type : Type :=
| SvVerticesSocket
| SvStringsSocket.

Record socket : Type := mk_socket {
  sk_name : string;
  sk_type : socket_type;
  sk_linked : bool;
  (** For an input, the data of the upstream socket; for an output, the
      data last given to [sv_set]. *)
  sk_data : option pyval;
  sk_prop_name : option string
}.

Record node : Type := mk_node {
  nd_angle : spec_float;
  nd_use_dissolve_boundaries : bool;
  nd_inputs : list socket;
  nd_outputs : list socket
}.

(** [getattr(node, name)] for the node's two properties. *)
Definition node_prop (nd : node) (p : string) : option pyval :=
  if String.eqb p "angle" then Some (VFloat (nd_angle nd))
  else if String.eqb p "use_dissolve_boundaries" then Some (VBool (nd_use_dissolve_boundaries nd))
  else None.

(** [name in coll]. *)
Definition socket_in (name : string) (coll : list socket) : bool :=
  existsb (fun sk => String.eqb (sk_name sk) name) coll.

(** The first socket of a collection with that name. *)
Definition find_socket (coll : list socket) (name : string) : option socket :=
  List.find (fun sk => String.eqb (sk_name sk) name) coll.

(** [coll[name]]. *)
Definition socket_get (coll : list socket) (name : string) : pyres socket :=
  match find_socket coll name with
  | Some sk => Ok sk
  | None => Err KeyError
  end.

(** [sk.sv_get(default=...)] on an input socket; [None] is no default. *)
Definition sv_get (nd : node) (sk : socket) (default : option pyval) : pyres pyval :=
  if sk_linked sk then
    match sk_data sk with
    | Some d => Ok d
    | None => Err SvNoDataError
    end
  else
    match sk_prop_name sk ≫= node_prop nd with
    | Some v => Ok (VList [VList [v]])
    | None =>
        match default with
        | Some d => Ok d
        | None => Err SvNoDataError
        end
    end.

(** [coll[name].sv_set(data)]: the first socket of that name gets [data]. *)
Fixpoint sv_set_in (coll : list socket) (name : string) (data : pyval) : pyres (list socket) :=
  match coll with
  | [] => Err KeyError
  | sk :: r =>
      if String.eqb (sk_name sk) name then
        Ok ({| sk_name := sk_name sk; sk_type := sk_type sk; sk_linked := sk_linked sk;
               sk_data := Some data; sk_prop_name := sk_prop_name sk |} :: r)
      else rbind (sv_set_in r name data) (fun r' => Ok (sk :: r'))
  end.

Definition sv_set (nd : node) (name : string) (data : pyval) : pyres node :=
  outs <-? sv_set_in (nd_outputs nd) name data ;;
  Ok {| nd_angle := nd_angle nd; nd_use_dissolve_boundaries := nd_use_dissolve_boundaries nd;
        nd_inputs := nd_inputs nd; nd_outputs := outs |}.

(** A socket made by [coll.new(type, name)]: unlinked and empty. *)
Definition new_socket (ty : socket_type) (name : string) : socket :=
  {| sk_name := name; sk_type := ty; sk_linked := false; sk_data := None;
     sk_prop_name := None |}.

(** [sv_init] (lines 37-46): four inputs, the [Angle] one showing the
    [angle] property, and three outputs, appended to the collections. *)
Definition sv_init (nd : node) : node :=
  let angle_socket := new_socket SvStringsSocket "Angle" in
  {| nd_angle := nd_angle nd;
     nd_use_dissolve_boundaries := nd_use_dissolve_boundaries nd;
     nd_inputs := nd_inputs nd ++
       [new_socket SvVerticesSocket "Verts"; new_socket SvStringsSocket "Edges";
        new_socket SvStringsSocket "Polys";
        {| sk_name := sk_name angle_socket; sk_type := sk_type angle_socket;
           sk_linked := sk_linked angle_socket; sk_data := sk_data angle_socket;
           sk_prop_name := Some "angle"%string |}];
     nd_outputs := nd_outputs nd ++
       [new_socket SvVerticesSocket "Verts"; new_socket SvStringsSocket "Edges";
        new_socket SvStringsSocket "Polys"] |}.

(** A new node: the property defaults of lines 34-35 ([angle = 5.0],
    [use_dissolve_boundaries = False]) and empty collections, then
    [sv_init]. *)
Definition new_node : node :=
  sv_init {| nd_angle := b64_of_Z 5; nd_use_dissolve_boundaries := false;
             nd_inputs := []; nd_outputs := [] |}.

(** ** The two properties (lines 34-35)

    A [FloatProperty] of an add-on is an ID property holding a C [float]:
    an assigned Python number is rounded to binary32 ([to_float32]), then
    clamped to the hard range of the property, [min=0.0] given at line 34
    and the default maximum [FLT_MAX] ([clamp_range]), as Blender's
    [RNA_property_float_set] does.  A [BoolProperty] takes [True]/[False]
    or the integers 0 and 1.  Any other value raises [TypeError]. *)

Definition to_float32 (f : spec_float) : spec_float :=
  match f with
  | S754_finite s m e =>
      match binary_round 24 128 s m e with
      | S754_finite s' m' e' => binary_round prec emax s' m' e'
      | g => g
      end
  | _ => f
  end.

(** [FLT_MAX], the largest float32, [2^128 - 2^104]. *)
Definition flt_max : spec_float := b64_of_Z (2 ^ 128 - 2 ^ 104).

(** [CLAMP(value, hardmin, hardmax)]: below the minimum gives the
    minimum, above the maximum the maximum; a NaN stays. *)
Definition clamp_range (lo hi f : spec_float) : spec_float :=
  if SFltb f lo then lo else if SFltb hi f then hi else f.

(** What [self.angle = x] stores for the number [x]. *)
Definition angle_store (f : spec_float) : spec_float :=
  clamp_range (S754_zero false) flt_max (to_float32 f).

(** Python's [math.isinf]. *)
Definition is_inf (f : spec_float) : bool :=
  match f with S754_infinity _ => true | _ => false end.

(** The number a [FloatProperty] assignment accepts. *)
Definition prop_float (v : pyval) : pyres spec_float :=
  match v with
  | VFloat f => Ok f
  | VInt z => float_of_int z
  | VBool b => Ok (if b then b64_one else S754_zero false)
  | _ => Err TypeError
  end.

Definition prop_bool (v : pyval) : pyres bool :=
  match v with
  | VBool b => Ok b
  | VInt 0 => Ok false
  | VInt 1 => Ok true
  | _ => Err TypeError
  end.

Definition with_angle (nd : node) (a : spec_float) : node :=
  {| nd_angle := a; nd_use_dissolve_boundaries := nd_use_dissolve_boundaries nd;
     nd_inputs := nd_inputs nd; nd_outputs := nd_outputs nd |}.

Definition with_use_dissolve_boundaries (nd : node) (b : bool) : node :=
  {| nd_angle := nd_angle nd; nd_use_dissolve_boundaries := b;
     nd_inputs := nd_inputs nd; nd_outputs := nd_outputs nd |}.

(** What [process] may read of a node and never writes: its properties and
    its inputs. *)
Definition node_cfg (nd : node) : spec_float * bool * list socket :=
  (nd_angle nd, nd_use_dissolve_boundaries nd, nd_inputs nd).

(** ** Scenarios

    The node editor, not the node, links sockets.  These two functions play
    the editor's part when a concrete node is built for the examples: a
    link into the input [name] that carries [data], and a link out of the
    output [name]. *)
Definition link_socket (data : option pyval) (name : string) (sk : socket) : socket :=
  if String.eqb (sk_name sk) name then
    {| sk_name := sk_name sk; sk_type := sk_type sk; sk_linked := true;
       sk_data := data; sk_prop_name := sk_prop_name sk |}
  else sk.

Definition link_input (nd : node) (name : string) (data : pyval) : node :=
  {| nd_angle := nd_angle nd; nd_use_dissolve_boundaries := nd_use_dissolve_boundaries nd;
     nd_inputs := map (link_socket (Some data) name) (nd_inputs nd);
     nd_outputs := nd_outputs nd |}.

Definition link_output (nd : node) (name : string) : node :=
  {| nd_angle := nd_angle nd; nd_use_dissolve_boundaries := nd_use_dissolve_boundaries nd;
     nd_inputs := nd_inputs nd;
     nd_outputs := map (link_socket None name) (nd_outputs nd) |}.

(** ** Lemmas *)

Lemma sv_get_linked nd sk d v :
  sk_linked sk = true -> sk_data sk = Some v -> sv_get nd sk d = Ok v.
Proof. intros Hl Hd. unfold sv_get. by rewrite Hl, Hd. Qed.

Lemma sv_set_in_names coll name data coll' :
  sv_set_in coll name data = Ok coll' -> map sk_name coll' = map sk_name coll.
Proof.
  revert coll'. induction coll as [|sk r IH]; intros coll' H; simpl in H; [done|].
  destruct (String.eqb (sk_name sk) name); [by invc H|].
  destruct (sv_set_in r name data) eqn:E; simpl in H; [|done]. invc H.
  simpl. f_equal. by apply IH.
Qed.

Lemma sv_set_in_socket_in coll name data :
  socket_in name coll = true -> exists coll', sv_set_in coll name data = Ok coll'.
Proof.
  induction coll as [|sk r IH]; simpl; [done|].
  destruct (String.eqb (sk_name sk) name); [by eauto|].
  simpl. intros H. destruct (IH H) as [c' ->]. simpl. eauto.
Qed.

Lemma sv_set_cfg nd name data nd' : sv_set nd name data = Ok nd' -> node_cfg nd' = node_cfg nd.
Proof. unfold sv_set. destruct (sv_set_in _ _ _); simpl; intros H; by invc H. Qed.

(** After [sv_set], the socket of that name holds the data, keeps its
    link, and the sockets of other names are as they were. *)
Lemma sv_set_in_found coll name data coll' :
  sv_set_in coll name data = Ok coll' ->
  exists sk sk', find_socket coll name = Some sk /\ find_socket coll' name = Some sk' /\
    sk_data sk' = Some data /\ sk_linked sk' = sk_linked sk.
Proof.
  unfold find_socket. revert coll'. induction coll as [|sk r IH]; intros coll' H; simpl in H; [done|].
  simpl. destruct (String.eqb (sk_name sk) name) eqn:E.
  - invc H. simpl. rewrite E. eauto 6.
  - destruct (sv_set_in r name data) eqn:Hr; simpl in H; [|done]. invc H. simpl. rewrite E.
    by apply IH.
Qed.

Lemma sv_set_in_other coll name data coll' name' :
  name <> name' -> sv_set_in coll name data = Ok coll' ->
  find_socket coll' name' = find_socket coll name'.
Proof.
  unfold find_socket. intros Hn. revert coll'.
  induction coll as [|sk r IH]; intros coll' H; simpl in H; [done|].
  destruct (String.eqb (sk_name sk) name) eqn:E.
  - invc H. simpl. apply String.eqb_eq in E. rewrite E.
    destruct (String.eqb_spec name name'); [done|]. reflexivity.
  - destruct (sv_set_in r name data) eqn:Hr; simpl in H; [|done]. invc H. simpl.
    destruct (String.eqb (sk_name sk) name'); [done|]. by apply IH.
Qed.

(** Writing the data a socket already holds changes nothing. *)
Lemma sv_set_in_noop coll name data sk :
  find_socket coll name = Some sk -> sk_data sk = Some data -> sv_set_in coll name data = Ok coll.
Proof.
  unfold find_socket. induction coll as [|sk0 r IH]; simpl; [done|].
  destruct (String.eqb (sk_name sk0) name); intros Hf Hd.
  - invc Hf. destruct sk as [n t l d p]. simpl in Hd. by subst.
  - by rewrite (IH Hf Hd).
Qed.
