(* ===== verification/MeshKernel.v ===== *)
(** * The mesh kernel and the store of live BMeshes

    [process] calls three functions of the host for each batch
    (limited_dissolve.py, lines 83-89):
    - [bmesh_from_pydata(verts, edges, faces, normal_update=True)] from
      [sverchok/utils/sv_bmesh_utils.py];
    - [bmesh.ops.dissolve_limit(bm, angle_limit=..., use_dissolve_boundaries=...,
      verts=bm.verts, edges=bm.edges)], Blender's C operator, which changes
      [bm] in place;
    - [pydata_from_bmesh(bm)];
    and then [bm.free()].

    None of this code is under [src/], and the spec treats the kernel as an
    opaque, trusted collaborator.  So the kernel is the interface
    [MeshKernel]: a type of BMesh contents and the three functions, each of
    which may raise.  The node's theorems are proved for every instance.

    What the node itself manages is the lifetime of each BMesh.  The world
    [world] holds the node and a store [w_bm] from handles to the BMeshes
    not yet freed.  [bm_from_pydata] allocates a fresh handle, [bm_free]
    removes it, and any use of a freed handle raises [ReferenceError], as
    Blender does.  [wf_world] states that every live handle is below the
    allocation counter; every operation preserves it.

    The store records what the node frees, not what Python's garbage
    collector does: a BMesh the node leaves unfreed (C9) is released by
    Blender when its Python object is deallocated, after [process] has
    returned or raised.  So the theorems about the store speak of the
    BMeshes live while [process] runs and when it leaves. *)

From S2P Require Import Prelude PyValue Socket.
From stdpp Require Import gmap.

Class MeshKernel : Type := {
  bmesh : Type;
  bmesh_from_pydata : pyval -> pyval -> pyval -> bool -> pyres bmesh;
  dissolve_limit : bmesh -> pyval -> bool -> pyres bmesh;
  pydata_from_bmesh : bmesh -> pyres (pyval * pyval * pyval)
}.

(** ** What the node may expect of the kernel

    The spec gives the kernel no error contract, and states its behaviour
    only as the data invariant of a mesh batch (section 3: edge and face
    indices are indices of [vertices]) and two testable properties
    (section 8).  They are the laws below.  A theorem that needs them takes
    the class as an argument; the theorems of [LimitedDissolve] need
    none. *)

(** [len(v)] of a sequence, [0] for anything else. *)
Definition py_len (v : pyval) : nat := default 0 (length <$> py_items v).

Definition is_number (v : pyval) : bool :=
  match v with VInt _ | VFloat _ => true | _ => false end.

(** An index [i] of a list of [n] items, [0 <= i < n]. *)
Definition py_index_in (n : nat) (v : pyval) : bool :=
  match v with VInt i => (0 <=? i)%Z && (i <? Z.of_nat n)%Z | _ => false end.

(** A vertex: three coordinates. *)
Definition valid_point (p : pyval) : bool :=
  match py_items p with Some [x; y; z] => is_number x && is_number y && is_number z | _ => false end.

(** The Mesh Batch of section 3: a list of vertices, edges that are pairs
    of vertex indices, and faces that are loops of at least three vertex
    indices. *)
Definition valid_mesh (v e f : pyval) : bool :=
  match py_items v, py_items e, py_items f with
  | Some vs, Some es, Some fs =>
      let n := length vs in
      forallb valid_point vs &&
      forallb (fun ed => match py_items ed with
                         | Some [a; b] => py_index_in n a && py_index_in n b
                         | _ => false end) es &&
      forallb (fun fc => match py_items fc with
                         | Some l => (3 <=? length l) && forallb (py_index_in n) l
                         | None => false end) fs
  | _, _, _ => false
  end.

(** The kernel accepts every well-formed batch and every float angle, and
    exports every BMesh. *)
Class KernelTotal `{K : MeshKernel} : Prop := {
  from_pydata_total v e f nu :
    valid_mesh v e f = true -> exists b, bmesh_from_pydata v e f nu = Ok b;
  dissolve_total b a u : exists b', dissolve_limit b (VFloat a) u = Ok b';
  pydata_total b : exists r, pydata_from_bmesh b = Ok r
}.

(** The two properties of section 8 that concern the kernel: with no
    faces, [dissolve_limit] gives the vertices and edges back unchanged;
    allowing boundaries to dissolve never adds a vertex. *)
Class KernelSpec `{K : MeshKernel} : Prop := {
  dissolve_no_faces v e nu b a u b' :
    bmesh_from_pydata v e (VList []) nu = Ok b -> dissolve_limit b a u = Ok b' ->
    pydata_from_bmesh b' = Ok (v, e, VList []);
  dissolve_boundaries_monotone b a b1 b2 r1 r2 :
    dissolve_limit b a false = Ok b1 -> dissolve_limit b a true = Ok b2 ->
    pydata_from_bmesh b1 = Ok r1 -> pydata_from_bmesh b2 = Ok r2 ->
    py_len r2.1.1 <= py_len r1.1.1
}.

Section World.
Context `{K : MeshKernel}.

Record world : Type := mk_world {
  w_node : node;
  w_bm : gmap positive bmesh;
  w_next : positive
}.

Definition M (A : Type) : Type := stm world py_exc A.

Definition wf_world (w : world) : Prop :=
  forall h, is_Some (w_bm w !! h) -> (h < w_next w)%positive.

Definition set_bm (w : world) (m : gmap positive bmesh) (next : positive) : world :=
  {| w_node := w_node w; w_bm := m; w_next := next |}.

(** [bm = bmesh_from_pydata(verts, edges, faces, normal_update=...)]: the
    new BMesh gets a fresh handle. *)
Definition bm_from_pydata (v e f : pyval) (normal_update : bool) : M positive :=
  b <- slift (bmesh_from_pydata v e f normal_update) ;;
  fun w => (Ok (w_next w), set_bm w (<[w_next w := b]> (w_bm w)) (Pos.succ (w_next w))).

Definition bm_get (h : positive) : M bmesh :=
  fun w => match w_bm w !! h with
           | Some b => (Ok b, w)
           | None => (Err ReferenceError, w)
           end.

(** [dissolve_limit(bm, angle_limit=a, use_dissolve_boundaries=u, ...)]:
    the BMesh is changed in place; the returned dict is not used. *)
Definition bm_dissolve_limit (h : positive) (a : pyval) (u : bool) : M unit :=
  b <- bm_get h ;;
  b' <- slift (dissolve_limit b a u) ;;
  fun w => (Ok tt, set_bm w (<[h := b']> (w_bm w)) (w_next w)).

(** [pydata_from_bmesh(bm)]. *)
Definition bm_pydata (h : positive) : M (pyval * pyval * pyval) :=
  b <- bm_get h ;; slift (pydata_from_bmesh b).

(** [bm.free()]. *)
Definition bm_free (h : positive) : M unit :=
  fun w => (Ok tt, set_bm w (delete h (w_bm w)) (w_next w)).

(** ** The store invariant *)

Lemma wf_fresh w : wf_world w -> w_bm w !! w_next w = None.
Proof.
  intros Hwf. destruct (w_bm w !! w_next w) eqn:E; [|done].
  specialize (Hwf (w_next w) ltac:(by rewrite E)). lia.
Qed.

Lemma bm_from_pydata_wf v e f nu : preserves wf_world (bm_from_pydata v e f nu).
Proof.
  intros w r w'. unfold bm_from_pydata, sbind, slift. intros Hwf.
  destruct (bmesh_from_pydata v e f nu); intros H; invc H; [|done].
  intros h. simpl. rewrite lookup_insert. case_decide; [subst; lia|].
  intros Hs. specialize (Hwf h Hs). lia.
Qed.

Lemma bm_dissolve_limit_wf h a u : preserves wf_world (bm_dissolve_limit h a u).
Proof.
  intros w r w'. unfold bm_dissolve_limit, bm_get, sbind, slift. intros Hwf.
  destruct (w_bm w !! h) as [b|] eqn:Hb; [|intros H; by invc H].
  destruct (dissolve_limit b a u); intros H; invc H; [|done].
  intros h'. simpl. rewrite lookup_insert. case_decide; [subst|by apply Hwf].
  intros _. apply Hwf. by rewrite Hb.
Qed.

Lemma bm_free_wf h : preserves wf_world (bm_free h).
Proof.
  intros w r w'. unfold bm_free. intros Hwf H. invc H. intros h'. simpl.
  rewrite lookup_delete. case_decide; [by intros []|]. apply Hwf.
Qed.

Lemma bm_get_wf h : preserves wf_world (bm_get h).
Proof. intros w r w' Hwf. unfold bm_get. destruct (w_bm w !! h); intros H; by invc H. Qed.

Lemma bm_pydata_wf h : preserves wf_world (bm_pydata h).
Proof. unfold bm_pydata. apply preserves_bind; [apply bm_get_wf|]. intros. apply preserves_lift. Qed.

(** Allocating a handle and freeing it gives the store back. *)
Lemma free_after_alloc w b :
  wf_world w -> delete (w_next w) (<[w_next w := b]> (w_bm w)) = w_bm w.
Proof. intros Hwf. rewrite delete_insert_eq. apply delete_id. by apply wf_fresh. Qed.

(** The BMesh operations never touch the node. *)
Section NodeFrame.
Variable Q : node -> Prop.

Lemma bm_from_pydata_node v e f nu : preserves (fun w => Q (w_node w)) (bm_from_pydata v e f nu).
Proof.
  intros w r w' Hq. unfold bm_from_pydata, sbind, slift.
  destruct (bmesh_from_pydata v e f nu); intros H; by invc H.
Qed.

Lemma bm_get_node h : preserves (fun w => Q (w_node w)) (bm_get h).
Proof. intros w r w' Hq. unfold bm_get. destruct (w_bm w !! h); intros H; by invc H. Qed.

Lemma bm_dissolve_limit_node h a u : preserves (fun w => Q (w_node w)) (bm_dissolve_limit h a u).
Proof.
  intros w r w' Hq. unfold bm_dissolve_limit, bm_get, sbind, slift.
  destruct (w_bm w !! h); [|intros H; by invc H].
  destruct (dissolve_limit _ a u); intros H; by invc H.
Qed.

Lemma bm_pydata_node h : preserves (fun w => Q (w_node w)) (bm_pydata h).
Proof. unfold bm_pydata. apply preserves_bind; [apply bm_get_node|]. intros. apply preserves_lift. Qed.

Lemma bm_free_node h : preserves (fun w => Q (w_node w)) (bm_free h).
Proof. intros w r w' Hq H. by invc H. Qed.

End NodeFrame.

End World.

#[export] Hint Resolve bm_from_pydata_wf bm_dissolve_limit_wf bm_free_wf bm_get_wf
  bm_pydata_wf bm_from_pydata_node bm_get_node bm_dissolve_limit_node bm_pydata_node
  bm_free_node : sv.


