(* ===== verification/LimitedDissolve.v ===== *)
(** * [SvLimitedDissolve.process]

    The method [process] of limited_dissolve.py (lines 51-97), split along
    its own steps:
    - [read_geometry] (lines 55-57) reads [Verts] (no default) and [Edges],
      [Polys] (default [[[]]]);
    - [read_angle] (lines 59-73) reads the angle: the property, or the
      first value of the linked [Angle] input coerced by [float()];
    - [align_inputs] (lines 75-76 and the [zip] of line 82) aligns the
      four inputs;
    - [dissolve_batch] (lines 83-93) is the loop body, which allocates,
      dissolves, reads back and frees one BMesh;
    - [dissolve_loop] (line 82) runs it over the aligned batches;
    - [write_outputs] (lines 95-97) writes the three outputs;
    - [process] composes them after the short-circuit of lines 52-53.

    [batch_spec] and [process_spec] are the abstract contract of the node:
    a pure, batch-wise map of the kernel's composition over the aligned
    batches, with no handles.  [process_refines_spec] proves that [process]
    implements it and gives every BMesh back. *)

From S2P Require Import Prelude PyValue PyFloat MatchLongRepeat Socket MeshKernel.
From stdpp Require Import gmap.
From Stdlib Require Import SpecFloat.

(** ** The pure steps *)

(** Lines 55-57. *)
Definition read_geometry (nd : node) : pyres (pyval * pyval * pyval) :=
  vs <-? socket_get (nd_inputs nd) "Verts" ;;
  verts <-? sv_get nd vs None ;;
  es <-? socket_get (nd_inputs nd) "Edges" ;;
  edges <-? sv_get nd es (Some (VList [VList []])) ;;
  fs <-? socket_get (nd_inputs nd) "Polys" ;;
  faces <-? sv_get nd fs (Some (VList [VList []])) ;;
  Ok (verts, edges, faces).

(** The [try] blocks of lines 63-66 and 68-71. *)
Definition coerce_angle (nd : node) (a0 : pyval) : spec_float :=
  if is_list_or_tuple a0 then
    try_except (x <-? py_getitem a0 0 ;; py_float x) (nd_angle nd)
  else try_except (py_float a0) (nd_angle nd).

(** Lines 59-73.  [angle_values[0]] is taken outside the [try]. *)
Definition read_angle (nd : node) : pyres spec_float :=
  if socket_in "Angle" (nd_inputs nd) then
    sk <-? socket_get (nd_inputs nd) "Angle" ;;
    if sk_linked sk then
      angle_values <-? sv_get nd sk (Some (VList [VFloat (nd_angle nd)])) ;;
      a0 <-? py_getitem angle_values 0 ;;
      Ok (coerce_angle nd a0)
    else Ok (nd_angle nd)
  else Ok (nd_angle nd).

(** Lines 75-76, and [zip( *meshes)] of line 82. *)
Definition align_inputs (verts edges faces : pyval) (angle_value : spec_float)
  : pyres (list (list pyval)) :=
  let angle_input := VList [VFloat angle_value] in
  meshes <-? match_long_repeat_py [verts; edges; faces; angle_input] ;;
  Ok (py_zip meshes).

(** The result lists of lines 78-80, 91-93, as [sv_set] receives them. *)
Definition out_verts (res : list (pyval * pyval * pyval)) : pyval := VList (map (fun r => r.1.1) res).
Definition out_edges (res : list (pyval * pyval * pyval)) : pyval := VList (map (fun r => r.1.2) res).
Definition out_faces (res : list (pyval * pyval * pyval)) : pyval := VList (map (fun r => r.2) res).

(** Lines 95-97 on the node. *)
Definition set_outputs (nd : node) (res : list (pyval * pyval * pyval)) : pyres node :=
  nd1 <-? sv_set nd "Verts" (out_verts res) ;;
  nd2 <-? sv_set nd1 "Edges" (out_edges res) ;;
  sv_set nd2 "Polys" (out_faces res).

Section Process.
Context `{K : MeshKernel}.

(** ** The abstract contract *)

(** One batch, as the kernel's functions composed, with no BMesh store. *)
Definition batch_spec (u : bool) (row : list pyval) : pyres (pyval * pyval * pyval) :=
  match row with
  | [verts; edges; faces; angle_value] =>
      b <-? bmesh_from_pydata verts edges faces true ;;
      b' <-? dissolve_limit b angle_value u ;;
      pydata_from_bmesh b'
  | _ => Err ValueError
  end.

(** The node: the short-circuit, or the batch-wise map written to the
    outputs. *)
Definition process_spec (nd : node) : pyres node :=
  out <-? socket_get (nd_outputs nd) "Verts" ;;
  if negb (sk_linked out) then Ok nd else
  g <-? read_geometry nd ;;
  let '(verts, edges, faces) := g in
  angle_value <-? read_angle nd ;;
  rows <-? align_inputs verts edges faces angle_value ;;
  res <-? rmap (batch_spec (nd_use_dissolve_boundaries nd)) rows ;;
  set_outputs nd res.

(** ** The effectful method *)

(** Lines 83-93: one iteration of the loop.  [self.use_dissolve_boundaries]
    is read from the node at that point. *)
Definition dissolve_batch (row : list pyval) : M (pyval * pyval * pyval) :=
  match row with
  | [verts; edges; faces; angle_value] =>
      h <- bm_from_pydata verts edges faces true ;;
      w <- sget ;;
      _ <- bm_dissolve_limit h angle_value (nd_use_dissolve_boundaries (w_node w)) ;;
      r <- bm_pydata h ;;
      _ <- bm_free h ;;
      sret r
  | _ => sraise ValueError
  end.

(** Line 82. *)
Definition dissolve_loop (rows : list (list pyval)) : M (list (pyval * pyval * pyval)) :=
  sfor rows dissolve_batch.

(** [self.outputs[name].sv_set(data)]. *)
Definition set_output (name : string) (data : pyval) : M unit :=
  fun w => match sv_set (w_node w) name data with
           | Ok nd => (Ok tt, {| w_node := nd; w_bm := w_bm w; w_next := w_next w |})
           | Err e => (Err e, w)
           end.

(** Lines 95-97: three writes, one after the other. *)
Definition write_outputs (res : list (pyval * pyval * pyval)) : M unit :=
  _ <- set_output "Verts" (out_verts res) ;;
  _ <- set_output "Edges" (out_edges res) ;;
  set_output "Polys" (out_faces res).

(** Lines 51-97. *)
Definition process : M unit :=
  w <- sget ;;
  let nd := w_node w in
  out <- slift (socket_get (nd_outputs nd) "Verts") ;;
  if negb (sk_linked out) then sret tt else
  g <- slift (read_geometry nd) ;;
  let '(verts, edges, faces) := g in
  angle_value <- slift (read_angle nd) ;;
  rows <- slift (align_inputs verts edges faces angle_value) ;;
  res <- dissolve_loop rows ;;
  write_outputs res.

(** [node.angle = v] (line 34): the number is stored as the
    [FloatProperty] stores it, then [update=updateNode] runs [process]. *)
Definition set_angle (v : pyval) : M unit :=
  f <- slift (prop_float v) ;;
  w <- sget ;;
  _ <- sput {| w_node := with_angle (w_node w) (angle_store f);
               w_bm := w_bm w; w_next := w_next w |} ;;
  process.

(** [node.use_dissolve_boundaries = v] (line 35), then [updateNode]. *)
Definition set_use_dissolve_boundaries (v : pyval) : M unit :=
  b <- slift (prop_bool v) ;;
  w <- sget ;;
  _ <- sput {| w_node := with_use_dissolve_boundaries (w_node w) b;
               w_bm := w_bm w; w_next := w_next w |} ;;
  process.

End Process.

(** ** Examples

    The theorems above hold for every kernel.  To run them on concrete
    inputs, [example_kernel] stands in for Blender: a BMesh is its three
    lists (it raises on a batch that is not a [valid_mesh]), and
    [dissolve_limit] leaves it as it is when the angle is a float and raises
    otherwise. *)

Definition example_kernel : MeshKernel := {|
  bmesh := pyval * pyval * pyval;
  bmesh_from_pydata v e f _ := if valid_mesh v e f then Ok (v, e, f) else Err (KernelError 1);
  dissolve_limit b a _ := match a with VFloat _ => Ok b | _ => Err (KernelError 0) end;
  pydata_from_bmesh b := Ok b
|}.

Definition tri : pyval :=
  VList [VTuple [VInt 0; VInt 0; VInt 0]; VTuple [VInt 1; VInt 0; VInt 0];
         VTuple [VInt 0; VInt 1; VInt 0]].

(** A node fed two meshes, with its [Verts] output linked. *)
Definition demo_node : node :=
  link_output (link_input new_node "Verts" (VList [tri; tri])) "Verts".

Definition demo_world : @world example_kernel := {| w_node := demo_node; w_bm := ∅; w_next := 1%positive |}.

(** The same node with the given data on a linked [Angle] input. *)
Definition angle_node (av : pyval) : node := link_input demo_node "Angle" av.

(** A node whose second mesh has a vertex list the kernel rejects. *)
Definition bad_world : @world example_kernel :=
  {| w_node := link_output (link_input new_node "Verts" (VList [tri; VInt 7])) "Verts";
     w_bm := ∅; w_next := 1%positive |}.

(** A new node, whose [Verts] output has no link. *)
Definition idle_world : @world example_kernel :=
  {| w_node := new_node; w_bm := ∅; w_next := 1%positive |}.

(** The three batches of [tri] with default edges and faces. *)
Definition rows3 : list (list pyval) :=
  match align_inputs (VList [tri; tri; tri]) (VList [VList []]) (VList [VList []]) (b64_of_Z 5) with
  | Ok r => r
  | Err _ => []
  end.

(** ** The angle and the alignment *)

Lemma socket_get_in coll name sk : socket_get coll name = Ok sk -> socket_in name coll = true.
Proof.
  unfold socket_get, socket_in, find_socket. destruct (List.find _ coll) eqn:E; [|done]. intros H. invc H.
  apply find_some in E as [Hin Heq]. apply existsb_exists. eauto.
Qed.

(** With [Angle] linked, the angle is a function of [angle_values[0]]. *)
Lemma read_angle_linked nd sk av :
  socket_get (nd_inputs nd) "Angle" = Ok sk -> sk_linked sk = true -> sk_data sk = Some av ->
  read_angle nd = rbind (py_getitem av 0) (fun a0 => Ok (coerce_angle nd a0)).
Proof.
  intros Hs Hl Hd. unfold read_angle. rewrite (socket_get_in _ _ _ Hs), Hs. simpl.
  by rewrite Hl, (sv_get_linked _ _ _ _ Hl Hd).
Qed.

(** C5. When the linked [Angle] value cannot be coerced by [float()]
    (whatever the exception), the node's [angle] property is used. *)
Theorem read_angle_fallback nd sk av a0 ex :
  socket_get (nd_inputs nd) "Angle" = Ok sk -> sk_linked sk = true -> sk_data sk = Some av ->
  py_getitem av 0 = Ok a0 ->
  (if is_list_or_tuple a0 then (x <-? py_getitem a0 0 ;; py_float x) else py_float a0) = Err ex ->
  read_angle nd = Ok (nd_angle nd).
Proof.
  intros Hs Hl Hd H0 Hc. rewrite (read_angle_linked _ _ _ Hs Hl Hd), H0. simpl.
  unfold coerce_angle. destruct (is_list_or_tuple a0); by rewrite Hc.
Qed.

(** C6. A linked [Angle] input whose data is an empty list makes
    [process] raise [IndexError]: [angle_values[0]] is outside the [try]. *)
Theorem read_angle_empty_raises nd sk :
  socket_get (nd_inputs nd) "Angle" = Ok sk -> sk_linked sk = true -> sk_data sk = Some (VList []) ->
  read_angle nd = Err IndexError.
Proof. intros Hs Hl Hd. by rewrite (read_angle_linked _ _ _ Hs Hl Hd). Qed.

(** C7. The aligned batches: [max(Lv, Le, Lf, 1)] of them, none when an
    input is empty, and every batch carries the same angle [a]: a per-batch
    angle input is not honoured. *)
Theorem align_inputs_batches v e f a lv le lf rows :
  py_items v = Some lv -> py_items e = Some le -> py_items f = Some lf ->
  align_inputs v e f a = Ok rows ->
  length rows = (if any_empty [lv; le; lf] then 0
                 else list_max [length lv; length le; length lf; 1]) /\
  forall i, i < length rows -> rows !! i ≫= (fun r => r !! 3) = Some (VFloat a).
Proof.
  intros Hv He Hf. unfold align_inputs, match_long_repeat_py. simpl.
  rewrite Hv, He, Hf. simpl. intros H. invc H.
  destruct (zip_mlr [lv; le; lf; [VFloat a]]) as [Hl Hc].
  split; [rewrite Hl; unfold any_empty; cbn; reflexivity|]. intros i Hi. rewrite Hc by exact Hi. simpl.
  by rewrite Nat.min_0_r.
Qed.

(** C10. A numpy array of any size but one, as the first [Angle] value, is
    not a list or tuple and [float()] rejects it: the node silently uses its
    [angle] property. *)
Theorem coerce_angle_array_fallback nd l :
  length (nd_flat (VArray l)) <> 1 -> coerce_angle nd (VArray l) = nd_angle nd.
Proof.
  intros H. unfold coerce_angle, py_float. cbn [is_list_or_tuple].
  destruct (nd_flat (VArray l)) as [|x [|y r]]; simpl in H; [done|lia|done].
Qed.

(** ** What the steps read of the node *)

Lemma read_geometry_cfg nd nd' : node_cfg nd = node_cfg nd' -> read_geometry nd = read_geometry nd'.
Proof. destruct nd, nd'. unfold node_cfg. simpl. intros H. by invc H. Qed.

Lemma read_angle_cfg nd nd' : node_cfg nd = node_cfg nd' -> read_angle nd = read_angle nd'.
Proof. destruct nd, nd'. unfold node_cfg. simpl. intros H. by invc H. Qed.

Lemma set_outputs_cfg nd res nd1 : set_outputs nd res = Ok nd1 -> node_cfg nd1 = node_cfg nd.
Proof.
  unfold set_outputs. destruct (sv_set nd _ _) as [n1|] eqn:E1; [|done]. simpl.
  destruct (sv_set n1 _ _) as [n2|] eqn:E2; [|done]. simpl. intros E3.
  rewrite (sv_set_cfg _ _ _ _ E3), (sv_set_cfg _ _ _ _ E2). exact (sv_set_cfg _ _ _ _ E1).
Qed.

(** The three writes leave each output holding its list, with its link. *)
Lemma set_outputs_sockets nd res nd1 :
  set_outputs nd res = Ok nd1 ->
  (forall name data, In (name, data) [("Verts", out_verts res); ("Edges", out_edges res);
                                      ("Polys", out_faces res)]%string ->
   exists sk sk', find_socket (nd_outputs nd) name = Some sk /\
     find_socket (nd_outputs nd1) name = Some sk' /\ sk_data sk' = Some data /\
     sk_linked sk' = sk_linked sk).
Proof.
  unfold set_outputs, sv_set.
  destruct (sv_set_in (nd_outputs nd) "Verts" _) as [c1|] eqn:E1; [|done]. simpl.
  destruct (sv_set_in c1 "Edges" _) as [c2|] eqn:E2; [|done]. simpl.
  destruct (sv_set_in c2 "Polys" _) as [c3|] eqn:E3; [|done]. simpl. intros H. invc H.
  intros name data Hin. simpl.
  destruct Hin as [Hin|[Hin|[Hin|[]]]]; invc Hin.
  - rewrite (sv_set_in_other _ "Polys" _ _ "Verts" ltac:(done) E3),
      (sv_set_in_other _ "Edges" _ _ "Verts" ltac:(done) E2).
    exact (sv_set_in_found _ _ _ _ E1).
  - rewrite (sv_set_in_other _ "Polys" _ _ "Edges" ltac:(done) E3),
      <- (sv_set_in_other _ "Verts" _ _ "Edges" ltac:(done) E1).
    exact (sv_set_in_found _ _ _ _ E2).
  - rewrite <- (sv_set_in_other _ "Verts" _ _ "Polys" ltac:(done) E1),
      <- (sv_set_in_other _ "Edges" _ _ "Polys" ltac:(done) E2).
    exact (sv_set_in_found _ _ _ _ E3).
Qed.

(** Writing the same lists a second time changes nothing. *)
Lemma set_outputs_idem nd res nd1 : set_outputs nd res = Ok nd1 -> set_outputs nd1 res = Ok nd1.
Proof.
  intros H. pose proof (set_outputs_sockets _ _ _ H) as Hs.
  destruct (Hs "Verts"%string (out_verts res) ltac:(simpl; tauto)) as [_ [skv [_ [Hv [Dv _]]]]].
  destruct (Hs "Edges"%string (out_edges res) ltac:(simpl; tauto)) as [_ [ske [_ [He [De _]]]]].
  destruct (Hs "Polys"%string (out_faces res) ltac:(simpl; tauto)) as [_ [skp [_ [Hp [Dp _]]]]].
  unfold set_outputs, sv_set. rewrite (sv_set_in_noop _ _ _ _ Hv Dv). simpl.
  rewrite (sv_set_in_noop _ _ _ _ He De). simpl. rewrite (sv_set_in_noop _ _ _ _ Hp Dp). simpl.
  by destruct nd1.
Qed.

Section ProcessFacts.
Context `{K : MeshKernel}.

Lemma wf_empty_store nd n : wf_world {| w_node := nd; w_bm := (∅ : gmap positive bmesh); w_next := n |}.
Proof. intros h [b Hb]. cbn in Hb. by rewrite lookup_empty in Hb. Qed.

(** ** The loop body and the loop against the contract *)

Lemma wf_set_next w n :
  wf_world w -> (w_next w <= n)%positive -> wf_world (set_bm w (w_bm w) n).
Proof. intros Hwf Hn h Hh. specialize (Hwf h Hh). simpl. lia. Qed.

(** One iteration computes [batch_spec] and leaves the store as it found
    it.  On an exception the node is untouched. *)
Lemma dissolve_batch_spec row w :
  wf_world w ->
  match batch_spec (nd_use_dissolve_boundaries (w_node w)) row with
  | Ok r => dissolve_batch row w = (Ok r, set_bm w (w_bm w) (Pos.succ (w_next w)))
  | Err e => exists w', dissolve_batch row w = (Err e, w') /\ w_node w' = w_node w
  end.
Proof.
  intros Hwf.
  destruct row as [|v [|e [|f [|a [|x r]]]]]; try (eexists; split; reflexivity).
  unfold dissolve_batch, batch_spec, bm_from_pydata, bm_dissolve_limit, bm_pydata,
    bm_free, bm_get, sbind, slift, sget, sret. simpl.
  destruct (bmesh_from_pydata v e f true) as [b|err]; simpl; [|eauto].
  rewrite lookup_insert_eq. destruct (dissolve_limit b a _) as [b'|err]; simpl; [|eauto].
  rewrite lookup_insert_eq. destruct (pydata_from_bmesh b') as [res|err]; simpl; [|eauto].
  by rewrite insert_insert_eq, free_after_alloc.
Qed.

(** The loop computes [rmap batch_spec] and gives every BMesh back. *)
Lemma dissolve_loop_spec rows w :
  wf_world w ->
  match rmap (batch_spec (nd_use_dissolve_boundaries (w_node w))) rows with
  | Ok res => exists n, dissolve_loop rows w = (Ok res, set_bm w (w_bm w) n)
  | Err e => exists w', dissolve_loop rows w = (Err e, w') /\ w_node w' = w_node w
  end.
Proof.
  unfold dissolve_loop. revert w. induction rows as [|row rows IH]; intros w Hwf.
  { destruct w as [nd m nx]. by exists nx. }
  pose proof (dissolve_batch_spec row w Hwf) as Hb. cbn [sfor rmap].
  destruct (batch_spec _ row) as [r|e]; cbn [rbind].
  - rewrite (sbind_ok _ _ _ _ _ Hb).
    specialize (IH _ (wf_set_next w (Pos.succ (w_next w)) Hwf ltac:(lia))). cbn in IH.
    destruct (rmap _ rows) as [res|e]; cbn [rbind].
    + destruct IH as [n Hn]. exists n. by rewrite (sbind_ok _ _ _ _ _ Hn).
    + destruct IH as [w' [Hw' Hn]]. exists w'. by rewrite (sbind_err _ _ _ _ _ Hw').
  - destruct Hb as [w' [Hw' Hn]]. exists w'. by rewrite (sbind_err _ _ _ _ _ Hw').
Qed.

(** The three writes compute [set_outputs] and do not touch the store. *)
Lemma write_outputs_spec res w :
  match set_outputs (w_node w) res with
  | Ok nd => write_outputs res w = (Ok tt, {| w_node := nd; w_bm := w_bm w; w_next := w_next w |})
  | Err e => exists w', write_outputs res w = (Err e, w')
  end.
Proof.
  unfold write_outputs, set_outputs, set_output, sbind.
  destruct (sv_set (w_node w) "Verts" _) as [nd1|e]; cbn [rbind w_node w_bm w_next]; [|eauto].
  destruct (sv_set nd1 "Edges" _) as [nd2|e]; cbn [rbind w_node w_bm w_next]; [|eauto].
  destruct (sv_set nd2 "Polys" _) as [nd3|e]; cbn [rbind w_node w_bm w_next]; eauto.
Qed.

(** The simulation behind C1 and C15. *)
Lemma process_sim w :
  wf_world w ->
  match process_spec (w_node w) with
  | Ok nd' => exists n, process w = (Ok tt, {| w_node := nd'; w_bm := w_bm w; w_next := n |})
  | Err e => exists w', process w = (Err e, w')
  end.
Proof.
  destruct w as [nd m nx]. intros Hwf.
  unfold process, process_spec, sget, slift, sret. cbn [sbind w_node w_bm].
  destruct (socket_get (nd_outputs nd) "Verts") as [out|e]; cbn [rbind sbind]; [|eauto].
  destruct (sk_linked out); cbn [negb]; [|by eexists].
  destruct (read_geometry nd) as [[[v ed] f]|e]; cbn [rbind sbind]; [|eauto].
  destruct (read_angle nd) as [a|e]; cbn [rbind sbind]; [|eauto].
  destruct (align_inputs v ed f a) as [rows|e]; cbn [rbind sbind]; [|eauto].
  pose proof (dissolve_loop_spec rows _ Hwf) as Hl. cbn [w_node] in Hl.
  destruct (rmap _ rows) as [res|e]; cbn [rbind].
  - destruct Hl as [n Hn]. rewrite (sbind_ok _ _ _ _ _ Hn).
    pose proof (write_outputs_spec res (set_bm {| w_node := nd; w_bm := m; w_next := nx |} m n)) as Hw.
    cbn in Hw. destruct (set_outputs nd res); eauto.
  - destruct Hl as [w' [Hw' _]]. rewrite (sbind_err _ _ _ _ _ Hw'). eauto.
Qed.

(** C1. [process] implements its contract [process_spec]: it succeeds
    exactly when the contract does, leaves the node the contract describes,
    and gives back every BMesh it allocated (the store of live BMeshes is
    the one it started with).  It raises exactly the contract's exception
    otherwise. *)
Theorem process_refines_spec w :
  wf_world w ->
  match process_spec (w_node w) with
  | Ok nd' => exists n, process w = (Ok tt, {| w_node := nd'; w_bm := w_bm w; w_next := n |})
  | Err e => exists w', process w = (Err e, w')
  end.
Proof. exact (process_sim w). Qed.

(** ** The store invariant and the exceptional paths *)

Lemma set_output_wf name data : preserves wf_world (set_output name data).
Proof.
  intros w r w' Hwf. unfold set_output. destruct (sv_set _ _ _); intros H; by invc H.
Qed.

Lemma dissolve_batch_wf row : preserves wf_world (dissolve_batch row).
Proof. destruct row as [|v [|e [|f [|a [|x r]]]]]; simpl; eauto 12 with sv. Qed.

#[local] Hint Resolve set_output_wf dissolve_batch_wf : sv.

(** A property of the world that every output write and every loop
    iteration keeps is kept by [process]. *)
Lemma process_keeps (P : world -> Prop) :
  (forall name data, preserves P (set_output name data)) ->
  (forall row, preserves P (dissolve_batch row)) ->
  preserves P process.
Proof.
  intros Hs Hb. unfold process. apply preserves_bind; [auto with sv|]. intros w0.
  apply preserves_bind; [auto with sv|]. intros out. destruct (negb _); [auto with sv|].
  apply preserves_bind; [auto with sv|]. intros [[v e] f].
  unfold dissolve_loop, write_outputs. eauto 10 with sv.
Qed.

Lemma set_output_cfg c name data :
  preserves (fun w => node_cfg (w_node w) = c) (set_output name data).
Proof.
  intros w r w' Hc. unfold set_output. destruct (sv_set _ _ _) eqn:E; intros H; invc H; [|done].
  simpl. by rewrite (sv_set_cfg _ _ _ _ E).
Qed.

Lemma dissolve_batch_node (Q : node -> Prop) row :
  preserves (fun w => Q (w_node w)) (dissolve_batch row).
Proof. destruct row as [|v [|e [|f [|a [|x r]]]]]; simpl; eauto 12 with sv. Qed.

(** What [process] keeps of its node. *)
Lemma process_cfg w r w' :
  process w = (r, w') -> node_cfg (w_node w') = node_cfg (w_node w).
Proof.
  intros H. refine (process_keeps (fun w0 => node_cfg (w_node w0) = node_cfg (w_node w)) _ _ w r w' eq_refl H).
  - intros. apply set_output_cfg.
  - intros. apply (dissolve_batch_node (fun nd => node_cfg nd = node_cfg (w_node w))).
Qed.

(** C11. [process] writes nothing of its node but the outputs: the two
    properties and the inputs are as they were, on every path. *)
Theorem process_frame w r w' :
  process w = (r, w') -> node_cfg (w_node w') = node_cfg (w_node w).
Proof. exact (process_cfg w r w'). Qed.

(** The angle [set_angle] stores. *)
Lemma set_angle_angle v f w :
  prop_float v = Ok f ->
  nd_angle (w_node (snd (set_angle v w))) = angle_store f.
Proof.
  intros Hf. unfold set_angle, sbind, slift, sget, sput. rewrite Hf. cbv beta iota.
  set (w1 := {| w_node := with_angle (w_node w) _; w_bm := w_bm w; w_next := w_next w |}).
  pose proof (process_cfg w1 (fst (process w1)) (snd (process w1)) (surjective_pairing _)) as Hc.
  unfold node_cfg in Hc. simpl in Hc. by injection Hc as -> _ _.
Qed.

Lemma angle_store_not_neg f : SFltb (angle_store f) (S754_zero false) = false.
Proof.
  unfold angle_store, clamp_range. destruct (SFltb (to_float32 f) _) eqn:E1; [reflexivity|].
  destruct (SFltb flt_max _); [vm_compute; reflexivity|exact E1].
Qed.

(** Whatever [set_angle] stores satisfies a property that every
    [angle_store] satisfies; a failed assignment stores nothing. *)
Lemma set_angle_keeps (P : spec_float -> Prop) v :
  (forall f, P (angle_store f)) -> preserves (fun w => P (nd_angle (w_node w))) (set_angle v).
Proof.
  intros HP w r w' Hw H. destruct (prop_float v) as [f|e] eqn:Hf.
  - pose proof (set_angle_angle v f w Hf) as Hs. rewrite H in Hs. simpl in Hs. rewrite Hs. apply HP.
  - unfold set_angle, sbind, slift in H. rewrite Hf in H. by invc H.
Qed.

(** C12. The [angle] property is never negative: [min=0.0] holds after any
    assignment, including one that raises. *)
Theorem set_angle_nonneg v :
  preserves (fun w => SFltb (nd_angle (w_node w)) (S754_zero false) = false) (set_angle v).
Proof. apply (set_angle_keeps (fun a => SFltb a (S754_zero false) = false)), angle_store_not_neg. Qed.

(** C2. When [Verts] has no link downstream, [process] does nothing. *)
Theorem process_unlinked_noop w out :
  socket_get (nd_outputs (w_node w)) "Verts" = Ok out -> sk_linked out = false ->
  process w = (Ok tt, w).
Proof. intros Hs Hl. unfold process, sget, slift, sbind. rewrite Hs. simpl. by rewrite Hl. Qed.

(** C8. A kernel exception in any batch aborts [process] with that
    exception, and no output is written: the node is as it was. *)
Theorem process_kernel_error_atomic w out v e f a rows ex :
  wf_world w ->
  socket_get (nd_outputs (w_node w)) "Verts" = Ok out -> sk_linked out = true ->
  read_geometry (w_node w) = Ok (v, e, f) -> read_angle (w_node w) = Ok a ->
  align_inputs v e f a = Ok rows ->
  rmap (batch_spec (nd_use_dissolve_boundaries (w_node w))) rows = Err ex ->
  exists w', process w = (Err ex, w') /\ w_node w' = w_node w.
Proof.
  intros Hwf Hs Hl Hg Ha Hr Hm. pose proof (dissolve_loop_spec rows w Hwf) as Hd.
  rewrite Hm in Hd. destruct Hd as [w' [Hw' Hn]]. exists w'. split; [|done].
  unfold process, sget, slift. unfold sbind at 1. cbv beta.
  unfold sbind at 1. rewrite Hs. cbv beta iota. rewrite Hl. cbn [negb].
  unfold sbind at 1. rewrite Hg. cbv beta iota.
  unfold sbind at 1. rewrite Ha. cbv beta iota.
  unfold sbind at 1. rewrite Hr. cbv beta iota.
  by rewrite (sbind_err _ _ _ _ _ Hw').
Qed.

(** C9. When the kernel's [dissolve_limit] raises, the node does not free
    the BMesh built for the batch: [bm.free()] is not in a [finally], so
    the handle is still live in the store when the exception leaves the
    loop.  (The store does not model Python's garbage collection: Blender
    releases such a BMesh later, when its Python object is deallocated.) *)
Theorem dissolve_batch_leaks_on_error w v e f a b ex :
  wf_world w ->
  bmesh_from_pydata v e f true = Ok b ->
  dissolve_limit b a (nd_use_dissolve_boundaries (w_node w)) = Err ex ->
  exists w', dissolve_batch [v; e; f; a] w = (Err ex, w') /\
    w_bm w !! w_next w = None /\ w_bm w' !! w_next w = Some b.
Proof.
  intros Hwf Hb Hd. unfold dissolve_batch, bm_from_pydata, bm_dissolve_limit, bm_get,
    sbind, slift, sget. rewrite Hb. simpl. rewrite lookup_insert_eq, Hd. simpl.
  eexists. split_and!; [reflexivity|by apply wf_fresh|apply lookup_insert_eq].
Qed.

(** The contract is idempotent: running it on the node it produced
    reproduces that node. *)
Lemma process_spec_idem nd nd1 : process_spec nd = Ok nd1 -> process_spec nd1 = Ok nd1.
Proof.
  unfold process_spec.
  destruct (socket_get (nd_outputs nd) "Verts") as [out|e] eqn:Eo; cbn [rbind]; [|done].
  destruct (sk_linked out) eqn:El; cbn [negb].
  2:{ intros H. invc H. rewrite Eo. cbn [rbind]. by rewrite El. }
  destruct (read_geometry nd) as [[[v ed] f]|e] eqn:Eg; cbn [rbind]; [|done].
  destruct (read_angle nd) as [a|e] eqn:Ea; cbn [rbind]; [|done].
  destruct (align_inputs v ed f a) as [rows|e] eqn:Er; cbn [rbind]; [|done].
  destruct (rmap _ rows) as [res|e] eqn:Em; cbn [rbind]; [|done].
  intros Hs. pose proof (set_outputs_cfg _ _ _ Hs) as Hc.
  destruct (set_outputs_sockets _ _ _ Hs "Verts"%string (out_verts res) ltac:(simpl; tauto))
    as [sk [sk' [Hf [Hf' [_ Hl]]]]].
  unfold socket_get in Eo. rewrite Hf in Eo. invc Eo.
  unfold socket_get. rewrite Hf'. cbn [rbind]. rewrite Hl, El. cbn [negb].
  rewrite (read_geometry_cfg _ _ Hc), Eg. cbn [rbind].
  rewrite (read_angle_cfg _ _ Hc), Ea. cbn [rbind]. rewrite Er. cbn [rbind].
  assert (nd_use_dissolve_boundaries nd1 = nd_use_dissolve_boundaries nd) as ->
    by (unfold node_cfg in Hc; congruence).
  rewrite Em. cbn [rbind]. exact (set_outputs_idem _ _ _ Hs).
Qed.

(** C15. Running the node a second time, with nothing changed in between,
    succeeds again and leaves the node and the store of live BMeshes as the
    first run left them: the outputs hold the same lists. *)
Theorem process_idempotent w w1 :
  wf_world w -> process w = (Ok tt, w1) ->
  exists w2, process w1 = (Ok tt, w2) /\ w_node w2 = w_node w1 /\ w_bm w2 = w_bm w1.
Proof.
  intros Hwf Hp. pose proof (process_sim w Hwf) as Hs.
  destruct (process_spec (w_node w)) as [nd1|e] eqn:E.
  - destruct Hs as [n Hn].
    pose proof (process_keeps wf_world set_output_wf dissolve_batch_wf w _ _ Hwf Hp) as Hwf1.
    rewrite Hn in Hp. invc Hp.
    pose proof (process_sim _ Hwf1) as Hs1. cbn [w_node] in Hs1.
    rewrite (process_spec_idem _ _ E) in Hs1. destruct Hs1 as [n1 Hn1]. by eexists.
  - destruct Hs as [w' Hw']. congruence.
Qed.

End ProcessFacts.

(** ** Witnesses *)

Lemma process_refines_spec_witness :
  wf_world demo_world /\
  match @process_spec example_kernel (w_node demo_world) with
  | Ok nd' => exists n, process demo_world = (Ok tt, {| w_node := nd'; w_bm := w_bm demo_world; w_next := n |})
  | Err e => exists w', process demo_world = (Err e, w')
  end.
Proof. split; [apply wf_empty_store|]. apply process_refines_spec, wf_empty_store. Defined.

Lemma read_angle_fallback_witness :
  read_angle (angle_node (VList [VStr "abc"])) = Ok (nd_angle (angle_node (VList [VStr "abc"]))).
Proof. eapply read_angle_fallback; reflexivity. Defined.

Lemma read_angle_empty_raises_witness : read_angle (angle_node (VList [])) = Err IndexError.
Proof. eapply read_angle_empty_raises; reflexivity. Defined.

Lemma align_inputs_batches_witness :
  length rows3 = 3 /\ forall i, i < length rows3 -> rows3 !! i ≫= (fun r => r !! 3) = Some (VFloat (b64_of_Z 5)).
Proof.
  exact (align_inputs_batches (VList [tri; tri; tri]) (VList [VList []]) (VList [VList []]) (b64_of_Z 5)
           _ _ _ rows3 eq_refl eq_refl eq_refl eq_refl).
Defined.

Lemma process_unlinked_noop_witness : process idle_world = (Ok tt, idle_world).
Proof. eapply process_unlinked_noop; reflexivity. Defined.

Lemma process_kernel_error_atomic_witness :
  exists w', process bad_world = (Err (KernelError 1), w') /\ w_node w' = w_node bad_world.
Proof. eapply process_kernel_error_atomic; [apply wf_empty_store|reflexivity..]. Defined.

Lemma dissolve_batch_leaks_on_error_witness :
  exists w', dissolve_batch [tri; VList []; VList []; VNone] demo_world = (Err (KernelError 0), w') /\
    w_bm demo_world !! w_next demo_world = None /\ w_bm w' !! w_next demo_world = Some (tri, VList [], VList []).
Proof.
  apply (@dissolve_batch_leaks_on_error example_kernel demo_world tri (VList []) (VList []) VNone
           (tri, VList [], VList []) (KernelError 0)); [apply wf_empty_store|reflexivity..].
Defined.

Lemma coerce_angle_array_fallback_witness :
  length (nd_flat (VArray [VFloat (b64_of_Z 3); VFloat (b64_of_Z 4)])) <> 1 /\
  coerce_angle demo_node (VArray [VFloat (b64_of_Z 3); VFloat (b64_of_Z 4)]) = nd_angle demo_node.
Proof. split; [simpl; lia|]. apply coerce_angle_array_fallback. simpl. lia. Defined.

Lemma process_frame_witness :
  fst (process demo_world) = Ok tt /\
  node_cfg (w_node (snd (process demo_world))) = node_cfg (w_node demo_world).
Proof.
  split; [vm_compute; reflexivity|].
  apply (process_frame demo_world (fst (process demo_world))). apply surjective_pairing.
Defined.

Lemma set_angle_nonneg_witness :
  SFltb (nd_angle (w_node demo_world)) (S754_zero false) = false /\
  SFltb (nd_angle (w_node (snd (set_angle (VInt (-3)) demo_world)))) (S754_zero false) = false.
Proof.
  split; [reflexivity|].
  apply (set_angle_nonneg (VInt (-3)) demo_world (fst (set_angle (VInt (-3)) demo_world))); [reflexivity|].
  apply surjective_pairing.
Defined.

Lemma process_idempotent_witness :
  wf_world demo_world /\ process demo_world = (Ok tt, snd (process demo_world)) /\
  exists w2, process (snd (process demo_world)) = (Ok tt, w2) /\
    w_node w2 = w_node (snd (process demo_world)) /\ w_bm w2 = w_bm (snd (process demo_world)).
Proof.
  assert (H : process demo_world = (Ok tt, snd (process demo_world))) by (vm_compute; reflexivity).
  split_and!; [apply wf_empty_store|exact H|].
  exact (process_idempotent demo_world _ ltac:(apply wf_empty_store) H).
Defined.
