(* ===== verification/NodeContract.v ===== *)
(** * The node's contract against the kernel's laws

    [LimitedDissolve] proves what [process] does for every kernel.  This
    file proves what it achieves for a kernel that obeys the laws of
    [MeshKernel] ([KernelTotal], [KernelSpec]).  The node is the one the
    editor builds ([wired_node]): [sv_init]'s sockets, the two property
    values, the [Verts] input and output linked, and each of [Edges],
    [Polys], [Angle] linked to some data or not.
    - Progress: the node raises nothing of its own when its inputs are
      sequences, [angle_values[0]] exists, and every aligned batch is a
      well-formed mesh.  It then writes its outputs and frees every BMesh
      ([process_progress]).
    - Shape: the outputs are lists with one item per aligned batch
      ([process_outputs_shape]).
    - Section 8, no faces: with [Edges] and [Polys] unlinked, the output
      [Verts] is the input [Verts] ([process_no_faces]).
    - Section 8, boundaries: setting [use_dissolve_boundaries] never adds
      a vertex to a batch ([boundaries_never_add_vertices]).

    The batches are described by index: batch [i] holds item
    [min i (len - 1)] of each input ([aligned_item]), as [match_long_repeat]
    and [zip] make them ([align_inputs_rows]). *)

From S2P Require Import Prelude PyValue PyFloat FloatOverflow FloatStr MatchLongRepeat Socket MeshKernel LimitedDissolve.
From stdpp Require Import gmap.
From Stdlib Require Import SpecFloat.

(** ** Nodes as the editor wires them *)

Definition link_opt (name : string) (d : option pyval) (nd : node) : node :=
  match d with Some x => link_input nd name x | None => nd end.

(** A node made by [sv_init], with the properties [angle = ang] and
    [use_dissolve_boundaries = udb], [v] on its [Verts] input, the optional
    inputs [e], [f], [a] on [Edges], [Polys], [Angle], and its [Verts]
    output linked. *)
Definition wired_node (ang : spec_float) (udb : bool) (v : pyval) (e f a : option pyval) : node :=
  link_output
    (link_opt "Angle" a (link_opt "Polys" f (link_opt "Edges" e
      (link_input (with_use_dissolve_boundaries (with_angle new_node ang) udb) "Verts" v))))
    "Verts".

(** What [sv_get(default=[[]])] returns for an optional input. *)
Definition input_or_default (d : option pyval) : pyval := default (VList [VList []]) d.

(** [angle_values[0]] exists when [Angle] is linked. *)
Definition angle_readable (a : option pyval) : bool :=
  match a with
  | Some av => match py_getitem av 0 with Ok _ => true | Err _ => false end
  | None => true
  end.

(** Item [min i (len - 1)] of an input: what batch [i] gets of it. *)
Definition aligned_item (l : list pyval) (i : nat) : pyval :=
  default VNone (l !! Nat.min i (length l - 1)).

(** The number of batches: none when an input is empty, the longest
    input's length otherwise. *)
Definition batch_count (lv le lf : list pyval) : nat :=
  if any_empty [lv; le; lf] then 0 else list_max [length lv; length le; length lf; 1].

Definition aligned_row (lv le lf : list pyval) (a : spec_float) (i : nat) : list pyval :=
  [aligned_item lv i; aligned_item le i; aligned_item lf i; VFloat a].

(** Every aligned batch is a mesh as section 3 describes it. *)
Definition batches_valid (lv le lf : list pyval) : bool :=
  forallb (fun i => valid_mesh (aligned_item lv i) (aligned_item le i) (aligned_item lf i))
          (seq 0 (batch_count lv le lf)).

(** The data an output socket holds. *)
Definition output_data (nd : node) (name : string) : option pyval :=
  find_socket (nd_outputs nd) name ≫= sk_data.

(** The node of the examples: two triangles on [Verts], nothing else
    linked, the default properties. *)
Definition wired_demo : node := wired_node (b64_of_Z 5) false (VList [tri; tri]) None None None.

Definition wired_world : @world example_kernel :=
  {| w_node := wired_demo; w_bm := ∅; w_next := 1%positive |}.

(** A node whose [Verts] output is linked but whose [Verts] input is not. *)
Definition unfed_world : @world example_kernel :=
  {| w_node := link_output new_node "Verts"; w_bm := ∅; w_next := 1%positive |}.

(** Python's [math.pi], the double [0x400921FB54442D18]. *)
Definition py_pi : spec_float := S754_finite false 7074237752028440 (-51).

(** ** The example kernel obeys the laws *)

#[export] Instance example_kernel_total : @KernelTotal example_kernel.
Proof.
  split; simpl.
  - intros v e f _ H. rewrite H. by eexists.
  - intros b a _. by eexists.
  - intros b. by eexists.
Qed.

#[export] Instance example_kernel_spec : @KernelSpec example_kernel.
Proof.
  split; simpl.
  - intros v e _ b a _ b'. destruct (valid_mesh _ _ _); intros H; invc H.
    destruct a; intros H; invc H; done.
  - intros b a b1 b2 r1 r2. destruct a; intros H1 H2; invc H1; invc H2.
    intros H1 H2. invc H1. invc H2. done.
Qed.

(** ** Alignment by index *)

Lemma lookup_aligned l i : l <> [] -> l !! Nat.min i (length l - 1) = Some (aligned_item l i).
Proof.
  intros Hl. unfold aligned_item. destruct (l !! _) eqn:E; [done|].
  apply lookup_ge_None in E. destruct l; [done|]. simpl in E. lia.
Qed.

Lemma batch_count_nonempty lv le lf i :
  i < batch_count lv le lf -> lv <> [] /\ le <> [] /\ lf <> [].
Proof.
  unfold batch_count. destruct (any_empty _) eqn:E; [lia|]. intros _.
  rewrite <- not_true_iff_false, any_empty_spec in E.
  split_and!; intros ->; apply E; set_solver.
Qed.

(** [zip( *match_long_repeat([verts, edges, faces, [angle]]))] is the list
    of [aligned_row]s. *)
Lemma align_inputs_rows v e f a lv le lf :
  py_items v = Some lv -> py_items e = Some le -> py_items f = Some lf ->
  align_inputs v e f a = Ok (map (aligned_row lv le lf a) (seq 0 (batch_count lv le lf))).
Proof.
  intros Hv He Hf. unfold align_inputs, match_long_repeat_py. simpl. rewrite Hv, He, Hf. simpl. f_equal.
  destruct (zip_mlr [lv; le; lf; [VFloat a]]) as [Hl Hc].
  assert (Hn : length (py_zip (match_long_repeat [lv; le; lf; [VFloat a]])) = batch_count lv le lf).
  { rewrite Hl. unfold batch_count, any_empty. simpl. by rewrite orb_false_r. }
  apply list_eq. intros i. rewrite list_lookup_fmap.
  destruct (decide (i < batch_count lv le lf)) as [Hi|Hi].
  - rewrite lookup_seq_lt by done. simpl.
    destruct (py_zip _ !! i) as [r|] eqn:Er; [|apply lookup_ge_None in Er; lia].
    destruct (batch_count_nonempty _ _ _ _ Hi) as [Hv' [He' Hf']].
    f_equal. apply list_eq. intros j. pose proof (Hc i j ltac:(lia)) as Hj. rewrite Er in Hj.
    simpl in Hj. rewrite Hj. unfold aligned_row.
    destruct j as [|[|[|[|j]]]]; simpl; try done; try by apply lookup_aligned.
    by rewrite Nat.min_0_r.
  - rewrite lookup_seq_ge by lia. apply lookup_ge_None. lia.
Qed.

Lemma aligned_item_lt l i : i < length l -> aligned_item l i = default VNone (l !! i).
Proof. intros Hi. unfold aligned_item. f_equal. f_equal. lia. Qed.

(** A one-item input, such as the default [[[]]], goes to every batch. *)
Lemma aligned_item_single x i : aligned_item [x] i = x.
Proof. unfold aligned_item. simpl. by rewrite Nat.min_0_r. Qed.

(** An input as long as the batches comes out item by item. *)
Lemma map_aligned_item l : map (aligned_item l) (seq 0 (length l)) = l.
Proof.
  apply list_eq. intros i. rewrite list_lookup_fmap.
  destruct (decide (i < length l)) as [Hi|Hi].
  - rewrite lookup_seq_lt by done. simpl. rewrite aligned_item_lt by done.
    destruct (l !! i) eqn:E; [done|]. apply lookup_ge_None in E. lia.
  - rewrite lookup_seq_ge by lia. symmetry. apply lookup_ge_None. lia.
Qed.

(** ** What the wired node reads *)

Lemma wired_out ang udb v e f a :
  exists sk, socket_get (nd_outputs (wired_node ang udb v e f a)) "Verts" = Ok sk /\ sk_linked sk = true.
Proof. destruct e, f, a; eexists; split; reflexivity. Qed.

Lemma wired_udb ang udb v e f a : nd_use_dissolve_boundaries (wired_node ang udb v e f a) = udb.
Proof. by destruct e, f, a. Qed.

(** Any node with the wired node's inputs and angle reads what it reads,
    whatever its outputs and flag. *)
Lemma wired_reads nd ang udb v e f a :
  nd_inputs nd = nd_inputs (wired_node ang udb v e f a) -> nd_angle nd = ang ->
  read_geometry nd = Ok (v, input_or_default e, input_or_default f) /\
  read_angle nd = read_angle (wired_node ang udb v e f a).
Proof. destruct nd as [an u ins outs]; simpl; intros -> ->. destruct e, f, a; split; reflexivity. Qed.

Lemma wired_angle ang udb v e f a :
  angle_readable a = true -> exists ang', read_angle (wired_node ang udb v e f a) = Ok ang'.
Proof.
  destruct a as [av|]; simpl; [|intros _; eexists; by destruct e, f].
  destruct (py_getitem av 0) as [a0|] eqn:E; [intros _|done].
  destruct e, f; (erewrite read_angle_linked; [|reflexivity..]); rewrite E; simpl; by eexists.
Qed.

Lemma wired_nd_angle ang udb v e f a : nd_angle (wired_node ang udb v e f a) = ang.
Proof. by destruct e, f, a. Qed.

Lemma wired_angle_linked ang udb v e f av :
  read_angle (wired_node ang udb v e f (Some av)) =
  rbind (py_getitem av 0) (fun a0 => Ok (coerce_angle (wired_node ang udb v e f (Some av)) a0)).
Proof. destruct e, f; (erewrite read_angle_linked; [|reflexivity..]); reflexivity. Qed.

(** [try: float(i) except Exception: d]. *)
Lemma try_float_of_int z d :
  try_except (float_of_int z) d = if (2 ^ 1024 - 2 ^ 970 <=? Z.abs z)%Z then d else b64_of_Z z.
Proof. rewrite <- b64_of_Z_is_inf. unfold float_of_int. by destruct (b64_of_Z z). Qed.

(** An integer angle [[i]] or [[[i]]] goes through [float(i)] in the [try]. *)
Lemma wired_angle_int ang udb v e f z av :
  av = VInt z \/ av = VList [VInt z] ->
  read_angle (wired_node ang udb v e f (Some (VList [av]))) =
    Ok (if (2 ^ 1024 - 2 ^ 970 <=? Z.abs z)%Z then ang else b64_of_Z z).
Proof.
  intros [-> | ->]; rewrite wired_angle_linked; unfold coerce_angle; rewrite wired_nd_angle; simpl;
    by rewrite try_float_of_int.
Qed.

Lemma set_outputs_wired ang udb v e f a res :
  exists nd', set_outputs (wired_node ang udb v e f a) res = Ok nd'.
Proof. destruct e, f, a; eexists; reflexivity. Qed.

Lemma wired_angle_prop ang udb v e f a : nd_angle (wired_node ang udb v e f a) = ang.
Proof. by destruct e, f, a. Qed.

(** After the wired node has written its outputs, and whatever its flag
    then becomes, a second run reads what the first one read. *)
Lemma wired_rerun ang udb v e f a res nd1 b :
  set_outputs (wired_node ang udb v e f a) res = Ok nd1 ->
  (exists sk, socket_get (nd_outputs (with_use_dissolve_boundaries nd1 b)) "Verts" = Ok sk /\
              sk_linked sk = true) /\
  read_geometry (with_use_dissolve_boundaries nd1 b) = read_geometry (wired_node ang udb v e f a) /\
  read_angle (with_use_dissolve_boundaries nd1 b) = read_angle (wired_node ang udb v e f a).
Proof.
  intros Hn. pose proof (set_outputs_cfg _ _ _ Hn) as Hc. unfold node_cfg in Hc. injection Hc as Ha _ Hi.
  destruct (wired_out ang udb v e f a) as [out [Ho Hl]].
  destruct (set_outputs_sockets _ _ _ Hn "Verts"%string (out_verts res) ltac:(simpl; tauto))
    as [sk [sk' [Hf [Hf' [_ Hl']]]]].
  unfold socket_get in Ho. rewrite Hf in Ho. invc Ho.
  destruct (wired_reads (with_use_dissolve_boundaries nd1 b) ang udb v e f a Hi
              (eq_trans Ha (wired_angle_prop ang udb v e f a))) as [Hg Ha'].
  destruct (wired_reads (wired_node ang udb v e f a) ang udb v e f a eq_refl (wired_angle_prop _ _ _ _ _ _))
    as [Hg0 _].
  split_and!; [|by rewrite Hg, Hg0|exact Ha'].
  exists sk'. unfold socket_get. simpl. rewrite Hf'. split; [done|]. by rewrite Hl'.
Qed.

Section Contract.
Context `{K : MeshKernel}.

(** ** From the contract to [process] and back *)

Lemma process_of_spec w nd' :
  wf_world w -> process_spec (w_node w) = Ok nd' ->
  exists n, process w = (Ok tt, {| w_node := nd'; w_bm := w_bm w; w_next := n |}).
Proof. intros Hwf H. pose proof (process_sim w Hwf) as Hs. by rewrite H in Hs. Qed.

Lemma spec_of_process w w1 :
  wf_world w -> process w = (Ok tt, w1) ->
  process_spec (w_node w) = Ok (w_node w1) /\ w_bm w1 = w_bm w.
Proof.
  intros Hwf Hp. pose proof (process_sim w Hwf) as Hs.
  destruct (process_spec (w_node w)) as [nd'|e].
  - destruct Hs as [n Hn]. rewrite Hn in Hp. by invc Hp.
  - destruct Hs as [w' Hw']. congruence.
Qed.

(** The contract once its reads have succeeded. *)
Lemma process_spec_steps nd out v e f a rows :
  socket_get (nd_outputs nd) "Verts" = Ok out -> sk_linked out = true ->
  read_geometry nd = Ok (v, e, f) -> read_angle nd = Ok a -> align_inputs v e f a = Ok rows ->
  process_spec nd = rbind (rmap (batch_spec (nd_use_dissolve_boundaries nd)) rows) (set_outputs nd).
Proof.
  intros Ho Hl Hg Ha Hr. unfold process_spec. rewrite Ho. simpl. rewrite Hl, Hg. simpl.
  rewrite Ha. simpl. by rewrite Hr.
Qed.

(** A successful run of the contract with [Verts] linked, step by step. *)
Lemma process_spec_inv nd out nd1 :
  socket_get (nd_outputs nd) "Verts" = Ok out -> sk_linked out = true ->
  process_spec nd = Ok nd1 ->
  exists v e f a rows res, read_geometry nd = Ok (v, e, f) /\ read_angle nd = Ok a /\
    align_inputs v e f a = Ok rows /\
    rmap (batch_spec (nd_use_dissolve_boundaries nd)) rows = Ok res /\ set_outputs nd res = Ok nd1.
Proof.
  intros Ho Hl. unfold process_spec. rewrite Ho. simpl. rewrite Hl. simpl.
  destruct (read_geometry nd) as [[[v e] f]|] eqn:Eg; [|done]. simpl.
  destruct (read_angle nd) as [a|] eqn:Ea; [|done]. simpl.
  destruct (align_inputs v e f a) as [rows|] eqn:Er; [|done]. simpl.
  destruct (rmap _ rows) as [res|] eqn:Em; [|done]. simpl. intros H.
  exists v, e, f, a, rows, res. done.
Qed.

(** The data of the three outputs after [set_outputs]. *)
Lemma set_outputs_data nd res nd1 :
  set_outputs nd res = Ok nd1 ->
  output_data nd1 "Verts" = Some (out_verts res) /\ output_data nd1 "Edges" = Some (out_edges res) /\
  output_data nd1 "Polys" = Some (out_faces res).
Proof.
  intros H. pose proof (set_outputs_sockets _ _ _ H) as Hs. unfold output_data.
  destruct (Hs "Verts"%string (out_verts res) ltac:(simpl; tauto)) as [_ [s1 [_ [H1 [D1 _]]]]].
  destruct (Hs "Edges"%string (out_edges res) ltac:(simpl; tauto)) as [_ [s2 [_ [H2 [D2 _]]]]].
  destruct (Hs "Polys"%string (out_faces res) ltac:(simpl; tauto)) as [_ [s3 [_ [H3 [D3 _]]]]].
  rewrite H1, H2, H3. simpl. by rewrite D1, D2, D3.
Qed.

(** ** Counting the iterations of the loop *)

(** A loop that returns has run one batch per row: each allocated one
    handle and freed it. *)
Lemma dissolve_loop_next rows w res w' :
  wf_world w -> dissolve_loop rows w = (Ok res, w') ->
  (Zpos (w_next w') = Zpos (w_next w) + Z.of_nat (length rows))%Z /\ w_bm w' = w_bm w.
Proof.
  unfold dissolve_loop. revert w res w'. induction rows as [|row rows IH]; intros w res w' Hwf H.
  { invc H. simpl. split; [lia|done]. }
  pose proof (dissolve_batch_spec row w Hwf) as Hb. cbn [sfor] in H.
  destruct (batch_spec _ row) as [r|e].
  - rewrite (sbind_ok _ _ _ _ _ Hb) in H. unfold sbind at 1 in H.
    destruct (sfor rows dissolve_batch _) as [[res'|e] w2] eqn:E; [|done]. invc H.
    destruct (IH _ _ _ (wf_set_next w (Pos.succ (w_next w)) Hwf ltac:(lia)) E) as [Hn Hm].
    simpl in Hn, Hm. rewrite Hn, Hm, Pos2Z.inj_succ. simpl length. split; [lia|done].
  - destruct Hb as [w1 [Hw1 _]]. by rewrite (sbind_err _ _ _ _ _ Hw1) in H.
Qed.

Lemma set_output_store n m name data :
  preserves (fun w0 => w_next w0 = n /\ w_bm w0 = m) (set_output name data).
Proof. intros w0 r0 w1 Hw E. unfold set_output in E. destruct (sv_set _ _ _); by invc E. Qed.

(** The output writes allocate nothing and free nothing. *)
Lemma write_outputs_store res w w' r :
  write_outputs res w = (r, w') -> w_next w' = w_next w /\ w_bm w' = w_bm w.
Proof.
  assert (P : preserves (fun w0 => w_next w0 = w_next w /\ w_bm w0 = w_bm w) (write_outputs res)).
  { unfold write_outputs. eauto using set_output_store with sv. }
  intros H. exact (P w r w' (conj eq_refl eq_refl) H).
Qed.

(** ** One batch under the laws *)

Lemma batch_total `{!KernelTotal} u x y z a :
  valid_mesh x y z = true -> exists r, batch_spec u [x; y; z; VFloat a] = Ok r.
Proof.
  intros Hv. destruct (from_pydata_total x y z true Hv) as [b Hb].
  destruct (dissolve_total b a u) as [b' Hb']. destruct (pydata_total b') as [r Hr].
  exists r. simpl. rewrite Hb. simpl. by rewrite Hb'.
Qed.

Lemma batch_no_faces `{!KernelTotal} `{!KernelSpec} u x a :
  valid_mesh x (VList []) (VList []) = true ->
  batch_spec u [x; VList []; VList []; VFloat a] = Ok (x, VList [], VList []).
Proof.
  intros Hv. destruct (from_pydata_total x (VList []) (VList []) true Hv) as [b Hb].
  destruct (dissolve_total b a u) as [b' Hb']. simpl. rewrite Hb. simpl. rewrite Hb'. simpl.
  exact (dissolve_no_faces _ _ _ _ _ _ _ Hb Hb').
Qed.

Lemma batch_monotone `{!KernelSpec} row r1 r2 :
  batch_spec false row = Ok r1 -> batch_spec true row = Ok r2 -> py_len r2.1.1 <= py_len r1.1.1.
Proof.
  destruct row as [|x [|y [|z [|a [|? ?]]]]]; simpl; try done.
  destruct (bmesh_from_pydata x y z true) as [b|]; simpl; [|done].
  destruct (dissolve_limit b a false) as [b1|] eqn:E1; simpl; [|done].
  destruct (dissolve_limit b a true) as [b2|] eqn:E2; simpl; [|done].
  exact (dissolve_boundaries_monotone _ _ _ _ _ _ E1 E2).
Qed.

(** ** Theorems *)

(** C16. Progress: the wired node raises nothing of its own.  When its
    inputs are sequences, [angle_values[0]] exists, and every aligned batch
    is a well-formed mesh, [process] returns normally on a kernel that
    accepts well-formed meshes, and leaves no BMesh allocated. *)
Theorem process_progress `{!KernelTotal} ang udb v e f a lv le lf w :
  w_node w = wired_node ang udb v e f a -> wf_world w ->
  py_items v = Some lv -> py_items (input_or_default e) = Some le ->
  py_items (input_or_default f) = Some lf -> angle_readable a = true ->
  batches_valid lv le lf = true ->
  exists w', process w = (Ok tt, w') /\ w_bm w' = w_bm w.
Proof.
  intros Hw Hwf Hv He Hf Ha Hb.
  destruct (wired_out ang udb v e f a) as [out [Ho Hl]].
  destruct (wired_angle ang udb v e f a Ha) as [ang' Ha'].
  destruct (wired_reads _ ang udb v e f a eq_refl (wired_angle_prop _ _ _ _ _ _)) as [Hg _].
  pose proof (align_inputs_rows _ _ _ ang' _ _ _ Hv He Hf) as Hr.
  destruct (rmap_total (batch_spec udb) (map (aligned_row lv le lf ang') (seq 0 (batch_count lv le lf))))
    as [res Hres].
  { intros row Hin. apply in_map_iff in Hin as [i [<- Hi]].
    apply batch_total. unfold batches_valid in Hb. rewrite forallb_forall in Hb. by apply Hb. }
  destruct (set_outputs_wired ang udb v e f a res) as [nd' Hn].
  pose proof (process_spec_steps _ _ _ _ _ _ _ Ho Hl Hg Ha' Hr) as Hs.
  rewrite wired_udb, Hres in Hs. simpl in Hs. rewrite Hn, <- Hw in Hs.
  destruct (process_of_spec w nd' Hwf Hs) as [n Hp]. by eexists.
Qed.

(** C17. Shape of the outputs: after a run with [Verts] linked, each of
    the three outputs holds a list with one item per aligned batch, that
    is [max(Lv, Le, Lf, 1)] items, or none when an input is empty. *)
Theorem process_outputs_shape w w1 out v e f lv le lf :
  wf_world w -> process w = (Ok tt, w1) ->
  socket_get (nd_outputs (w_node w)) "Verts" = Ok out -> sk_linked out = true ->
  read_geometry (w_node w) = Ok (v, e, f) ->
  py_items v = Some lv -> py_items e = Some le -> py_items f = Some lf ->
  exists rv re rf, output_data (w_node w1) "Verts" = Some (VList rv) /\
    output_data (w_node w1) "Edges" = Some (VList re) /\
    output_data (w_node w1) "Polys" = Some (VList rf) /\
    length rv = batch_count lv le lf /\ length re = batch_count lv le lf /\
    length rf = batch_count lv le lf.
Proof.
  intros Hwf Hp Ho Hl Hg Hv He Hf.
  destruct (spec_of_process w w1 Hwf Hp) as [Hs _].
  destruct (process_spec_inv _ _ _ Ho Hl Hs) as (v' & e' & f' & a & rows & res & Hg' & _ & Hr & Hm & Hn).
  rewrite Hg in Hg'. invc Hg'.
  rewrite (align_inputs_rows _ _ _ _ _ _ _ Hv He Hf) in Hr. invc Hr.
  apply length_rmap in Hm. rewrite length_map, length_seq in Hm.
  destruct (set_outputs_data _ _ _ Hn) as [H1 [H2 H3]].
  do 3 eexists. split_and!; [exact H1|exact H2|exact H3|..]; by rewrite length_map.
Qed.

(** C18. Section 8, no faces: with [Edges] and [Polys] unlinked, every
    batch has no face, and on a kernel that keeps a faceless mesh as it is,
    [process] passes [Verts] through unchanged and outputs one empty edge
    list and one empty face list per batch. *)
Theorem process_no_faces `{!KernelTotal} `{!KernelSpec} ang udb v lv a w :
  w_node w = wired_node ang udb v None None a -> wf_world w ->
  py_items v = Some lv -> angle_readable a = true ->
  forallb (fun x => valid_mesh x (VList []) (VList [])) lv = true ->
  exists w', process w = (Ok tt, w') /\
    output_data (w_node w') "Verts" = Some (VList lv) /\
    output_data (w_node w') "Edges" = Some (VList (repeat (VList []) (length lv))) /\
    output_data (w_node w') "Polys" = Some (VList (repeat (VList []) (length lv))).
Proof.
  intros Hw Hwf Hv Ha Hb.
  destruct (wired_out ang udb v None None a) as [out [Ho Hl]].
  destruct (wired_angle ang udb v None None a Ha) as [ang' Ha'].
  destruct (wired_reads _ ang udb v None None a eq_refl (wired_angle_prop _ _ _ _ _ _)) as [Hg _].
  pose proof (align_inputs_rows v (input_or_default None) (input_or_default None) ang'
                lv [VList []] [VList []] Hv eq_refl eq_refl) as Hr.
  replace (batch_count lv _ _) with (length lv) in Hr
    by (unfold batch_count, any_empty; destruct lv; simpl; lia).
  assert (Hres : rmap (batch_spec udb) (map (aligned_row lv [VList []] [VList []] ang') (seq 0 (length lv)))
                 = Ok (map (fun i => (aligned_item lv i, VList [], VList [])) (seq 0 (length lv)))).
  { apply rmap_map_ok. intros i Hi. apply in_seq in Hi.
    unfold aligned_row. rewrite aligned_item_single. apply batch_no_faces.
    rewrite forallb_forall in Hb. apply Hb. rewrite aligned_item_lt by lia.
    destruct (lv !! i) eqn:E; [apply list_elem_of_In; by eapply list_elem_of_lookup_2|].
    apply lookup_ge_None in E. lia. }
  destruct (set_outputs_wired ang udb v None None a
              (map (fun i => (aligned_item lv i, VList [], VList [])) (seq 0 (length lv)))) as [nd' Hn].
  pose proof (process_spec_steps _ _ _ _ _ _ _ Ho Hl Hg Ha' Hr) as Hs.
  rewrite wired_udb, Hres in Hs. simpl in Hs. rewrite Hn, <- Hw in Hs.
  destruct (process_of_spec w nd' Hwf Hs) as [n Hp]. eexists. split; [exact Hp|]. simpl.
  destruct (set_outputs_data _ _ _ Hn) as [-> [-> ->]].
  unfold out_verts, out_edges, out_faces. rewrite !map_map. simpl.
  by rewrite map_aligned_item, !map_const, length_seq.
Qed.

(** C19. Section 8, boundaries: after a run with [use_dissolve_boundaries]
    off, setting it to [True] re-runs the node, and no batch of the new
    [Verts] output has more vertices than before, on a kernel whose
    [dissolve_limit] never adds a vertex when boundaries may dissolve. *)
Theorem boundaries_never_add_vertices `{!KernelSpec} ang v e f a w w1 w2 :
  w_node w = wired_node ang false v e f a -> wf_world w ->
  process w = (Ok tt, w1) -> set_use_dissolve_boundaries (VBool true) w1 = (Ok tt, w2) ->
  exists rv1 rv2, output_data (w_node w1) "Verts" = Some (VList rv1) /\
    output_data (w_node w2) "Verts" = Some (VList rv2) /\ length rv2 = length rv1 /\
    forall i x1 x2, rv1 !! i = Some x1 -> rv2 !! i = Some x2 -> py_len x2 <= py_len x1.
Proof.
  intros Hw Hwf Hp1 Hp2.
  pose proof (process_keeps wf_world set_output_wf dissolve_batch_wf w _ _ Hwf Hp1) as Hwf1.
  destruct (wired_out ang false v e f a) as [out [Ho Hl]].
  destruct (spec_of_process w w1 Hwf Hp1) as [Hs1 _]. rewrite Hw in Hs1.
  destruct (process_spec_inv _ _ _ Ho Hl Hs1) as (v' & e' & f' & an & rows & res1 & Hg & Ha & Hr & Hm1 & Hn1).
  rewrite wired_udb in Hm1.
  destruct (wired_rerun _ _ _ _ _ _ _ _ true Hn1) as [[out2 [Ho2 Hl2]] [Hg2 Ha2]].
  unfold set_use_dissolve_boundaries, sbind, slift, sget, sput in Hp2. cbv beta iota delta [prop_bool] in Hp2.
  assert (Hwf2 : wf_world {| w_node := with_use_dissolve_boundaries (w_node w1) true;
                             w_bm := w_bm w1; w_next := w_next w1 |}) by exact Hwf1.
  destruct (spec_of_process _ w2 Hwf2 Hp2) as [Hs2 _]. simpl in Hs2.
  rewrite (process_spec_steps _ _ v' e' f' an rows Ho2 Hl2) in Hs2 by congruence. simpl in Hs2.
  destruct (rmap (batch_spec true) rows) as [res2|] eqn:Hm2; [|done]. simpl in Hs2.
  destruct (set_outputs_data _ _ _ Hn1) as [H1 _]. destruct (set_outputs_data _ _ _ Hs2) as [H2 _].
  exists (map (fun r => r.1.1) res1), (map (fun r => r.1.1) res2). split_and!; [done|done| |].
  - rewrite !length_map. by rewrite (length_rmap _ _ _ Hm1), (length_rmap _ _ _ Hm2).
  - intros i x1 x2 E1 E2. rewrite list_lookup_fmap in E1, E2.
    destruct (res1 !! i) as [r1|] eqn:R1; [|done]. destruct (res2 !! i) as [r2|] eqn:R2; [|done].
    invc E1. invc E2.
    destruct (rmap_lookup _ _ _ _ _ Hm1 R1) as [row [Hrow B1]].
    destruct (rmap_lookup _ _ _ _ _ Hm2 R2) as [row' [Hrow' B2]].
    rewrite Hrow in Hrow'. invc Hrow'. exact (batch_monotone _ _ _ B1 B2).
Qed.

(** C22. The loop of [process] ends after exactly one iteration per
    aligned batch: a run that returns has allocated [batch_count] BMesh
    handles, one per iteration, and freed each of them, so the store is the
    one it started with. *)
Theorem process_iterations w w1 out v e f lv le lf :
  wf_world w -> process w = (Ok tt, w1) ->
  socket_get (nd_outputs (w_node w)) "Verts" = Ok out -> sk_linked out = true ->
  read_geometry (w_node w) = Ok (v, e, f) ->
  py_items v = Some lv -> py_items e = Some le -> py_items f = Some lf ->
  (Zpos (w_next w1) = Zpos (w_next w) + Z.of_nat (batch_count lv le lf))%Z /\ w_bm w1 = w_bm w.
Proof.
  intros Hwf Hp Ho Hl Hg Hv He Hf.
  unfold process, sbind, sget, slift in Hp. rewrite Ho, Hl, Hg in Hp. cbn beta iota in Hp.
  destruct (read_angle (w_node w)) as [a|] eqn:Ea; [|done].
  rewrite (align_inputs_rows _ _ _ a _ _ _ Hv He Hf) in Hp. cbv beta iota delta [negb] in Hp.
  destruct (dissolve_loop (map (aligned_row lv le lf a) (seq 0 (batch_count lv le lf))) w)
    as [[res|err] w2] eqn:El; [|done].
  destruct (write_outputs_store _ _ _ _ Hp) as [-> ->].
  destruct (dissolve_loop_next _ _ _ _ Hwf El) as [-> ->].
  by rewrite length_map, length_seq.
Qed.

End Contract.

(** ** The angle that reaches the kernel *)

(** C20. With [Angle] unlinked and the property at its default, every
    batch passes [angle_limit=5.0] to [dissolve_limit].  Blender reads
    [angle_limit] in radians, and [5.0] is more than [math.pi], the largest
    angle two faces can make: the default is not the 5 degrees that
    section 8 of the spec describes. *)
Theorem default_angle_exceeds_pi udb v e f lv le lf :
  py_items v = Some lv -> py_items (input_or_default e) = Some le ->
  py_items (input_or_default f) = Some lf ->
  exists a rows, read_angle (wired_node (nd_angle new_node) udb v e f None) = Ok a /\
    align_inputs v (input_or_default e) (input_or_default f) a = Ok rows /\
    Forall (fun row => row !! 3 = Some (VFloat a)) rows /\ SFltb py_pi a = true.
Proof.
  intros Hv He Hf. exists (nd_angle new_node).
  exists (map (aligned_row lv le lf (nd_angle new_node)) (seq 0 (batch_count lv le lf))). split_and!; [by destruct e, f|exact (align_inputs_rows _ _ _ _ _ _ _ Hv He Hf)| |reflexivity].
  apply Forall_forall. intros row Hin. apply list_elem_of_In, in_map_iff in Hin as [i [<- _]].
  reflexivity.
Qed.

(** ** What the node raises of its own *)

(** C23. Reading the angle raises only at [angle_values[0]], which is
    outside the [try]: [IndexError] when the linked [Angle] data is an
    empty sequence, [TypeError] when it is not a sequence.  Every failure
    inside [float()] falls back to the property. *)
Theorem read_angle_errors ang udb v e f a ex :
  read_angle (wired_node ang udb v e f a) = Err ex ->
  exists av, a = Some av /\
    ((py_items av = Some [] /\ ex = IndexError) \/ (py_items av = None /\ ex = TypeError)).
Proof.
  destruct a as [av|]; [|by destruct e, f].
  destruct e, f; (erewrite read_angle_linked; [|reflexivity..]);
    unfold py_getitem; destruct (py_items av) as [[|x l]|] eqn:E; simpl; intros H; invc H; eauto 6.
Qed.

(** C24. [Verts] is not optional: with its output linked and its input
    unlinked (and showing no property), [process] raises [SvNoDataError]
    and changes nothing. *)
Theorem process_no_verts_raises `{K : MeshKernel} w out sk :
  socket_get (nd_outputs (w_node w)) "Verts" = Ok out -> sk_linked out = true ->
  socket_get (nd_inputs (w_node w)) "Verts" = Ok sk -> sk_linked sk = false -> sk_prop_name sk = None ->
  process w = (Err SvNoDataError, w).
Proof.
  intros Ho Hl Hs Hsl Hsp. unfold process, sbind, sget, slift. rewrite Ho, Hl. cbv beta iota delta [negb].
  unfold read_geometry. rewrite Hs. simpl. unfold sv_get. by rewrite Hsl, Hsp.
Qed.

(** ** Integer angles *)

(** C27. An integer on the [Angle] input, as [[i]] or [[[i]]], is used as
    the angle exactly when [float(i)] does not overflow, that is when
    [|i| < 2^1024 - 2^970]; from that bound on, [float(i)] raises
    [OverflowError] inside the [try] (lines 63-71) and the node falls back
    to its [angle] property.  The bound is where the nearest double stops
    being finite: the integers from [2^1024 - 2^970] up round, half to even,
    to [2^1024]. *)
Theorem angle_int_overflow_fallback ang udb v e f z :
  read_angle (wired_node ang udb v e f (Some (VList [VInt z]))) =
    Ok (if (2 ^ 1024 - 2 ^ 970 <=? Z.abs z)%Z then ang else b64_of_Z z) /\
  read_angle (wired_node ang udb v e f (Some (VList [VList [VInt z]]))) =
    Ok (if (2 ^ 1024 - 2 ^ 970 <=? Z.abs z)%Z then ang else b64_of_Z z).
Proof.
  split; apply wired_angle_int; auto.
Qed.

(** C28. The same integer given as its decimal text ([str(i)], as a text
    node produces it) never falls back: [float(str(i))] rounds as
    [float(i)] does but returns an infinity where [float(i)] raises.  So,
    with a finite [angle] property, the node reads the text and the
    integer alike exactly when [|i| < 2^1024 - 2^970]; above, the text
    reaches [dissolve_limit] as an infinite angle. *)
Theorem angle_text_vs_int ang udb v e f z :
  b64_is_inf ang = false ->
  read_angle (wired_node ang udb v e f (Some (VList [VStr (py_str_int z)]))) = Ok (b64_of_Z z) /\
  (read_angle (wired_node ang udb v e f (Some (VList [VStr (py_str_int z)]))) =
   read_angle (wired_node ang udb v e f (Some (VList [VInt z]))) <->
   (Z.abs z < 2 ^ 1024 - 2 ^ 970)%Z).
Proof.
  intros Hang.
  assert (Ht : read_angle (wired_node ang udb v e f (Some (VList [VStr (py_str_int z)]))) = Ok (b64_of_Z z))
    by (rewrite wired_angle_linked; simpl; unfold coerce_angle; simpl; by rewrite float_of_str_int).
  split; [exact Ht|]. rewrite Ht, (wired_angle_int ang udb v e f z (VInt z)) by auto.
  pose proof (b64_of_Z_is_inf z) as Hi.
  destruct (Z.leb_spec (2 ^ 1024 - 2 ^ 970) (Z.abs z)) as [Hz|Hz]; split; intros Hq; try lia; [|done].
  invc Hq. congruence.
Qed.

(** ** Witnesses *)

Lemma process_progress_witness :
  batches_valid [tri; tri] [VList []] [VList []] = true /\
  exists w', process wired_world = (Ok tt, w') /\ w_bm w' = w_bm wired_world.
Proof.
  split; [vm_compute; reflexivity|].
  apply (process_progress (b64_of_Z 5) false (VList [tri; tri]) None None None
           [tri; tri] [VList []] [VList []] wired_world);
    [reflexivity|apply wf_empty_store|reflexivity..|vm_compute; reflexivity].
Defined.

Lemma process_outputs_shape_witness :
  batch_count [tri; tri] [VList []] [VList []] = 2 /\
  exists rv re rf, output_data (w_node (snd (process wired_world))) "Verts" = Some (VList rv) /\
    output_data (w_node (snd (process wired_world))) "Edges" = Some (VList re) /\
    output_data (w_node (snd (process wired_world))) "Polys" = Some (VList rf) /\
    length rv = batch_count [tri; tri] [VList []] [VList []] /\
    length re = batch_count [tri; tri] [VList []] [VList []] /\
    length rf = batch_count [tri; tri] [VList []] [VList []].
Proof.
  split; [reflexivity|].
  apply (process_outputs_shape wired_world (snd (process wired_world))
           (default (new_socket SvVerticesSocket "Verts") (find_socket (nd_outputs wired_demo) "Verts"))
           (VList [tri; tri]) (VList [VList []]) (VList [VList []]));
    [apply wf_empty_store|vm_compute; reflexivity|reflexivity..].
Defined.

Lemma process_no_faces_witness :
  exists w', process wired_world = (Ok tt, w') /\
    output_data (w_node w') "Verts" = Some (VList [tri; tri]) /\
    output_data (w_node w') "Edges" = Some (VList (repeat (VList []) (length [tri; tri]))) /\
    output_data (w_node w') "Polys" = Some (VList (repeat (VList []) (length [tri; tri]))).
Proof.
  apply (process_no_faces (b64_of_Z 5) false (VList [tri; tri]) [tri; tri] None wired_world);
    [reflexivity|apply wf_empty_store|reflexivity|reflexivity|vm_compute; reflexivity].
Defined.

Lemma boundaries_never_add_vertices_witness :
  exists rv1 rv2,
    output_data (w_node (snd (process wired_world))) "Verts" = Some (VList rv1) /\
    output_data (w_node (snd (set_use_dissolve_boundaries (VBool true) (snd (process wired_world)))))
      "Verts" = Some (VList rv2) /\
    length rv2 = length rv1 /\
    forall i x1 x2, rv1 !! i = Some x1 -> rv2 !! i = Some x2 -> py_len x2 <= py_len x1.
Proof.
  apply (boundaries_never_add_vertices (b64_of_Z 5) (VList [tri; tri]) None None None wired_world);
    [reflexivity|apply wf_empty_store|vm_compute; reflexivity|vm_compute; reflexivity].
Defined.

Lemma default_angle_exceeds_pi_witness :
  exists a rows, read_angle (wired_node (nd_angle new_node) false (VList [tri]) None None None) = Ok a /\
    align_inputs (VList [tri]) (input_or_default None) (input_or_default None) a = Ok rows /\
    Forall (fun row => row !! 3 = Some (VFloat a)) rows /\ SFltb py_pi a = true.
Proof. exact (default_angle_exceeds_pi false (VList [tri]) None None [tri] [VList []] [VList []]
                eq_refl eq_refl eq_refl). Defined.

Lemma process_iterations_witness :
  batch_count [tri; tri] [VList []] [VList []] = 2 /\
  (Zpos (w_next (snd (process wired_world))) =
     Zpos (w_next wired_world) + Z.of_nat (batch_count [tri; tri] [VList []] [VList []]))%Z /\
  w_bm (snd (process wired_world)) = w_bm wired_world.
Proof.
  split; [reflexivity|].
  apply (process_iterations wired_world (snd (process wired_world))
           (default (new_socket SvVerticesSocket "Verts") (find_socket (nd_outputs wired_demo) "Verts"))
           (VList [tri; tri]) (VList [VList []]) (VList [VList []]));
    [apply wf_empty_store|vm_compute; reflexivity|reflexivity..].
Defined.

Lemma read_angle_errors_witness :
  read_angle (wired_node (b64_of_Z 5) false (VList [tri]) None None (Some (VFloat (b64_of_Z 3)))) =
    Err TypeError /\
  exists av, Some (VFloat (b64_of_Z 3)) = Some av /\
    ((py_items av = Some [] /\ TypeError = IndexError) \/ (py_items av = None /\ TypeError = TypeError)).
Proof.
  assert (H : read_angle (wired_node (b64_of_Z 5) false (VList [tri]) None None
                            (Some (VFloat (b64_of_Z 3)))) = Err TypeError) by reflexivity.
  split; [exact H|]. exact (read_angle_errors _ _ _ _ _ _ _ H).
Defined.

Lemma process_no_verts_raises_witness : process unfed_world = (Err SvNoDataError, unfed_world).
Proof.
  apply (process_no_verts_raises unfed_world
           (default (new_socket SvVerticesSocket "Verts") (find_socket (nd_outputs (w_node unfed_world)) "Verts"))
           (new_socket SvVerticesSocket "Verts")); reflexivity.
Defined.

Lemma angle_text_vs_int_witness :
  b64_is_inf (b64_of_Z 5) = false /\
  read_angle (wired_node (b64_of_Z 5) false tri None None (Some (VList [VStr (py_str_int (2 ^ 1024))]))) =
    Ok (b64_of_Z (2 ^ 1024)) /\
  read_angle (wired_node (b64_of_Z 5) false tri None None (Some (VList [VStr (py_str_int (2 ^ 1024))]))) <>
    read_angle (wired_node (b64_of_Z 5) false tri None None (Some (VList [VInt (2 ^ 1024)]))).
Proof.
  assert (H : b64_is_inf (b64_of_Z 5) = false) by reflexivity.
  destruct (angle_text_vs_int _ false tri None None (2 ^ 1024) H) as [Ht Hiff].
  split_and!; [exact H|exact Ht|]. intros Heq. apply Hiff in Heq. lia.
Defined.
