(* ===== verification/Editor.v ===== *)
(** * The node's life in the editor

    Section 5 of the spec: the host evaluates the node ([process]) once per
    evaluation pass, and between passes the user edits the two properties,
    each edit re-running the node ([update=updateNode], lines 34-35), and
    the editor changes the links and the data that flows into the sockets.
    [editor_step] is one such event, on the world of [MeshKernel]: a
    property assignment, an evaluation, or a re-wiring that keeps every
    socket's name, type and shown property.  A state the node can reach is
    a sequence of events ([star editor_step], from [Prelude]).

    The invariant proved by induction on the sequence
    ([editor_store_constant]): on a kernel whose [dissolve_limit] accepts
    every float angle and whose [pydata_from_bmesh] never raises, no event
    leaves a BMesh allocated, so the store of live BMeshes never grows.
    [dissolve_batch_leaks_on_error] (C9) is the other side: one raising
    [dissolve_limit] leaves the batch's BMesh live when the exception
    leaves [process]. *)

From S2P Require Import Prelude PyValue PyFloat MatchLongRepeat Socket MeshKernel LimitedDissolve NodeContract.
From stdpp Require Import gmap.

(** The editor may change a socket's link and data, not its name, its
    type or the property it shows. *)
Definition same_shape (a b : socket) : Prop :=
  sk_name a = sk_name b /\ sk_type a = sk_type b /\ sk_prop_name a = sk_prop_name b.

Section Editor.
Context `{K : MeshKernel}.

(** The node with new input and output sockets, as the editor leaves it. *)
Definition rewire (w : world) (ins outs : list socket) : world :=
  {| w_node := {| nd_angle := nd_angle (w_node w);
                  nd_use_dissolve_boundaries := nd_use_dissolve_boundaries (w_node w);
                  nd_inputs := ins; nd_outputs := outs |};
     w_bm := w_bm w; w_next := w_next w |}.

(** One event of the editor, raising or not. *)
Inductive editor_step : world -> world -> Prop :=
| ES_set_angle v w r w' :
    set_angle v w = (r, w') -> editor_step w w'
| ES_set_use_dissolve_boundaries v w r w' :
    set_use_dissolve_boundaries v w = (r, w') -> editor_step w w'
| ES_evaluate w r w' :
    process w = (r, w') -> editor_step w w'
| ES_rewire w ins outs :
    Forall2 same_shape ins (nd_inputs (w_node w)) ->
    Forall2 same_shape outs (nd_outputs (w_node w)) ->
    editor_step w (rewire w ins outs).

(** The store invariant, with the live BMeshes [m]. *)
Definition store_is (m : gmap positive bmesh) (w : world) : Prop := wf_world w /\ w_bm w = m.

End Editor.

(** The world after the node of the examples is evaluated and then given
    the angle [3]. *)
Definition edited_world : @world example_kernel :=
  snd (set_angle (VInt 3) (snd (process wired_world))).

Section EditorFacts.
Context `{K : MeshKernel}.

(** ** Where the rows come from *)

Lemma align_inputs_ok v e f a rows :
  align_inputs v e f a = Ok rows ->
  exists lv le lf, py_items v = Some lv /\ py_items e = Some le /\ py_items f = Some lf.
Proof.
  unfold align_inputs, match_long_repeat_py. simpl.
  destruct (py_items v), (py_items e), (py_items f); simpl; try discriminate. eauto 10.
Qed.

(** Every row [process] hands to the loop ends with the float angle. *)
Lemma align_inputs_float v e f a rows row :
  align_inputs v e f a = Ok rows -> In row rows -> exists x y z, row = [x; y; z; VFloat a].
Proof.
  intros H Hin. destruct (align_inputs_ok _ _ _ _ _ H) as (lv & le & lf & Hv & He & Hf).
  rewrite (align_inputs_rows _ _ _ a _ _ _ Hv He Hf) in H. invc H.
  apply in_map_iff in Hin as [i [<- _]]. unfold aligned_row. eauto.
Qed.

(** ** Each event keeps the store *)

Lemma dissolve_batch_keeps_store `{KT : !KernelTotal} m x y z a :
  preserves (store_is m) (dissolve_batch [x; y; z; VFloat a]).
Proof.
  intros w r w' [Hwf Hm] Hrun.
  unfold dissolve_batch, bm_from_pydata, bm_dissolve_limit, bm_pydata,
    bm_free, bm_get, sbind, slift, sget, sret in Hrun. simpl in Hrun.
  destruct (bmesh_from_pydata x y z true) as [b|e]; simpl in Hrun; [|by invc Hrun].
  rewrite lookup_insert_eq in Hrun.
  destruct (dissolve_total b a (nd_use_dissolve_boundaries (w_node w))) as [b' Hd].
  rewrite Hd in Hrun. simpl in Hrun. rewrite lookup_insert_eq in Hrun.
  destruct (pydata_total b') as [res Hp]. rewrite Hp in Hrun. simpl in Hrun. invc Hrun.
  unfold store_is. simpl. rewrite insert_insert_eq, free_after_alloc by done.
  split; [|done]. apply (wf_set_next w (Pos.succ (w_next w))); [done|lia].
Qed.

Lemma write_outputs_keeps_store m res : preserves (store_is m) (write_outputs res).
Proof.
  intros w r w' [Hwf Hm] Hrun. destruct (write_outputs_store _ _ _ _ Hrun) as [Hn Hb].
  split; [|by rewrite Hb].
  intros h Hh. rewrite Hb in Hh. rewrite Hn. by apply Hwf.
Qed.

Lemma process_keeps_store `{KT : !KernelTotal} m : preserves (store_is m) process.
Proof.
  unfold process. apply preserves_bind; [apply preserves_get|]. intros w0.
  apply preserves_bind_lift. intros out _. destruct (negb _); [apply preserves_ret|].
  apply preserves_bind_lift. intros [[v e] f] _.
  apply preserves_bind_lift. intros a _.
  apply preserves_bind_lift. intros rows Hrows.
  apply preserves_bind; [|intros; apply write_outputs_keeps_store].
  apply preserves_sfor_in. intros row Hin.
  destruct (align_inputs_float _ _ _ _ _ _ Hrows Hin) as (x & y & z & ->).
  apply dissolve_batch_keeps_store.
Qed.

(** An assignment stores the value, keeping the store, then evaluates. *)
Lemma assign_keeps_store `{KT : !KernelTotal} {A} m (r : pyres A) (upd : node -> A -> node) :
  preserves (store_is m)
    (x <- slift r ;; w <- sget ;;
     _ <- sput {| w_node := upd (w_node w) x; w_bm := w_bm w; w_next := w_next w |} ;;
     process).
Proof.
  apply preserves_bind_lift. intros x _. intros w r0 w' Hs Hrun.
  unfold sbind, sget, sput in Hrun. refine (process_keeps_store m _ _ _ _ Hrun).
  destruct Hs as [Hwf Hm]. split; [|done]. intros h Hh. by apply Hwf.
Qed.

Lemma editor_step_keeps_store `{KT : !KernelTotal} m w w' :
  store_is m w -> editor_step w w' -> store_is m w'.
Proof.
  intros Hs Hstep. destruct Hstep as [v w r w' H|v w r w' H|w r w' H|w ins outs _ _].
  - exact (assign_keeps_store m _ (fun nd a => with_angle nd (angle_store a)) w r w' Hs H).
  - exact (assign_keeps_store m _ with_use_dissolve_boundaries w r w' Hs H).
  - exact (process_keeps_store m w r w' Hs H).
  - destruct Hs as [Hwf Hm]. split; [|done]. intros h Hh. by apply Hwf.
Qed.

(** ** Theorem *)

(** C25. On a kernel whose [dissolve_limit] accepts every float angle and
    whose [pydata_from_bmesh] never raises, no sequence of editor events,
    raising or not, changes the store of live BMeshes: every BMesh the node
    allocates is freed, and the store stays well formed. *)
Theorem editor_store_constant `{KT : !KernelTotal} w0 w :
  wf_world w0 -> star editor_step w0 w -> wf_world w /\ w_bm w = w_bm w0.
Proof.
  intros Hwf Hr.
  exact (star_inv _ (store_is (w_bm w0)) _ _ (fun x y Hx Hxy => editor_step_keeps_store _ x y Hx Hxy)
           (conj Hwf eq_refl) Hr).
Qed.

End EditorFacts.

(** ** Witness *)

Lemma editor_store_constant_witness :
  star editor_step wired_world edited_world /\
  wf_world edited_world /\ w_bm edited_world = w_bm wired_world.
Proof.
  assert (Hr : star editor_step wired_world edited_world).
  { eapply star_step; [apply (ES_evaluate _ (fst (process wired_world))); apply surjective_pairing|].
    eapply star_step; [apply (ES_set_angle (VInt 3) _ (fst (set_angle (VInt 3) (snd (process wired_world)))));
                       apply surjective_pairing|].
    apply star_refl. }
  split; [exact Hr|]. exact (editor_store_constant wired_world edited_world (wf_empty_store _ _) Hr).
Defined.
