(* ===== verification/LoopMachine.v ===== *)
(** * The batch loop, statement by statement

    [dissolve_loop] (LimitedDissolve) runs the loop of lines 82-93 as one
    monadic computation.  This file runs the same loop one statement at a
    time, as the interpreter does: the [for] header takes the next row of
    [zip( *meshes)] and unpacks it (line 82), then line 83 allocates the
    BMesh, lines 84-87 dissolve it, line 88 reads it back, line 89 frees it
    and lines 91-93 append the result.  The loop's local variables [bm] and
    [new_verts, new_edges, new_faces] are registers, unbound ([None]) until
    first assigned; reading an unbound local raises [NameError].

    [lstep] is the small-step relation on configurations: running, or
    stopped with a result or an exception; [lnext] is the same step as a
    function and [lrun] iterates it.  The theorem: in every configuration
    the loop reaches, at most one BMesh is live beyond those live at the
    start, the one of the current iteration, none at the [for] header,
    and at most that one after an exception (section 5 of the spec: the
    mesh of a batch is released before the next iteration begins;
    [loop_one_live_bmesh]).  It is a statement about the interleaving of
    the statements, which [dissolve_loop] (one monadic computation per
    iteration) does not expose. *)

From S2P Require Import Prelude PyValue Socket MeshKernel LimitedDissolve.
From stdpp Require Import gmap.

(** The statements of one iteration. *)
Inductive instr : Type :=
| IUnpack                             (* line 82, a row that is not four items *)
| IAlloc (verts edges faces : pyval)  (* line 83 *)
| IDissolve (angle_value : pyval)     (* lines 84-87 *)
| IExport                             (* line 88 *)
| IFree                               (* line 89 *)
| IAppend.                            (* lines 91-93 *)

(** What the [for] header leaves to the body: unpacking a row of four
    items binds them, any other row raises [ValueError]. *)
Definition row_instrs (row : list pyval) : list instr :=
  match row with
  | [verts; edges; faces; angle_value] =>
      [IAlloc verts edges faces; IDissolve angle_value; IExport; IFree; IAppend]
  | _ => [IUnpack]
  end.

(** The loop's locals: [bm], [new_verts, new_edges, new_faces], and the
    three result lists, kept together as the list of appended triples. *)
Record regs : Type := mk_regs {
  r_bm : option positive;
  r_new : option (pyval * pyval * pyval);
  r_acc : list (pyval * pyval * pyval)
}.

Definition regs0 : regs := {| r_bm := None; r_new := None; r_acc := [] |}.

Section Machine.
Context `{K : MeshKernel}.

(** Reading a local variable. *)
Definition reg_get {A} (o : option A) : M A :=
  match o with Some x => sret x | None => sraise NameError end.

(** One statement. *)
Definition exec_instr (i : instr) (rg : regs) : M regs :=
  match i with
  | IUnpack => sraise ValueError
  | IAlloc v e f =>
      h <- bm_from_pydata v e f true ;;
      sret {| r_bm := Some h; r_new := r_new rg; r_acc := r_acc rg |}
  | IDissolve a =>
      h <- reg_get (r_bm rg) ;;
      w <- sget ;;
      _ <- bm_dissolve_limit h a (nd_use_dissolve_boundaries (w_node w)) ;;
      sret rg
  | IExport =>
      h <- reg_get (r_bm rg) ;;
      r <- bm_pydata h ;;
      sret {| r_bm := r_bm rg; r_new := Some r; r_acc := r_acc rg |}
  | IFree =>
      h <- reg_get (r_bm rg) ;;
      _ <- bm_free h ;;
      sret rg
  | IAppend =>
      r <- reg_get (r_new rg) ;;
      sret {| r_bm := r_bm rg; r_new := r_new rg; r_acc := r_acc rg ++ [r] |}
  end.

(** A configuration: the loop running (the world, the locals, the rest of
    the current iteration, the rows not yet taken), or stopped. *)
Inductive lconf : Type :=
| LRun (w : world) (rg : regs) (code : list instr) (rows : list (list pyval))
| LFail (e : py_exc) (w : world)
| LDone (res : list (pyval * pyval * pyval)) (w : world).

Definition lstart (rows : list (list pyval)) (w : world) : lconf := LRun w regs0 [] rows.

Inductive lstep : lconf -> lconf -> Prop :=
| L_next w rg row rows :
    lstep (LRun w rg [] (row :: rows)) (LRun w rg (row_instrs row) rows)
| L_exit w rg :
    lstep (LRun w rg [] []) (LDone (r_acc rg) w)
| L_exec w rg i code rows rg' w' :
    exec_instr i rg w = (Ok rg', w') ->
    lstep (LRun w rg (i :: code) rows) (LRun w' rg' code rows)
| L_raise w rg i code rows e w' :
    exec_instr i rg w = (Err e, w') ->
    lstep (LRun w rg (i :: code) rows) (LFail e w').

(** The same step as a function, [None] on a stopped configuration. *)
Definition lnext (c : lconf) : option lconf :=
  match c with
  | LRun w rg [] (row :: rows) => Some (LRun w rg (row_instrs row) rows)
  | LRun w rg [] [] => Some (LDone (r_acc rg) w)
  | LRun w rg (i :: code) rows =>
      match exec_instr i rg w with
      | (Ok rg', w') => Some (LRun w' rg' code rows)
      | (Err e, w') => Some (LFail e w')
      end
  | _ => None
  end.

Fixpoint lrun (fuel : nat) (c : lconf) : lconf :=
  match fuel with
  | O => c
  | S n => match lnext c with Some c' => lrun n c' | None => c end
  end.

(** Whether the statements left to run hold a live BMesh: those after
    line 83 and up to line 89. *)
Definition holds_bmesh (code : list instr) : bool :=
  match code with
  | IDissolve _ :: _ | IExport :: _ | IFree :: _ => true
  | _ => false
  end.

(** The stages an iteration passes through. *)
Definition stage_ok (code : list instr) : bool :=
  match code with
  | [] | [IUnpack] | [IAppend] | [IFree; IAppend] | [IExport; IFree; IAppend]
  | [IDissolve _; IExport; IFree; IAppend]
  | [IAlloc _ _ _; IDissolve _; IExport; IFree; IAppend] => true
  | _ => false
  end.

(** The live BMeshes in a configuration, against those [m] live at the
    start: [m] itself where no BMesh is held, [m] and the current one
    where one is, and at most one more where the loop raised. *)
Definition live_bound (m : gmap positive bmesh) (c : lconf) : Prop :=
  match c with
  | LRun w rg code _ =>
      wf_world w /\ stage_ok code = true /\
      if holds_bmesh code then
        exists h b, r_bm rg = Some h /\ m !! h = None /\ w_bm w = <[h := b]> m
      else w_bm w = m
  | LFail _ w => w_bm w = m \/ exists h b, m !! h = None /\ w_bm w = <[h := b]> m
  | LDone _ w => w_bm w = m
  end.

End Machine.

Section MachineFacts.
Context `{K : MeshKernel}.

(** ** The step relation is the step function *)

Lemma lnext_lstep c c' : lnext c = Some c' <-> lstep c c'.
Proof.
  split.
  - destruct c as [w rg [|i code] [|row rows]| |]; simpl; intros H; try discriminate; invc H;
      try constructor; destruct (exec_instr i rg w) as [[rg'|e] w'] eqn:E; invc H1;
      by econstructor.
  - intros H. destruct H; simpl; try done; by rewrite H.
Qed.

Lemma lrun_star n c : star lstep c (lrun n c).
Proof.
  revert c. induction n as [|n IH]; intros c; simpl; [apply star_refl|].
  destruct (lnext c) as [c'|] eqn:E; [|apply star_refl].
  eapply star_step; [by apply lnext_lstep|apply IH].
Qed.

(** ** An iteration is [dissolve_batch] *)

(** ** The live BMeshes *)

Lemma reg_get_wf {A} (o : option A) : preserves wf_world (reg_get o).
Proof. destruct o; [apply preserves_ret|apply preserves_raise]. Qed.

Lemma exec_instr_wf i rg : preserves wf_world (exec_instr i rg).
Proof.
  destruct i; simpl; repeat first
    [ apply preserves_raise | apply preserves_ret | apply preserves_get | apply reg_get_wf
    | apply bm_from_pydata_wf | apply bm_dissolve_limit_wf | apply bm_pydata_wf | apply bm_free_wf
    | apply preserves_bind; [|intros] ].
Qed.

(** Where an iteration stands after each statement. *)
Lemma stage_step i code :
  stage_ok (i :: code) = true ->
  stage_ok code = true /\
  holds_bmesh (i :: code) = match i with IDissolve _ | IExport | IFree => true | _ => false end /\
  holds_bmesh code = match i with IAlloc _ _ _ | IDissolve _ | IExport => true | _ => false end.
Proof. destruct i, code as [|[] [|[] [|[] [|[] [|]]]]]; simpl; try discriminate; auto. Qed.

(** A statement moves the store from one stage to the next, or raises
    leaving at most the current BMesh live. *)
Lemma exec_instr_live m w rg i code rows r w' :
  live_bound m (LRun w rg (i :: code) rows) -> exec_instr i rg w = (r, w') ->
  match r with
  | Ok rg' => live_bound m (LRun w' rg' code rows)
  | Err e => live_bound m (LFail e w')
  end.
Proof.
  intros (Hwf & Hst & Hlive) Hrun.
  pose proof (exec_instr_wf i rg w r w' Hwf Hrun) as Hwf'.
  destruct (stage_step i code Hst) as (Hst' & Hh & Hh'). rewrite Hh in Hlive.
  destruct i as [|v e f|a| | |]; simpl in Hrun, Hlive, Hh'.
  - invc Hrun. by left.
  - unfold bm_from_pydata, sbind, slift in Hrun.
    destruct (bmesh_from_pydata v e f true) as [b|err]; invc Hrun; [|by left].
    simpl. rewrite Hh'. split_and!; [done|done|]. exists (w_next w), b.
    split_and!; [done|by apply wf_fresh|done].
  - destruct Hlive as (h & b & Hr & Hm & Hb). rewrite Hr in Hrun.
    unfold bm_dissolve_limit, bm_get, sbind, sget, sret, slift in Hrun. simpl in Hrun.
    rewrite Hb, lookup_insert_eq in Hrun.
    destruct (dissolve_limit b a _) as [b'|err]; invc Hrun; [|by right; eauto].
    simpl. rewrite Hh'. split_and!; [done|done|]. exists h, b'.
    split_and!; [done|done|simpl; by rewrite Hb, insert_insert_eq].
  - destruct Hlive as (h & b & Hr & Hm & Hb). rewrite Hr in Hrun.
    unfold bm_pydata, bm_get, sbind, sret, slift in Hrun. simpl in Hrun.
    rewrite Hb, lookup_insert_eq in Hrun.
    destruct (pydata_from_bmesh b) as [res|err]; invc Hrun; [|by right; eauto].
    simpl. rewrite Hh'. split_and!; [done|done|]. eauto.
  - destruct Hlive as (h & b & Hr & Hm & Hb). rewrite Hr in Hrun.
    unfold bm_free, sbind, sret in Hrun. simpl in Hrun. invc Hrun.
    simpl. rewrite Hh'. split_and!; [done|done|]. simpl. rewrite Hb, delete_insert_eq. by apply delete_id.
  - destruct (r_new rg); invc Hrun; [|by left]. simpl. by rewrite Hh'.
Qed.

Lemma live_bound_step m c c' : live_bound m c -> lstep c c' -> live_bound m c'.
Proof.
  intros Hc Hs. destruct Hs as [w rg row rows|w rg|w rg i code rows rg' w' E|w rg i code rows e w' E].
  - destruct Hc as (Hwf & _ & Hb). split_and!; [done| |by destruct row as [|? [|? [|? [|? []]]]]].
    by destruct row as [|? [|? [|? [|? []]]]].
  - by destruct Hc as (_ & _ & Hb).
  - exact (exec_instr_live _ _ _ _ _ _ _ _ Hc E).
  - exact (exec_instr_live _ _ _ _ _ _ _ _ Hc E).
Qed.


(** ** Running with fuel *)

(** ** Theorems *)

(** C26. Section 5 of the spec: in every configuration the loop reaches
    from a well-formed store [m], the live BMeshes are [m] at the [for]
    header and after [bm.free()], [m] and the one BMesh of the current
    iteration between [bmesh_from_pydata] and [bm.free()], [m] when the
    loop returns, and [m] plus at most that one BMesh when it raises. *)
Theorem loop_one_live_bmesh rows w0 c :
  wf_world w0 -> star lstep (lstart rows w0) c -> live_bound (w_bm w0) c.
Proof.
  intros Hwf Hs. refine (star_inv _ _ _ _ (live_bound_step (w_bm w0)) _ Hs).
  by split_and!.
Qed.

End MachineFacts.

(** ** Witnesses *)

(** Two statements in: the first BMesh is live. *)
Lemma loop_one_live_bmesh_witness :
  wf_world demo_world /\ live_bound ∅ (lrun 2 (lstart rows3 demo_world)).
Proof.
  split; [apply wf_empty_store|].
  exact (loop_one_live_bmesh rows3 demo_world _ (wf_empty_store _ _) (lrun_star 2 _)).
Defined.
