(* ===== verification/NodeUI.v ===== *)
(** * The node class, its panel and its registration

    What limited_dissolve.py gives Blender besides [process]:
    - the class attributes [bl_idname], [bl_label], [bl_icon]
      (lines 30-32), as the record [node_class];
    - [draw_buttons] (lines 48-49), which puts one widget in the node's
      panel, the [use_dissolve_boundaries] checkbox: a panel is the list of
      [layout.prop] calls it receives;
    - [register] and [unregister] (lines 99-103), which hand the class to
      [bpy.utils.register_class] and [bpy.utils.unregister_class].

    Blender's class registry is not code of this repository.  It is
    modelled as the list of the [bl_idname]s registered so far, with the
    two errors Blender raises: [register_class] on a class already
    registered raises [ValueError], and [unregister_class] on a class not
    registered raises [RuntimeError].

    The theorems: a property of the node is always editable, in the panel
    or as the default of the socket that shows it
    ([properties_exposed]). *)

From S2P Require Import Prelude PyValue PyFloat Socket.
From stdpp Require Import sets strings.

(** Lines 30-32. *)
Record node_class : Type := mk_node_class {
  bl_idname : string;
  bl_label : string;
  bl_icon : string
}.

Definition SvLimitedDissolve_class : node_class :=
  {| bl_idname := "SvLimitedDissolve"; bl_label := "Limited Dissolve"; bl_icon := "MOD_DECIM" |}.

(** A widget of a panel: [layout.prop(self, name)]. *)
Inductive ui_item : Type :=
| UIProp (name : string).

(** Lines 48-49. *)
Definition draw_buttons (nd : node) : list ui_item := [UIProp "use_dissolve_boundaries"].

(** The [bl_idname]s of the registered classes. *)
Definition registry : Type := list string.

Definition register_class (c : node_class) (r : registry) : pyres registry :=
  if bool_decide (bl_idname c ∈ r) then Err ValueError else Ok (bl_idname c :: r).

Definition unregister_class (c : node_class) (r : registry) : pyres registry :=
  if bool_decide (bl_idname c ∈ r) then Ok (filter (fun n => n <> bl_idname c) r)
  else Err RuntimeError.

(** Lines 99-100. *)
Definition register (r : registry) : pyres registry := register_class SvLimitedDissolve_class r.

(** Lines 102-103. *)
Definition unregister (r : registry) : pyres registry := unregister_class SvLimitedDissolve_class r.

(** ** Lemmas *)

(** The sockets [sv_init] appends, whatever the node had before. *)
Lemma sv_init_angle_socket nd0 :
  exists sk, In sk (nd_inputs (sv_init nd0)) /\ sk_prop_name sk = Some "angle"%string.
Proof.
  exists {| sk_name := "Angle"; sk_type := SvStringsSocket; sk_linked := false; sk_data := None;
            sk_prop_name := Some "angle"%string |}.
  split; [|reflexivity]. simpl. apply in_or_app. right. simpl. tauto.
Qed.

(** ** Theorems *)

(** C21. Every property of the node can be edited: [use_dissolve_boundaries]
    is the checkbox [draw_buttons] draws, and [angle] is the default the
    [Angle] input socket shows ([prop_name = 'angle']). *)
Theorem properties_exposed nd0 p v :
  node_prop (sv_init nd0) p = Some v ->
  In (UIProp p) (draw_buttons (sv_init nd0)) \/
  exists sk, In sk (nd_inputs (sv_init nd0)) /\ sk_prop_name sk = Some p.
Proof.
  unfold node_prop. destruct (String.eqb_spec p "angle") as [->|Ha].
  - intros _. right. apply sv_init_angle_socket.
  - destruct (String.eqb_spec p "use_dissolve_boundaries") as [->|Hu]; [|done].
    intros _. left. simpl. tauto.
Qed.

(** ** Witnesses *)

Lemma properties_exposed_witness :
  node_prop new_node "angle" = Some (VFloat (b64_of_Z 5)) /\
  (In (UIProp "angle") (draw_buttons new_node) \/
   exists sk, In sk (nd_inputs new_node) /\ sk_prop_name sk = Some "angle"%string).
Proof. split; [reflexivity|]. exact (properties_exposed _ "angle" _ eq_refl). Defined.
