(* ===== verification/DrawingAbstractions.v ===== *)
(** * The graphics facade [drawing_abstractions.py]

    The module defines [shading_3d], whose shader names depend on
    [bpy.app.version <= (3, 4)] (lines 16-22).  It then defines two classes
    of drawing functions, [Drawing] (lines 24-46) and [OldDrawing]
    (lines 50-88), and finally binds [drawing] to an instance of one of them
    chosen by [bpy.app.version >= (3, 5, 0)] (line 91).

    The model follows what Python does with this text:
    - version tuples compare lexicographically, a proper prefix being
      smaller ([tuple_cmp]);
    - a class body is the list of its attribute assignments, each right-hand
      side an [attr_expr]: a reference to a builtin of [gpu] or [bgl], a
      [lambda], a [def], an [import], or the keyword [pass].  [pass] is not
      an expression, so [x = pass] is a [SyntaxError] when the module is
      compiled ([load_module]);
    - an attribute fetched through an instance ([call_attr]) is bound when
      it is a Python function (a [lambda] or a [def]): [self] is passed
      first.  A builtin is not bound.  A wrong argument count raises
      [TypeError];
    - the body of a function looks its free names up in the module's
      globals, not in the class body, so [bgl], imported in [OldDrawing]'s
      body, is a [NameError] inside its lambdas. *)

From S2P Require Import Prelude PyValue.

(** ** Version tuples *)

(** Python's comparison of tuples of integers. *)
Fixpoint tuple_cmp (a b : list Z) : comparison :=
  match a, b with
  | [], [] => Eq
  | [], _ :: _ => Lt
  | _ :: _, [] => Gt
  | x :: a', y :: b' =>
      match Z.compare x y with
      | Eq => tuple_cmp a' b'
      | c => c
      end
  end.

Definition tuple_le (a b : list Z) : bool :=
  match tuple_cmp a b with Gt => false | _ => true end.

Definition tuple_ge (a b : list Z) : bool :=
  match tuple_cmp a b with Lt => false | _ => true end.

(** Lines 16-22: the shader names of [shading_3d]. *)
Definition shading_3d (version : list Z) : string * string :=
  if tuple_le version [3; 4]%Z then ("3D_UNIFORM_COLOR", "3D_SMOOTH_COLOR")%string
  else ("UNIFORM_COLOR", "SMOOTH_COLOR")%string.

Inductive backend : Type :=
| BDrawing
| BOldDrawing.

(** Line 91: the class [drawing] is an instance of. *)
Definition select_backend (version : list Z) : backend :=
  if tuple_ge version [3; 5; 0]%Z then BDrawing else BOldDrawing.

(** ** Class bodies *)

Inductive attr_expr : Type :=
| ABuiltin (path : string) (arity : nat)      (** a C function such as [gpu.state.line_width_set] *)
| ALambda (params : list string) (free : list string)  (** [lambda params: body], [free] the names the body reads *)
| ADef (params : list string) (free : list string)     (** [def name(params): body] *)
| AImport (module : string)                   (** [import module] *)
| APass.                                      (** the keyword [pass] on the right of [=] *)

(** Lines 26-46. *)
Definition drawing_body : list (string * attr_expr) :=
  [("set_wireframe_line", APass); ("set_wireframe_fill", APass);
   ("set_line_width", ABuiltin "gpu.state.line_width_set" 1);
   ("reset_line_width", ALambda [] ["gpu"]);
   ("set_point_size", ABuiltin "gpu.state.point_size_set" 1);
   ("reset_point_size", ALambda [] ["gpu"]);
   ("enable_polygon_offset_fill", APass); ("disable_polygon_offset_fill", APass);
   ("set_polygon_offset_amounts", APass);
   ("enable_blendmode", APass); ("disable_blendmode", APass);
   ("enable_depth_test", APass); ("disable_depth_test", APass);
   ("new_buffer_texture", APass); ("get_buffer", APass); ("bind_texture_2d", APass);
   ("init_complex_texture", APass); ("generate_textures", APass); ("delete_texture", APass)]%string.

(** Lines 52-88. *)
Definition old_drawing_body : list (string * attr_expr) :=
  [("bgl", AImport "bgl");
   ("set_wireframe_line", ALambda [] ["bgl"]); ("set_wireframe_fill", ALambda [] ["bgl"]);
   ("set_line_width", ABuiltin "bgl.glLineWidth" 1);
   ("reset_line_width", ALambda [] ["bgl"]);
   ("set_point_size", ABuiltin "bgl.glPointSize" 1);
   ("reset_point_size", ALambda [] ["bgl"]);
   ("enable_polygon_offset_fill", ALambda [] ["bgl"]);
   ("disable_polygon_offset_fill", ALambda [] ["bgl"]);
   ("set_polygon_offset_amounts", ALambda [] ["bgl"]);
   ("enable_blendmode", ALambda [] ["bgl"]); ("disable_blendmode", ALambda [] ["bgl"]);
   ("enable_depth_test", ALambda [] ["bgl"]); ("disable_depth_test", ALambda [] ["bgl"]);
   ("new_buffer_texture", ALambda [] ["bgl"]);
   ("get_buffer", ALambda ["indexed_buffer"] ["bgl"]);
   ("new_buffer_texture_sized", ALambda ["size"; "data"] ["bgl"]);
   ("bind_texture_2d", ALambda ["texture"] ["bgl"]);
   ("delete_texture", ALambda ["texture"] ["bgl"]);
   ("init_complex_texture",
      ADef ["self"; "width"; "height"; "texname"; "texture"; "data"; "format"] ["bgl"]);
   ("generate_textures", ALambda ["name"] ["bgl"])]%string.

(** The module's global names: its imports (lines 11-13) and its own
    definitions. *)
Definition module_globals : list string :=
  ["bpy"; "gpu"; "NamedTuple"; "shading_3d"; "Drawing"; "OldDrawing"; "drawing"]%string.

Definition body_of (b : backend) : list (string * attr_expr) :=
  match b with
  | BDrawing => drawing_body
  | BOldDrawing => old_drawing_body
  end.

Definition is_pass (e : attr_expr) : bool := match e with APass => true | _ => false end.

(** What Blender offers the module when it is imported. *)
Record host : Type := mk_host {
  host_version : list Z;
  host_has_bgl : bool
}.

Record module_state : Type := mk_module {
  ms_shading : string * string;
  ms_drawing : backend
}.

(** Importing the module: it is compiled first (a [pass] used as a value
    is a [SyntaxError]), then run top to bottom, where [OldDrawing]'s body
    executes [import bgl]. *)
Definition load_module (h : host) : pyres module_state :=
  if existsb (fun a => is_pass a.2) (drawing_body ++ old_drawing_body) then Err SyntaxError
  else if negb (host_has_bgl h) then Err ImportError
  else Ok {| ms_shading := shading_3d (host_version h);
             ms_drawing := select_backend (host_version h) |}.

(** Whether [shading_3d] gave the names of Blender 3.5 on, and whether
    [drawing] is the [gpu]-based backend. *)
Definition shading_is_new (version : list Z) : bool :=
  String.eqb (shading_3d version).1 "UNIFORM_COLOR".

Definition backend_is_new (version : list Z) : bool :=
  match select_backend version with BDrawing => true | BOldDrawing => false end.

Definition names_bound (free : list string) : bool :=
  forallb (fun n => existsb (String.eqb n) module_globals) free.

(** [instance.name( *args)] with [nargs] arguments. *)
Definition call_attr (body : list (string * attr_expr)) (name : string) (nargs : nat) : pyres unit :=
  match List.find (fun a => String.eqb a.1 name) body with
  | None => Err AttributeError
  | Some (_, e) =>
      match e with
      | ABuiltin _ arity => if nargs =? arity then Ok tt else Err TypeError
      | ALambda params free | ADef params free =>
          if S nargs =? length params then
            if names_bound free then Ok tt else Err NameError
          else Err TypeError
      | AImport _ => Err TypeError
      | APass => Err SyntaxError
      end
  end.

(** ** Theorems *)

Lemma tuple_cmp_cons x y a b :
  tuple_cmp (x :: a) (y :: b) =
  match Z.compare x y with Eq => tuple_cmp a b | c => c end.
Proof. reflexivity. Qed.

(** C13. On a version [(a, b, c)], the two version tests of the module
    disagree exactly on Blender 3.4.x: there [shading_3d] takes the new
    shader names while [drawing] takes the old [bgl] backend, because
    [(3, 4, c) > (3, 4)]. *)
Theorem version_tests_disagree a b c :
  (0 <= c)%Z ->
  shading_is_new [a; b; c] <> backend_is_new [a; b; c] <-> a = 3%Z /\ b = 4%Z.
Proof.
  intros Hc. unfold shading_is_new, backend_is_new, shading_3d, select_backend, tuple_le, tuple_ge.
  rewrite !tuple_cmp_cons.
  destruct (Z.compare_spec a 3) as [->|Ha|Ha]; cbn.
  - destruct (Z.compare_spec b 4) as [->|Hb|Hb]; cbn.
    + split; [done|]. intros _. discriminate.
    + destruct (Z.compare_spec b 5); [lia| |lia]. cbn. split; [congruence|lia].
    + destruct (Z.compare_spec b 5) as [->|Hb5|Hb5]; cbn.
      * destruct (Z.compare_spec c 0); cbn; [split; [congruence|lia]|lia|split; [congruence|lia]].
      * lia.
      * split; [congruence|lia].
  - split; [congruence|lia].
  - split; [congruence|lia].
Qed.

(** C14. No lambda or method of [OldDrawing] can run through the instance
    [drawing], whatever the number of arguments: with the arguments the
    lambda declares, the extra [self] makes it a [TypeError]; with one less,
    its body reads [bgl], which is not a global ([NameError]). *)
Theorem old_drawing_functions_fail name params free nargs :
  In (name, ALambda params free) old_drawing_body \/ In (name, ADef params free) old_drawing_body ->
  call_attr old_drawing_body name nargs <> Ok tt.
Proof.
  intros Hin. unfold call_attr.
  destruct Hin as [Hin|Hin]; simpl in Hin;
    repeat (destruct Hin as [Hin|Hin];
            [first [discriminate Hin | injection Hin as <- <- <-];
             cbn; repeat case_match; discriminate|]);
    destruct Hin.
Qed.

(** ** Witnesses *)

Lemma version_tests_disagree_witness :
  shading_3d [3; 4; 1]%Z = ("UNIFORM_COLOR", "SMOOTH_COLOR")%string /\
  select_backend [3; 4; 1]%Z = BOldDrawing /\
  shading_is_new [3; 4; 1]%Z <> backend_is_new [3; 4; 1]%Z.
Proof.
  split_and!; [reflexivity|reflexivity|]. apply (proj2 (version_tests_disagree 3 4 1 ltac:(lia))). lia.
Defined.

Lemma old_drawing_functions_fail_witness :
  In ("reset_line_width", ALambda [] ["bgl"])%string old_drawing_body /\
  call_attr old_drawing_body "reset_line_width" 0 <> Ok tt.
Proof.
  split; [simpl; tauto|]. apply (old_drawing_functions_fail _ [] ["bgl"]%string). left. simpl. tauto.
Defined.
